(** * Verification of the M1 optimisation tool

    Shallow embedding of the two scripts of the repository,
    [ollama-api.py] (critical-file identification and in-place rewrite)
    and [m1_performance_compare.py] (backup swap, benchmark, diff and
    report), with the properties of their specification settled on it.

    Modelling conventions.
    - A Python [str] is a list of Unicode code points ([list N]).
    - The file system is a finite map from path strings to nodes, a
      file or a directory. Paths are compared as written. A file holds
      bytes (a list of numbers below 256). A text-mode read decodes
      them as strict UTF-8 and translates [\r\n] and [\r] to [\n]
      (universal newlines); a text-mode write encodes the string as
      UTF-8 after the file has been truncated, and writes [\n] as it
      is (the POSIX line separator, as on the Macs the tool is for).
    - Effects are threaded through a [world]: the file system and a
      trace of the externally visible events (prints are tagged with
      the source line of the [print] statement).
    - Timing values are exact rationals; no property below depends on
      how a float computation rounds.
    - Everything the scripts obtain from outside (HTTP responses, the
      [tree] subprocess, random draws, modification times, the plotting
      library, difflib) enters as a parameter that returns or raises. *)

From Stdlib Require Import NArith ZArith QArith List Ascii String Lia.
From stdpp Require Import gmap list.

Local Open Scope N_scope.

(* ===================================================================== *)
(** * Python strings *)
(* ===================================================================== *)

Module Py.

Definition pystr : Type := list N.

(** A string literal, as its code points (ASCII literals only). *)
Definition py (s : String.string) : pystr :=
  List.map N_of_ascii (list_ascii_of_string s).

(** Truthiness of a [str]: the empty string is falsy. *)
Definition truthy (s : pystr) : bool :=
  match s with [] => false | _ :: _ => true end.

Definition in_range (lo hi c : N) : bool := (lo <=? c) && (c <=? hi).

(** [str.isspace] for one code point (CPython's [_PyUnicode_IsWhitespace]). *)
Definition isspace (c : N) : bool :=
  in_range 9 13 c || in_range 28 32 c || (c =? 133) || (c =? 160)
  || (c =? 5760) || in_range 8192 8202 c || (c =? 8232) || (c =? 8233)
  || (c =? 8239) || (c =? 8287) || (c =? 12288).

Fixpoint lstrip_by (p : N -> bool) (s : pystr) : pystr :=
  match s with
  | [] => []
  | c :: rest => if p c then lstrip_by p rest else s
  end.

Definition rstrip_by (p : N -> bool) (s : pystr) : pystr :=
  rev (lstrip_by p (rev s)).

Definition strip_by (p : N -> bool) (s : pystr) : pystr :=
  rstrip_by p (lstrip_by p s).

(** [s.strip()] *)
Definition strip (s : pystr) : pystr := strip_by isspace s.

(** [s.strip(chars)] *)
Definition strip_chars (chars : pystr) (s : pystr) : pystr :=
  strip_by (fun c => existsb (N.eqb c) chars) s.

(** [s.split(sep)] for a one-character separator: always at least one
    piece, the pieces around every occurrence of [sep]. *)
Fixpoint split_on (sep : N) (s : pystr) : list pystr :=
  match s with
  | [] => [[]]
  | c :: rest =>
      if c =? sep then [] :: split_on sep rest
      else match split_on sep rest with
           | [] => [[c]]
           | p :: ps => (c :: p) :: ps
           end
  end.

(** [sep.join(parts)] *)
Fixpoint join (sep : pystr) (parts : list pystr) : pystr :=
  match parts with
  | [] => []
  | [p] => p
  | p :: ps => p ++ sep ++ join sep ps
  end.

(** [s.startswith(prefix)] *)
Fixpoint startswith (s prefix : pystr) : bool :=
  match prefix, s with
  | [], _ => true
  | _ :: _, [] => false
  | a :: prefix', c :: s' => (c =? a) && startswith s' prefix'
  end.

(** [needle in s] *)
Fixpoint contains (needle s : pystr) : bool :=
  startswith s needle ||
  match s with
  | [] => false
  | _ :: rest => contains needle rest
  end.

(** [f.readlines()]: the lines of a text, each keeping its newline. *)
Fixpoint readlines (s : pystr) : list pystr :=
  match s with
  | [] => []
  | c :: rest =>
      if c =? 10 then [c] :: readlines rest
      else match readlines rest with
           | [] => [[c]]
           | l :: ls => (c :: l) :: ls
           end
  end.

Definition NL : N := 10.
Definition CR : N := 13.
Definition DQUOTE : N := 34.

(** ** Text and bytes *)

(** The content of a file: byte values. An ASCII literal written with
    [py] is its own encoding. *)
Definition bytes : Type := list N.

(** What a text-mode read does to line ends (newline=None): [\r\n] and
    a lone [\r] both become [\n]. *)
Fixpoint universal_newlines (s : pystr) : pystr :=
  match s with
  | [] => []
  | c :: rest =>
      if c =? CR then
        NL :: match rest with
              | [] => []
              | c' :: rest' =>
                  if c' =? NL then universal_newlines rest'
                  else universal_newlines rest
              end
      else c :: universal_newlines rest
  end.

(** [chr(c).encode('utf-8')]: surrogates and numbers past U+10FFFF have
    no encoding. *)
Definition utf8_encode_point (c : N) : option bytes :=
  if c <? 128 then Some [c]
  else if c <? 2048 then Some [192 + c / 64; 128 + c mod 64]
  else if c <? 65536 then
    if (55296 <=? c) && (c <=? 57343) then None
    else Some [224 + c / 4096; 128 + (c / 64) mod 64; 128 + c mod 64]
  else if c <? 1114112 then
    Some [240 + c / 262144; 128 + (c / 4096) mod 64;
          128 + (c / 64) mod 64; 128 + c mod 64]
  else None.

(** [s.encode('utf-8')], [None] for [UnicodeEncodeError]. *)
Fixpoint utf8_encode (s : pystr) : option bytes :=
  match s with
  | [] => Some []
  | c :: rest =>
      match utf8_encode_point c, utf8_encode rest with
      | Some b, Some bs => Some (b ++ bs)
      | _, _ => None
      end
  end.

Definition between (lo hi b : N) : bool := (lo <=? b) && (b <=? hi).

(** The second byte of a three-byte sequence: no overlong form after
    E0, no surrogate after ED. *)
Definition second_of_three (b0 b1 : N) : bool :=
  if b0 =? 224 then between 160 191 b1
  else if b0 =? 237 then between 128 159 b1
  else between 128 191 b1.

(** The second byte of a four-byte sequence: no overlong form after F0,
    nothing past U+10FFFF after F4. *)
Definition second_of_four (b0 b1 : N) : bool :=
  if b0 =? 240 then between 144 191 b1
  else if b0 =? 244 then between 128 143 b1
  else between 128 191 b1.

(** [b.decode('utf-8')] with the default strict error handling, [None]
    for [UnicodeDecodeError]. *)
Fixpoint utf8_decode (b : bytes) : option pystr :=
  match b with
  | [] => Some []
  | b0 :: r0 =>
      if b0 <? 128 then option_map (cons b0) (utf8_decode r0)
      else if between 194 223 b0 then
        match r0 with
        | b1 :: r1 =>
            if between 128 191 b1
            then option_map (cons ((b0 - 192) * 64 + (b1 - 128))) (utf8_decode r1)
            else None
        | _ => None
        end
      else if between 224 239 b0 then
        match r0 with
        | b1 :: b2 :: r2 =>
            if second_of_three b0 b1 && between 128 191 b2
            then option_map
                   (cons ((b0 - 224) * 4096 + (b1 - 128) * 64 + (b2 - 128)))
                   (utf8_decode r2)
            else None
        | _ => None
        end
      else if between 240 244 b0 then
        match r0 with
        | b1 :: b2 :: b3 :: r3 =>
            if second_of_four b0 b1 && between 128 191 b2 && between 128 191 b3
            then option_map
                   (cons ((b0 - 240) * 262144 + (b1 - 128) * 4096
                          + (b2 - 128) * 64 + (b3 - 128)))
                   (utf8_decode r3)
            else None
        | _ => None
        end
      else None
  end.

(** [b.decode('latin-1')]: every byte is the code point of its value. *)
Definition latin1_decode (b : bytes) : pystr := b.

End Py.
Import Py.


(* ===================================================================== *)
(** * The world the scripts run in *)
(* ===================================================================== *)

Module Sys.

(** Exceptions the scripts can meet (all are subclasses of [Exception]). *)
Inductive exn : Type :=
| FileNotFoundError
| IsADirectoryError
| FileExistsError
| UnicodeDecodeError
| UnicodeEncodeError
| JSONDecodeError
| AttributeError
| TypeError
| ZeroDivisionError
| StatisticsError
| ExternalError (origin : N).   (* raised inside an external collaborator *)

Inductive result (A : Type) : Type :=
| Returned (a : A)
| Raised (e : exn).
Arguments Returned {A} a.
Arguments Raised {A} e.

Inductive node : Type :=
| File (content : bytes)
| Dir.

(** The body of an HTTP POST to the generation service. *)
Record request : Type := {
  req_url : pystr;
  req_model : pystr;
  req_prompt : pystr;
  req_stream : bool;
  req_files : option (list (pystr * pystr))
}.

(** A value interpolated into a printed line. *)
Inductive arg : Type :=
| AStr (s : pystr)
| AInt (z : Z)
| ANum (q : Q).

Inductive event : Type :=
| Print (line : N) (args : list arg)      (* print(...) at that source line *)
| PrintErr (line : N) (args : list arg)   (* print(..., file=sys.stderr) *)
| HttpPost (r : request)                  (* requests.post *)
| RunTree                                 (* subprocess.run(['tree', ...]) *)
| Sleep                                   (* time.sleep(0.1) *)
| Draw.                                   (* one call of the random source *)

Record world : Type := {
  files : gmap pystr node;
  trace : list event;      (* most recent event last *)
  draws : nat              (* random draws consumed so far *)
}.

Definition M (A : Type) : Type := world -> result A * world.

Definition ret {A} (a : A) : M A := fun w => (Returned a, w).

Definition raise {A} (e : exn) : M A := fun w => (Raised e, w).

Definition bind {A B} (m : M A) (k : A -> M B) : M B :=
  fun w =>
    match m w with
    | (Returned a, w') => k a w'
    | (Raised e, w') => (Raised e, w')
    end.

(** [try: body  except Exception as e: handler(e)]: the handler runs in
    the world the body left behind. *)
Definition try_except {A} (body : M A) (handler : exn -> M A) : M A :=
  fun w =>
    match body w with
    | (Returned a, w') => (Returned a, w')
    | (Raised e, w') => handler e w'
    end.

(** [except cls:] for one exception class; others propagate. *)
Definition try_except_only {A} (cls : exn -> bool)
    (body : M A) (handler : exn -> M A) : M A :=
  try_except body (fun e => if cls e then handler e else raise e).

Definition emit (e : event) : M unit :=
  fun w => (Returned tt,
            {| files := files w; trace := trace w ++ [e]; draws := draws w |}).

Definition print (line : N) (args : list arg) : M unit := emit (Print line args).
Definition print_err (line : N) (args : list arg) : M unit :=
  emit (PrintErr line args).

(** ** File system *)

(** No file lives at the empty path. *)
Definition node_at (fs : gmap pystr node) (p : pystr) : option node :=
  match p with
  | [] => None
  | _ :: _ => fs !! p
  end.

(** [os.path.isfile] *)
Definition isfile (p : pystr) : M bool :=
  fun w => (Returned match node_at (files w) p with
                     | Some (File _) => true
                     | _ => false
                     end, w).

(** [os.path.exists] *)
Definition path_exists (p : pystr) : M bool :=
  fun w => (Returned match node_at (files w) p with
                     | Some _ => true
                     | None => false
                     end, w).

(** [with open(p, 'rb') as f: f.read()] *)
Definition read_bytes (p : pystr) : M bytes :=
  fun w =>
    match node_at (files w) p with
    | Some (File c) => (Returned c, w)
    | Some Dir => (Raised IsADirectoryError, w)
    | None => (Raised FileNotFoundError, w)
    end.

Definition set_files (fs : gmap pystr node) (w : world) : world :=
  {| files := fs; trace := trace w; draws := draws w |}.

(** [with open(p, 'wb') as f: f.write(b)]: creates or replaces the file. *)
Definition write_bytes (p : pystr) (s : bytes) : M unit :=
  fun w =>
    match p with
    | [] => (Raised FileNotFoundError, w)
    | _ :: _ =>
        match files w !! p with
        | Some Dir => (Raised IsADirectoryError, w)
        | _ => (Returned tt, set_files (<[p := File s]> (files w)) w)
        end
    end.

(** [with open(p, 'r', encoding='utf-8') as f: f.read()] *)
Definition read_text (p : pystr) : M pystr :=
  bind (read_bytes p) (fun content =>
  match utf8_decode content with
  | Some text => ret (universal_newlines text)
  | None => raise UnicodeDecodeError
  end).

(** [with open(p, 'r', encoding='latin-1') as f: f.read()] *)
Definition read_latin1 (p : pystr) : M pystr :=
  bind (read_bytes p) (fun content =>
  ret (universal_newlines (latin1_decode content))).

(** [with open(p, 'w', encoding='utf-8') as f: f.write(s)]: [open]
    creates or truncates the file, then [f.write] encodes the whole
    string or raises, leaving the file empty. *)
Definition write_text (p : pystr) (s : pystr) : M unit :=
  match utf8_encode s with
  | Some content => write_bytes p content
  | None => bind (write_bytes p []) (fun _ => raise UnicodeEncodeError)
  end.

(** The last index of [c] in [s], as the split around it. *)
Fixpoint rsplit_at (c : N) (s : pystr) : option (pystr * pystr) :=
  match s with
  | [] => None
  | x :: rest =>
      match rsplit_at c rest with
      | Some (before, after) => Some (x :: before, after)
      | None => if x =? c then Some ([], rest) else None
      end
  end.

Definition SLASH : N := 47.
Definition DOT : N := 46.

(** [os.path.basename] *)
Definition basename (p : pystr) : pystr :=
  match rsplit_at SLASH p with
  | Some (_, after) => after
  | None => p
  end.

(** [os.path.dirname] *)
Definition dirname (p : pystr) : pystr :=
  match rsplit_at SLASH p with
  | Some (before, _) =>
      let head := before ++ [SLASH] in
      if forallb (N.eqb SLASH) head then head
      else rstrip_by (N.eqb SLASH) head
  | None => []
  end.

(** [os.path.splitext(p)[1]]: the extension, with its dot; leading dots
    of the base name do not start an extension. *)
Definition splitext_ext (p : pystr) : pystr :=
  let b := basename p in
  match rsplit_at DOT b with
  | Some (stem, ext) =>
      if forallb (N.eqb DOT) stem then [] else DOT :: ext
  | None => []
  end.

(** [shutil.copy2(src, dst)], a copy of the bytes; a directory as [dst]
    receives the copy under the source's base name. *)
Definition copy2 (src dst : pystr) : M unit :=
  bind (read_bytes src) (fun content =>
  fun w =>
    match node_at (files w) dst with
    | Some Dir => write_bytes (dst ++ [SLASH] ++ basename src) content w
    | _ => write_bytes dst content w
    end).

(** [os.makedirs(d, exist_ok=True)] *)
Definition makedirs (d : pystr) : M unit :=
  fun w =>
    match d with
    | [] => (Raised FileNotFoundError, w)
    | _ :: _ =>
        match files w !! d with
        | Some Dir => (Returned tt, w)
        | Some (File _) => (Raised FileExistsError, w)
        | None => (Returned tt, set_files (<[d := Dir]> (files w)) w)
        end
    end.

End Sys.
Import Sys.

Declare Scope py_scope.
Delimit Scope py_scope with py.
Notation "x <- m ;; k" := (bind m (fun x => k))
  (at level 100, m at next level, k at level 200, right associativity) : py_scope.
Notation "m >> k" := (bind m (fun _ => k))
  (at level 100, k at level 200, right associativity) : py_scope.
Local Open Scope py_scope.


(* ===================================================================== *)
(** * ollama-api.py *)
(* ===================================================================== *)

Module OllamaApi.

Definition MODEL : pystr := py "deepseek-r1:70b".
Definition API_ENDPOINT : pystr :=
  py "https://p01--deepseek-ollama-copy--8bsw8fx29k5g.code.run/api/generate".

Definition COMPRESSED_FILE : pystr := py "repo-info/one-file-compressed.txt".
Definition UNCOMPRESSED_FILE : pystr := py "repo-info/one-file-uncompressed.txt".

Definition DEBUG : bool := true.

(** Fallback rendering files of [identify_critical_file]. *)
Definition RENDERING_FILES : list pystr := [
  py "render/fluid.wgsl";
  py "render/fluidRender.ts";
  py "src/renderers/FluidRenderer.js";
  py "src/renderers/Renderer.js";
  py "src/shaders/render.wgsl"
].

(** [RENDERING_FILES[i]] *)
Definition rendering_file (i : nat) : pystr := nth i RENDERING_FILES [].

(** ** What the service answers *)

#[warnings="-register-all"] Inductive json : Type :=
| JNull
| JBool (b : bool)
| JNumber (q : Q)
| JString (s : pystr)
| JArray (items : list json)
| JObject (members : list (pystr * json)).

Record response : Type := {
  status_code : Z;
  json_body : option json;   (* [None]: the body does not decode *)
  text : pystr
}.

Fixpoint pystr_eqb (a b : pystr) : bool :=
  match a, b with
  | [], [] => true
  | x :: a', y :: b' => (x =? y) && pystr_eqb a' b'
  | _, _ => false
  end.

(** Lookup in a decoded object: the last member with the key wins. *)
Fixpoint member (key : pystr) (members : list (pystr * json)) : option json :=
  match members with
  | [] => None
  | (k, v) :: rest =>
      match member key rest with
      | Some v' => Some v'
      | None => if pystr_eqb k key then Some v else None
      end
  end.

(** Number of keys of a decoded object. *)
Fixpoint key_count (members : list (pystr * json)) : nat :=
  match members with
  | [] => O
  | (k, _) :: rest =>
      match member k rest with
      | Some _ => key_count rest
      | None => S (key_count rest)
      end
  end.

(** ** Regular expressions of the script *)

Definition LT : N := 60.
Definition GT : N := 62.

(** After a ['<']: does [[^>]+>] match, that is, is the next character
    not ['>'] and is there a ['>'] further on? *)
Definition tag_opens (rest : pystr) : bool :=
  match rest with
  | [] => false
  | c :: r => negb (c =? GT) && existsb (N.eqb GT) r
  end.

(** [re.sub(r'<[^>]+>', '', s)], scanning left to right; [inside] holds
    while the characters of a matched tag are being dropped. *)
Fixpoint sub_tags (inside : bool) (s : pystr) : pystr :=
  match s with
  | [] => []
  | c :: rest =>
      if inside then
        if c =? GT then sub_tags false rest else sub_tags true rest
      else if (c =? LT) && tag_opens rest then sub_tags true rest
      else c :: sub_tags false rest
  end.

(** [[a-zA-Z0-9]] *)
Definition is_alnum (c : N) : bool :=
  in_range 97 122 c || in_range 65 90 c || in_range 48 57 c.

(** [[a-zA-Z0-9_/.-]] *)
Definition is_path_char (c : N) : bool :=
  is_alnum c || (c =? 95) || (c =? SLASH) || (c =? DOT) || (c =? 45).

Fixpoint take_alnum (s : pystr) : pystr :=
  match s with
  | [] => []
  | c :: rest => if is_alnum c then c :: take_alnum rest else []
  end.

(** [\.[a-zA-Z0-9]+] at the head of [s]: the text it matches. *)
Definition match_ext (s : pystr) : option pystr :=
  match s with
  | [] => None
  | c :: rest =>
      if c =? DOT then
        match take_alnum rest with
        | [] => None
        | a => Some (c :: a)
        end
      else None
  end.

(** [[a-zA-Z0-9_/.-]+\.[a-zA-Z0-9]+] at the head of [s]. The greedy [+]
    first lets the class take one more character and only then tries
    the rest of the pattern where it stands. *)
Fixpoint match_path (s : pystr) : option pystr :=
  match s with
  | [] => None
  | c :: rest =>
      if is_path_char c then
        match match_path rest with
        | Some m => Some (c :: m)
        | None =>
            match match_ext rest with
            | Some m => Some (c :: m)
            | None => None
            end
        end
      else None
  end.

(** [re.search(r'[a-zA-Z0-9_/.-]+\.[a-zA-Z0-9]+', s)]: the leftmost match. *)
Fixpoint search_path (s : pystr) : option pystr :=
  match s with
  | [] => None
  | _ :: rest =>
      match match_path s with
      | Some m => Some m
      | None => search_path rest
      end
  end.

(** ** Cleaning the raw answer (lines 159 to 171) *)

Definition clean_result (raw_result : pystr) : pystr :=
  sub_tags false raw_result.

Definition first_line (clean : pystr) : pystr :=
  let lines :=
    List.map strip
      (List.filter (fun line => truthy (strip line)) (split_on NL clean)) in
  match lines with
  | l :: _ => l
  | [] => strip clean
  end.

(** The characters the first line is trimmed of: both quotes, dot, comma,
    semicolon, colon and space. *)
Definition TRIM_CHARS : pystr := [DQUOTE; 39; 46; 44; 59; 58; 32].

Definition cleaned_result (raw_result : pystr) : pystr :=
  strip_chars TRIM_CHARS (strip (first_line (clean_result raw_result))).

(** The path the answer yields (lines 159 to 197, without the prints). *)
Definition extract (raw_result : pystr) : pystr :=
  match search_path (cleaned_result raw_result) with
  | Some result => result
  | None => rendering_file 0
  end.

(** ** Cleaning the rewritten file (lines 305 to 307) *)

Definition BACKTICK : N := 96.
Definition FENCE : pystr := [BACKTICK; BACKTICK; BACKTICK].

Section WordCharacters.

(** [str.isalnum] beyond ASCII comes from the Unicode database. *)
Variable unicode_isalnum : N -> bool.

(** [\w] *)
Definition is_word (c : N) : bool :=
  is_alnum c || (c =? 95) || ((128 <=? c) && unicode_isalnum c).

(** A line that [^```\w*$] matches whole. *)
Definition is_fence (line : pystr) : bool :=
  startswith line FENCE && forallb is_word (drop 3 line).

(** [re.sub(r'^```\w*$', '', s, flags=re.MULTILINE)] *)
Definition sub_fence (s : pystr) : pystr :=
  join [NL]
    (List.map (fun line => if is_fence line then [] else line) (split_on NL s)).

(** [re.sub(r'^```$', '', s, flags=re.MULTILINE)] *)
Definition sub_bare_fence (s : pystr) : pystr :=
  join [NL]
    (List.map (fun line => if pystr_eqb line FENCE then [] else line)
       (split_on NL s)).

Definition clean_optimized (raw_result : pystr) : pystr :=
  strip (sub_bare_fence (sub_fence raw_result)).

End WordCharacters.

(** ** Prompts *)

Definition identify_prompt (tree_output : pystr) : pystr :=
  join [NL] [
    py "Your task is to analyze a WebGPU fluid simulation project's code and identify a RENDERING FILE that would yield significant performance improvement if optimized.";
    [];
    py "Project structure:";
    tree_output;
    [];
    py "IMPORTANT: You MUST return a rendering-related file path. Look for files with names containing " ++ [DQUOTE] ++ py "render" ++ [DQUOTE] ++ py ", " ++ [DQUOTE] ++ py "graphics" ++ [DQUOTE] ++ py ", " ++ [DQUOTE] ++ py "display" ++ [DQUOTE] ++ py ", " ++ [DQUOTE] ++ py "draw" ++ [DQUOTE] ++ py ", etc.";
    [];
    py "INSTRUCTIONS:";
    py "1. Return EXACTLY ONE file path";
    py "2. The response must contain ONLY the file path with extension";
    py "3. DO NOT include ANY explanations or thoughts - just the file path";
    py "4. DO NOT use ANY tags like <think> ";
    py "5. DO NOT wrap in quotes";
    py "6. FOCUS ONLY ON RENDERING FILES";
    [];
    py "Example of valid responses:";
    py "render/fluidRender.ts";
    py "render/fluid.wgsl";
    py "src/renderers/FluidRenderer.js";
    [];
    py "If you can't find a specific rendering file, select one of these file paths:";
    rendering_file 0;
    rendering_file 1;
    [];
    py "RESPOND WITH JUST THE FILE PATH:"
  ].

Definition optimize_prompt (file_type_desc file_path file_content : pystr) : pystr :=
  join [NL] [
    py "You are a WebGPU optimization expert specializing in Apple M1 chip optimizations.";
    [];
    py "I have a WebGPU fluid simulation project and need to optimize this " ++ file_type_desc ++ py " for better performance on MacBook M1:";
    [];
    py "FILE: " ++ file_path;
    [];
    py "CURRENT CONTENT:";
    py "```";
    file_content;
    py "```";
    [];
    py "Please optimize this file specifically for better performance on Apple M1 chips. Consider:";
    [];
    py "1. M1's unified memory architecture";
    py "2. Metal shader compilation optimizations";
    py "3. Workgroup size adjustments for M1 GPU";
    py "4. Memory access patterns optimized for M1";
    py "5. Reducing memory transfers";
    py "6. Taking advantage of M1's tile-based deferred rendering";
    py "7. Thread group sizes that are multiples of 32 for M1 GPU";
    py "8. Prefer smaller workgroups on M1 compared to desktop GPUs";
    py "9. Reduce divergent branching";
    [];
    py "IMPORTANT: Your output must be a drop-in replacement for the original file with the SAME structure and functionality, but optimized.";
    [];
    py "Add comments explaining your optimizations with " ++ [DQUOTE] ++ py "M1 OPTIMIZED" ++ [DQUOTE] ++ py " in them. Do not change the overall structure or API of the file.";
    [];
    py "Your response should ONLY contain the optimized file content and nothing else - no preamble, no explanations outside of comments in the code.";
    []
  ].

(** [s.lower()] on the ASCII letters; no other character lowers to one
    of the letters the extensions are compared with. *)
Definition lower (s : pystr) : pystr :=
  List.map (fun c => if in_range 65 90 c then c + 32 else c) s.

Definition file_type_desc_of (file_ext : pystr) : pystr :=
  if pystr_eqb file_ext (py ".wgsl") then
    py "WebGPU Shader Language (WGSL) shader file"
  else if pystr_eqb file_ext (py ".ts") then
    py "TypeScript file managing WebGPU resources"
  else if pystr_eqb file_ext (py ".js") then
    py "JavaScript file managing WebGPU resources"
  else py "WebGPU-related file".

Definition is_json_decode_error (e : exn) : bool :=
  match e with JSONDecodeError => true | _ => false end.

Definition is_file_not_found (e : exn) : bool :=
  match e with FileNotFoundError => true | _ => false end.

Definition is_unicode_decode_error (e : exn) : bool :=
  match e with UnicodeDecodeError => true | _ => false end.

(** [response.json()] *)
Definition response_json (r : response) : M json :=
  match json_body r with
  | Some data => ret data
  | None => raise JSONDecodeError
  end.

(** [data.get('response', '')] *)
Definition get_response (data : json) : M json :=
  match data with
  | JObject members =>
      match member (py "response") members with
      | Some v => ret v
      | None => ret (JString [])
      end
  | _ => raise AttributeError
  end.

(** The DEBUG block that prints a sample of [raw_result] (four prints
    starting at [line]) followed by the first [re.sub]: a string passes
    through; any other JSON value ends in a [TypeError], at [len], at
    the slice or concatenation, or at [re.sub]. *)
Definition debug_sample (line : N) (raw_result : json) : M pystr :=
  (if DEBUG then print line [] >> print (line + 1) [] else ret tt) >>
  match raw_result with
  | JString s =>
      (if DEBUG then
         print (line + 2)
           [AStr (if (500 <? length s)%nat then take 500 s ++ py "..." else s)] >>
         print (line + 3) []
       else ret tt) >>
      ret s
  | JArray items =>
      (if DEBUG then
         if (500 <? length items)%nat then raise TypeError
         else print (line + 2) [] >> print (line + 3) []
       else ret tt) >>
      raise TypeError
  | JObject members =>
      (if DEBUG then
         if (500 <? key_count members)%nat then raise TypeError
         else print (line + 2) [] >> print (line + 3) []
       else ret tt) >>
      raise TypeError
  | _ => raise TypeError
  end.

Section Collaborators.

(** [base64.b64encode(...).decode('utf-8')] of a file's content. *)
Variable b64encode : bytes -> pystr.

(** Outcome of [subprocess.run(['tree', '-L', '4'])]: return code and
    standard output, or [None] when the executable is missing and the
    call raises [FileNotFoundError]. *)
Variable tree_run : option (Z * pystr).

(** The generation service behind [requests.post]. *)
Variable requests_post : request -> result response.

Variable unicode_isalnum : N -> bool.

Definition post (r : request) : M response :=
  emit (HttpPost r) >> (fun w => (requests_post r, w)).

Definition encode_file (file_path : pystr) : M pystr :=
  isf <- isfile file_path ;;
  if isf then
    content <- read_bytes file_path ;;
    ret (b64encode content)
  else
    print_err 29 [AStr file_path] >> ret [].

Definition get_file_content (file_path : pystr) : M pystr :=
  isf <- isfile file_path ;;
  if isf then
    try_except_only is_unicode_decode_error
      (read_text file_path)
      (fun _ => read_latin1 file_path)
  else print_err 43 [AStr file_path] >> ret [].

Definition write_file_content (file_path content : pystr) : M unit :=
  makedirs (dirname file_path) >>
  write_text file_path content >>
  print 53 [AStr file_path].

(** Lines 220 to 226: the best-effort backup next to the file. *)
Definition capture (file_path : pystr) : M unit :=
  let BACKUP_FILE := file_path ++ py ".bak" in
  try_except
    (copy2 file_path BACKUP_FILE >> print 224 [AStr BACKUP_FILE])
    (fun _ => print 226 []).

Definition get_directory_structure : M pystr :=
  try_except_only is_file_not_found
    (emit RunTree >>
     r <- match tree_run with
          | Some r => ret r
          | None => raise FileNotFoundError
          end ;;
     if (fst r =? 0)%Z then ret (snd r)
     else ret (py "tree command not available"))
    (fun _ => ret (py "tree command not available")).

(** The loop over the fallback files: the first that exists, if any. *)
Fixpoint first_existing (candidates : list pystr) : M (option pystr) :=
  match candidates with
  | [] => ret None
  | fallback :: rest =>
      ex <- path_exists fallback ;;
      if ex then print 93 [AStr fallback] >> ret (Some fallback)
      else first_existing rest
  end.

Definition identify_critical_file : M (option pystr) :=
  tree_output <- get_directory_structure ;;
  compressed_content <- encode_file COMPRESSED_FILE ;;
  uncompressed_content <- encode_file UNCOMPRESSED_FILE ;;
  if negb (truthy compressed_content) && negb (truthy uncompressed_content) then
    print 89 [] >>
    found <- first_existing RENDERING_FILES ;;
    match found with
    | Some fallback => ret (Some fallback)
    | None => print 97 [AStr (rendering_file 0)] >> ret (Some (rendering_file 0))
    end
  else
    let files :=
      (if truthy compressed_content
       then [(COMPRESSED_FILE, compressed_content)] else []) ++
      (if truthy uncompressed_content
       then [(UNCOMPRESSED_FILE, uncompressed_content)] else []) in
    let payload := {|
      req_url := API_ENDPOINT;
      req_model := MODEL;
      req_prompt := identify_prompt tree_output;
      req_stream := false;
      req_files := Some files
    |} in
    print 140 [] >>
    response <- post payload ;;
    if (status_code response =? 200)%Z then
      try_except_only is_json_decode_error
        (data <- response_json response ;;
         raw_json <- get_response data ;;
         raw_result <- debug_sample 154 raw_json ;;
         (if DEBUG then
            print 174 [] >> print 175 [] >>
            print 176 [AStr (cleaned_result raw_result)] >> print 177 []
          else ret tt) >>
         match search_path (cleaned_result raw_result) with
         | Some result =>
             (if DEBUG then
                print 185 [] >> print 186 [] >>
                print 187 [AStr result] >> print 188 []
              else ret tt) >>
             ret (Some result)
         | None =>
             (if DEBUG then
                print 193 [] >> print 194 [] >>
                print 195 [AStr (rendering_file 0)] >> print 196 []
              else ret tt) >>
             ret (Some (rendering_file 0))
         end)
        (fun _ =>
           print 200 [] >> print 201 [AStr (take 200 (text response))] >>
           ret (Some (rendering_file 0)))
    else
      print 203 [AInt (status_code response)] >>
      print 204 [AStr (take 200 (text response))] >>
      ret (Some (rendering_file 0)).

Definition optimize_file_for_m1 (file_path : pystr) : M bool :=
  if negb (truthy file_path) then print 212 [] >> ret false
  else
    isf <- isfile file_path ;;
    if negb isf then print 217 [AStr file_path] >> ret false
    else
      let BACKUP_FILE := file_path ++ py ".bak" in
      capture file_path >>
      file_content <- get_file_content file_path ;;
      if negb (truthy file_content) then print 232 [AStr file_path] >> ret false
      else
        let file_ext := lower (splitext_ext file_path) in
        let file_type_desc := file_type_desc_of file_ext in
        let payload := {|
          req_url := API_ENDPOINT;
          req_model := MODEL;
          req_prompt := optimize_prompt file_type_desc file_path file_content;
          req_stream := false;
          req_files := None
        |} in
        print 285 [AStr file_path] >>
        response <- post payload ;;
        if (status_code response =? 200)%Z then
          try_except_only is_json_decode_error
            (data <- response_json response ;;
             raw_json <- get_response data ;;
             raw_result <- debug_sample 299 raw_json ;;
             let optimized_content := clean_optimized unicode_isalnum raw_result in
             write_file_content file_path optimized_content >>
             print 312 [AStr file_path] >>
             print 313 [AStr BACKUP_FILE] >>
             ret true)
            (fun _ =>
               print 317 [] >> print 318 [AStr (take 200 (text response))] >>
               ret false)
        else
          print 320 [AInt (status_code response)] >>
          print 321 [AStr (take 200 (text response))] >>
          ret false.

(** How [main] ends: with [sys.exit(1)], or after the optimisation with
    its outcome. *)
Inductive main_outcome : Type :=
| Exit1
| Done (success : bool).

Definition main : M main_outcome :=
  print 327 [] >>
  print 330 [] >>
  critical_file <- identify_critical_file ;;
  match critical_file with
  | None | Some [] => print 334 [] >> ret Exit1
  | Some critical_file =>
      print 337 [AStr critical_file] >>
      print 340 [] >>
      success <- optimize_file_for_m1 critical_file ;;
      if success then
        print 344 [] >> print 345 [AStr critical_file] >> print 346 [] >>
        print 347 [] >> print 348 [] >> print 349 [] >> print 350 [] >>
        print 351 [] >> print 352 [] >>
        ret (Done true)
      else print 354 [] >> ret (Done false)
  end.

End Collaborators.

End OllamaApi.

(* ===================================================================== *)
(** * m1_performance_compare.py *)
(* ===================================================================== *)

Module PerfCompare.

Local Open Scope Q_scope.

(** Timing values are exact rationals here: the arithmetic of the script
    is modelled without the rounding of binary floating point. *)

Definition NUM_TEST_RUNS : nat := 5.

(** The module-level variables [ORIGINAL_FILE] and [OPTIMIZED_FILE]. *)
Record globals : Type := {
  ORIGINAL_FILE : option pystr;
  OPTIMIZED_FILE : option pystr
}.

Definition initial_globals : globals :=
  {| ORIGINAL_FILE := None; OPTIMIZED_FILE := None |}.

(** The path a module variable holds ([None] has none). *)
Definition path_of (v : option pystr) : pystr := default [] v.

(** Truthiness of a module variable: [None] and [''] are falsy. *)
Definition is_set (v : option pystr) : bool := truthy (path_of v).

(** What [temporarily_restore_original] returns: a string or [False]. *)
Inductive str_or_false : Type :=
| PFalse
| PStr (s : pystr).

Definition truthy_sf (v : str_or_false) : bool :=
  match v with
  | PFalse => false
  | PStr s => truthy s
  end.

Definition lift {A} (r : result A) : M A := fun w => (r, w).

(** ** Swapping the live file *)

Definition temporarily_restore_original (g : globals) : M str_or_false :=
  if negb (is_set (ORIGINAL_FILE g) && is_set (OPTIMIZED_FILE g)) then ret PFalse
  else
    try_except
      (optimized_content <- read_text (path_of (OPTIMIZED_FILE g)) ;;
       original_content <- read_text (path_of (ORIGINAL_FILE g)) ;;
       write_text (path_of (OPTIMIZED_FILE g)) original_content >>
       ret (PStr optimized_content))
      (fun _ => print 66 [] >> ret PFalse).

(** [f.write(False)] raises once the file is already opened for
    writing, that is, truncated. *)
Definition restore_optimized (g : globals) (optimized_content : str_or_false)
  : M bool :=
  if negb (is_set (OPTIMIZED_FILE g)) then ret false
  else
    try_except
      (match optimized_content with
       | PStr s => write_text (path_of (OPTIMIZED_FILE g)) s
       | PFalse => write_bytes (path_of (OPTIMIZED_FILE g)) [] >> raise TypeError
       end >>
       ret true)
      (fun _ => print 79 [] >> ret false).

(** ** The scan for the newest backup *)

(** [s.endswith(suffix)] *)
Definition endswith (s suffix : pystr) : bool :=
  startswith (rev s) (rev suffix).

(** The loop of [max(items, key=key)] after its first item: the key is
    computed once for every item, in order, and an item replaces the
    best so far when its key is greater; an exception of the key ends
    the loop. *)
Fixpoint max_from {A} (key : A -> result Q) (best : A) (best_key : Q)
    (items : list A) : result A :=
  match items with
  | [] => Returned best
  | x :: rest =>
      match key x with
      | Raised e => Raised e
      | Returned k =>
          if Qle_bool k best_key then max_from key best best_key rest
          else max_from key x k rest
      end
  end.

(** [max(first :: others, key=key)]: the first item with the largest
    key. *)
Definition max_by {A} (key : A -> result Q) (first : A) (others : list A)
  : result A :=
  match key first with
  | Raised e => Raised e
  | Returned k => max_from key first k others
  end.

Section Scan.

(** [os.walk('.')] flattened: every file under the working directory as
    [os.path.join(root, file)], in the order of the walk. *)
Variable walk : gmap pystr node -> list pystr.

(** [os.path.getmtime]: the modification time, or the [OSError] of the
    underlying [stat] (a dangling symbolic link among the walked files,
    for one). *)
Variable getmtime : pystr -> result Q.

Fixpoint collect_backups (paths : list pystr) : M (list (pystr * pystr)) :=
  match paths with
  | [] => ret []
  | backup_path :: rest =>
      if endswith (basename backup_path) (py ".bak") then
        let original_path := take (length backup_path - 4) backup_path in
        ex <- path_exists original_path ;;
        found <- collect_backups rest ;;
        ret (if ex then (backup_path, original_path) :: found else found)
      else collect_backups rest
  end.

Definition find_backup_and_optimized (g : globals) : M (bool * globals) :=
  paths <- (fun w => (Returned (walk (files w)), w)) ;;
  backup_files <- collect_backups paths ;;
  match backup_files with
  | [] => print 34 [] >> ret (false, g)
  | first :: others =>
      newest_backup <- lift (max_by (fun x => getmtime (fst x)) first others) ;;
      print 42 [AStr (fst newest_backup)] >>
      print 43 [AStr (snd newest_backup)] >>
      ret (true, {| ORIGINAL_FILE := Some (fst newest_backup);
                    OPTIMIZED_FILE := Some (snd newest_backup) |})
  end.

End Scan.

(** ** The measurement source *)

Section Measurement.

(** What evaluating [statistics.normalvariate(0, 1)] gives the [n]-th
    time in the run: a number or an exception. The definitions below
    take it as a parameter; what it is under CPython is
    [statistics_normalvariate], after this section. *)
Variable normalvariate : nat -> result Q.

Definition draw : M Q :=
  fun w => (normalvariate (draws w),
            {| files := files w; trace := trace w ++ [Draw];
               draws := S (draws w) |}).

Definition simulate_rendering_test (is_original : bool) : M Q :=
  let base_time := 16.67 in
  z <- draw ;;
  let variation := base_time * 0.1 * z in
  if is_original then ret (base_time + variation)
  else
    z' <- draw ;;
    let improvement := base_time * (0.2 + 0.1 * z') in
    ret ((base_time - improvement) + variation).

(** One of the two sampling loops; [i] counts the iterations done. *)
Fixpoint run_tests (is_original : bool) (line : N) (runs i : nat)
    (frame_times : list Q) : M (list Q) :=
  match runs with
  | O => ret frame_times
  | S runs' =>
      print line [AInt (Z.of_nat i + 1); AInt (Z.of_nat NUM_TEST_RUNS)] >>
      frame_time <- simulate_rendering_test is_original ;;
      emit Sleep >>
      run_tests is_original line runs' (S i) (frame_times ++ [frame_time])
  end.

Definition measure_performance (g : globals) : M (list Q * list Q) :=
  optimized_content <- temporarily_restore_original g ;;
  if negb (truthy_sf optimized_content) then ret ([], [])
  else
    try_except
      (print 121 [] >>
       original_frame_times <- run_tests true 123 NUM_TEST_RUNS 0 [] ;;
       restore_optimized g optimized_content >>
       print 132 [] >>
       optimized_frame_times <- run_tests false 134 NUM_TEST_RUNS 0 [] ;;
       print 139 [] >>
       ret (original_frame_times, optimized_frame_times))
      (fun _ =>
         print 143 [] >>
         restore_optimized g optimized_content >>
         ret ([], [])).

End Measurement.

(** The [statistics] module of the standard library has no attribute
    [normalvariate] (the function of that name and signature belongs to
    [random]), so the expression at lines 95 and 101 raises
    [AttributeError] each time it is evaluated, before any arithmetic. *)
Definition statistics_normalvariate : nat -> result Q :=
  fun _ => Raised AttributeError.

(** ** Quantifying the change *)

Record change_report : Type := {
  additions : nat;
  deletions : nat;
  changes : nat;
  m1_optimizations : list pystr
}.

Definition PLUS : N := 43.
Definition MINUS : N := 45.
Definition AT : N := 64.

(** The counting loop over the lines of the diff text. *)
Fixpoint count_changes (lines : list pystr) (a d c : nat) : nat * nat * nat :=
  match lines with
  | [] => (a, d, c)
  | line :: rest =>
      if startswith line [PLUS] && negb (startswith line [PLUS; PLUS; PLUS])
      then count_changes rest (S a) d c
      else if startswith line [MINUS]
                && negb (startswith line [MINUS; MINUS; MINUS])
      then count_changes rest a (S d) c
      else if startswith line [AT; AT] then count_changes rest a d (S c)
      else count_changes rest a d c
  end.

Definition MARKER : pystr := py "M1 OPTIMIZED".

(** The lines that carry the marker, stripped, in file order. *)
Definition optimization_notes (optimized_lines : list pystr) : list pystr :=
  List.map strip (List.filter (contains MARKER) optimized_lines).

Fixpoint print_notes (i : Z) (notes : list pystr) : M unit :=
  match notes with
  | [] => ret tt
  | note :: rest => print 197 [AInt i; AStr note] >> print_notes (i + 1) rest
  end.

Section Diff.

(** [difflib.unified_diff(a, b, fromfile='Original', tofile='M1 Optimized',
    lineterm='')], as the list of the lines it generates. *)
Variable unified_diff : list pystr -> list pystr -> list pystr.

(** The report of two line lists (lines 160 to 204, without the prints). *)
Definition analyze (original_lines optimized_lines : list pystr)
  : change_report :=
  let diff := unified_diff original_lines optimized_lines in
  let diff_text := join [NL] diff in
  let '(a, d, c) := count_changes (split_on NL diff_text) 0 0 0 in
  {| additions := a; deletions := d; changes := c;
     m1_optimizations := optimization_notes optimized_lines |}.

Definition compare_code_changes (g : globals) : M (option change_report) :=
  if negb (is_set (ORIGINAL_FILE g) && is_set (OPTIMIZED_FILE g)) then ret None
  else
    try_except
      (original_text <- read_text (path_of (ORIGINAL_FILE g)) ;;
       optimized_text <- read_text (path_of (OPTIMIZED_FILE g)) ;;
       let report := analyze (readlines original_text) (readlines optimized_text) in
       print 183 [] >>
       print 184 [AInt (Z.of_nat (additions report))] >>
       print 185 [AInt (Z.of_nat (deletions report))] >>
       print 186 [AInt (Z.of_nat (changes report))] >>
       match m1_optimizations report with
       | [] => ret tt
       | notes => print 195 [] >> print_notes 1 notes
       end >>
       ret (Some report))
      (fun _ => print 207 [] >> ret None).

End Diff.

(** ** The report *)

(** [statistics.mean] *)
Definition mean (data : list Q) : result Q :=
  match data with
  | [] => Raised StatisticsError
  | _ :: _ => Returned (fold_right Qplus 0 data / inject_Z (Z.of_nat (length data)))
  end.

(** [a / b] *)
Definition divide (a b : Q) : result Q :=
  if Qeq_bool b 0 then Raised ZeroDivisionError else Returned (a / b).

(** [a > b] *)
Definition gt (a b : Q) : bool := negb (Qle_bool a b).

Record variant_stats : Type := {
  avg_frame_time_ms : Q;
  estimated_fps : Q;
  all_runs_ms : list Q
}.

(** The dictionary written to [m1_performance_results.json]. *)
Record results : Type := {
  original : variant_stats;
  m1_optimized : variant_stats;
  improvement_percentage : Q;
  code_changes : option change_report
}.

Inductive band : Type :=
| Significant
| Moderate
| Minor.

(** The figures of the summary (lines 314 to 319). *)
Record summary : Type := {
  avg_original : Q;
  avg_optimized : Q;
  improvement_pct : Q;
  fps_original : Q;
  fps_optimized : Q
}.

Definition result_bind {A B} (r : result A) (k : A -> result B) : result B :=
  match r with
  | Returned a => k a
  | Raised e => Raised e
  end.

Definition summarize (original_times optimized_times : list Q) : result summary :=
  result_bind (mean original_times) (fun avg_original =>
  result_bind (mean optimized_times) (fun avg_optimized =>
  result_bind (divide (avg_original - avg_optimized) avg_original) (fun ratio =>
  let improvement_pct := ratio * 100 in
  result_bind (divide 1000 avg_original) (fun fps_original =>
  result_bind (divide 1000 avg_optimized) (fun fps_optimized =>
  Returned {| avg_original := avg_original; avg_optimized := avg_optimized;
              improvement_pct := improvement_pct;
              fps_original := fps_original;
              fps_optimized := fps_optimized |}))))).

(** The verdict of the summary (lines 326 to 331). *)
Definition verdict (improvement_pct : Q) : band :=
  if gt improvement_pct 15 then Significant
  else if gt improvement_pct 5 then Moderate
  else Minor.

Definition PLOT_FILE : pystr := py "m1_performance_comparison.png".
Definition RESULTS_FILE : pystr := py "m1_performance_results.json".

Section Report.

(** The plotting library in two stages, each returning or raising.
    Lines 222 to 239: the figure, the bar chart of the two averages and
    its labels. *)
Variable plot_frame_times : Q -> Q -> result unit.

(** Lines 245 to 263: the bar chart of the two frame rates, the title
    with the improvement, the layout, and the image [savefig] encodes. *)
Variable render_plot : summary -> result bytes.

(** [json.dump(results, f, indent=2)]: the text it writes, which is
    ASCII only (non-ASCII characters are escaped) and so is its own
    encoding whatever the locale encoding of the file. *)
Variable json_dump : results -> bytes.

Definition visualize_results (original_times optimized_times : list Q)
    (changes : option change_report) : M unit :=
  match original_times, optimized_times with
  | [], _ | _, [] => ret tt
  | _ :: _, _ :: _ =>
      try_except
        (avg_original <- lift (mean original_times) ;;
         avg_optimized <- lift (mean optimized_times) ;;
         ratio <- lift (divide (avg_original - avg_optimized) avg_original) ;;
         let improvement_pct := ratio * 100 in
         lift (plot_frame_times avg_original avg_optimized) >>
         fps_original <- lift (divide 1000 avg_original) ;;
         fps_optimized <- lift (divide 1000 avg_optimized) ;;
         let figures := {| avg_original := avg_original;
                           avg_optimized := avg_optimized;
                           improvement_pct := improvement_pct;
                           fps_original := fps_original;
                           fps_optimized := fps_optimized |} in
         image <- lift (render_plot figures) ;;
         write_bytes PLOT_FILE image >>
         print 264 [] >>
         let results := {|
           original := {| avg_frame_time_ms := avg_original;
                          estimated_fps := fps_original;
                          all_runs_ms := original_times |};
           m1_optimized := {| avg_frame_time_ms := avg_optimized;
                              estimated_fps := fps_optimized;
                              all_runs_ms := optimized_times |};
           improvement_percentage := improvement_pct;
           code_changes := changes
         |} in
         write_bytes RESULTS_FILE (json_dump results) >>
         print 287 [])
        (fun _ => print 290 [])
  end.

Variable walk : gmap pystr node -> list pystr.
Variable getmtime : pystr -> result Q.
Variable normalvariate : nat -> result Q.
Variable unified_diff : list pystr -> list pystr -> list pystr.

Definition main : M unit :=
  print 294 [] >>
  found <- find_backup_and_optimized walk getmtime initial_globals ;;
  let '(ok, g) := found in
  if negb ok then ret tt
  else
    print 301 [] >>
    changes <- compare_code_changes unified_diff g ;;
    print 305 [] >>
    times <- measure_performance normalvariate g ;;
    let '(original_times, optimized_times) := times in
    match original_times, optimized_times with
    | [], _ | _, [] => ret tt
    | _ :: _, _ :: _ =>
        print 310 [] >>
        visualize_results original_times optimized_times changes >>
        figures <- lift (summarize original_times optimized_times) ;;
        print 321 [] >>
        print 322 [ANum (avg_original figures); ANum (fps_original figures)] >>
        print 323 [ANum (avg_optimized figures); ANum (fps_optimized figures)] >>
        print 324 [ANum (improvement_pct figures)] >>
        match verdict (improvement_pct figures) with
        | Significant => print 327 []
        | Moderate => print 329 []
        | Minor => print 331 []
        end
    end.

End Report.

End PerfCompare.

(* ===================================================================== *)
(** * Vocabulary of the properties *)
(* ===================================================================== *)

Import OllamaApi.

(** [t] occurs in [s] as a contiguous piece. *)
Definition infix (t s : pystr) : Prop :=
  exists pre post, s = pre ++ t ++ post.

(** The relative-path-with-extension shape: one or more path characters,
    a dot, one or more letters or digits. *)
Definition path_shaped (m : pystr) : Prop :=
  exists a b,
    m = a ++ DOT :: b /\
    a <> [] /\ Forall (fun c => is_path_char c = true) a /\
    b <> [] /\ Forall (fun c => is_alnum c = true) b.

Definition has_path_shape (s : pystr) : Prop :=
  exists m, infix m s /\ path_shaped m.

(** A tag the first substitution removes: ['<'], one or more characters
    other than ['>'], ['>']. *)
Definition tag (body : pystr) : pystr := [LT] ++ body ++ [GT].

Definition tag_body (body : pystr) : Prop :=
  body <> [] /\ Forall (fun c => c <> GT) body.

Definition blank (s : pystr) : Prop := Forall (fun c => isspace c = true) s.

(** [os.path.exists] on a given file system. *)
Definition on_disk (fs : gmap pystr node) (p : pystr) : bool :=
  match node_at fs p with
  | Some _ => true
  | None => false
  end.

(** No HTTP request among the events. *)
Definition no_request (evs : list event) : Prop :=
  forall r, ~ In (HttpPost r) evs.

(** A response the generation service must not be trusted on: a status
    other than 200, or a body that does not decode as JSON. *)
Definition failed_response (r : response) : Prop :=
  status_code r <> 200%Z \/ json_body r = None.

(** The world after some more events. *)
Definition logged (w : world) (evs : list event) : world :=
  {| files := files w; trace := trace w ++ evs; draws := draws w |}.

(** A world with the given files, before anything has happened. *)
Definition world_of (fs : list (pystr * node)) : world :=
  {| files := list_to_map fs; trace := []; draws := 0 |}.

Import PerfCompare.

Fixpoint lines_eqb (a b : list pystr) : bool :=
  match a, b with
  | [], [] => true
  | x :: a', y :: b' => pystr_eqb x y && lines_eqb a' b'
  | _, _ => false
  end.

(** A differ that only knows whether the two line lists are equal: it
    generates nothing for equal lists, and otherwise the two header
    lines and one hunk that removes every old line and adds every new
    one. It stands for difflib where a concrete differ is needed. *)
Definition whole_file_diff (a b : list pystr) : list pystr :=
  if lines_eqb a b then []
  else [py "--- Original"; py "+++ M1 Optimized"; py "@@ -1 +1 @@"]
         ++ List.map (cons MINUS) a ++ List.map (cons PLUS) b.

(** The module variables once [path] is the tracked file. *)
Definition tracking (path : pystr) : globals :=
  {| ORIGINAL_FILE := Some (path ++ py ".bak"); OPTIMIZED_FILE := Some path |}.

(** A command that leaves every file as it is, however it ends. *)
Definition keeps_files {A} (m : M A) : Prop :=
  forall w, files (snd (m w)) = files w.

(** Whatever the command returns satisfies [P]. *)
Definition returns_only {A} (P : A -> Prop) (m : M A) : Prop :=
  forall w a w', m w = (Returned a, w') -> P a.

(** The HTTP requests among the events, in order. *)
Fixpoint requests (evs : list event) : list request :=
  match evs with
  | [] => []
  | HttpPost r :: rest => r :: requests rest
  | _ :: rest => requests rest
  end.

(** What [encode_file] yields for a path: the encoding of a regular
    file, the empty string otherwise. *)
Definition encoded (b64encode : bytes -> pystr) (fs : gmap pystr node)
    (p : pystr) : pystr :=
  match node_at fs p with
  | Some (File c) => b64encode c
  | _ => []
  end.

(** At least one of the two context files is there with content. *)
Definition context_present (b64encode : bytes -> pystr)
    (fs : gmap pystr node) : Prop :=
  encoded b64encode fs COMPRESSED_FILE <> [] \/
  encoded b64encode fs UNCOMPRESSED_FILE <> [].

(** The service answers every request with [resp]. *)
Definition answers (requests_post : request -> result response)
    (resp : response) : Prop :=
  forall r, requests_post r = Returned resp.

(** A well-formed answer carrying the text [raw]: status 200 and a JSON
    object whose [response] member is that string. *)
Definition well_formed (resp : response) (raw : pystr) : Prop :=
  status_code resp = 200%Z /\
  exists members,
    json_body resp = Some (JObject members) /\
    member (py "response") members = Some (JString raw).

(** Text around a path in an answer: no path character, no ['<'] and
    no newline. *)
Definition wrapping (s : pystr) : Prop :=
  Forall (fun c => is_path_char c = false /\ c <> LT /\ c <> NL) s.

(** The text is empty or starts with a character no path contains. *)
Definition stops (post : pystr) : Prop :=
  match post with
  | [] => True
  | c :: _ => is_path_char c = false
  end.

(** No line of the text is a code fence: three backticks followed by
    word characters only. *)
Definition fence_free (unicode_isalnum : N -> bool) (s : pystr) : Prop :=
  Forall (fun line => is_fence unicode_isalnum line = false) (split_on NL s).

(** The swap cannot start: a module variable is unset, or one of the
    two paths holds no regular file. *)
Definition swap_blocked (g : globals) (fs : gmap pystr node) : Prop :=
  is_set (ORIGINAL_FILE g) = false \/
  is_set (OPTIMIZED_FILE g) = false \/
  (forall c, node_at fs (path_of (OPTIMIZED_FILE g)) <> Some (File c)) \/
  (forall c, node_at fs (path_of (ORIGINAL_FILE g)) <> Some (File c)).

(** Draws one sample takes: one for the original variant, two for the
    optimized one. *)
Definition draws_per (is_original : bool) : nat :=
  if is_original then 1%nat else 2%nat.

(** The next [n] draws after [start] all yield a number. *)
Definition draws_succeed (normalvariate : nat -> result Q) (start n : nat)
  : Prop :=
  forall k, (k < n)%nat -> exists z, normalvariate (start + k)%nat = Returned z.

(** One of the next [n] draws after [start] raises. *)
Definition draw_raises (normalvariate : nat -> result Q) (start n : nat)
  : Prop :=
  exists k e, (k < n)%nat /\ normalvariate (start + k)%nat = Raised e.

(** A path of the walk that the scan takes for a backup: its file name
    ends in [.bak] and the path without its last four characters exists. *)
Definition candidate (fs : gmap pystr node) (paths : list pystr) (b : pystr)
  : Prop :=
  In b paths /\
  endswith (basename b) (py ".bak") = true /\
  on_disk fs (take (length b - 4) b) = true.

(** The sum of a sample set. *)
Definition total (data : list Q) : Q := fold_right Qplus 0%Q data.

(** The text [get_file_content] makes of a file's bytes: their UTF-8
    decoding, or their Latin-1 decoding when they are not UTF-8, with
    the line ends translated. *)
Definition file_text (content : bytes) : pystr :=
  universal_newlines
    match utf8_decode content with
    | Some text => text
    | None => latin1_decode content
    end.

(* ===================================================================== *)
(** * Facts about text and bytes *)
(* ===================================================================== *)

Lemma utf8_decode_cons (b0 : N) (r0 : bytes) :
  utf8_decode (b0 :: r0) =
  if b0 <? 128 then option_map (cons b0) (utf8_decode r0)
  else if between 194 223 b0 then
    match r0 with
    | b1 :: r1 =>
        if between 128 191 b1
        then option_map (cons ((b0 - 192) * 64 + (b1 - 128))) (utf8_decode r1)
        else None
    | _ => None
    end
  else if between 224 239 b0 then
    match r0 with
    | b1 :: b2 :: r2 =>
        if second_of_three b0 b1 && between 128 191 b2
        then option_map
               (cons ((b0 - 224) * 4096 + (b1 - 128) * 64 + (b2 - 128)))
               (utf8_decode r2)
        else None
    | _ => None
    end
  else if between 240 244 b0 then
    match r0 with
    | b1 :: b2 :: b3 :: r3 =>
        if second_of_four b0 b1 && between 128 191 b2 && between 128 191 b3
        then option_map
               (cons ((b0 - 240) * 262144 + (b1 - 128) * 4096
                      + (b2 - 128) * 64 + (b3 - 128)))
               (utf8_decode r3)
        else None
    | _ => None
    end
  else None.
Proof. reflexivity. Qed.

(** Linear arithmetic with division and remainder by constants. *)
Ltac lia_div := zify; Z.to_euclidean_division_equations; lia.

Ltac compare_all :=
  repeat match goal with
  | |- context [?a <? ?b] => destruct (N.ltb_spec a b); try lia_div
  | |- context [?a <=? ?b] => destruct (N.leb_spec a b); try lia_div
  | |- context [?a =? ?b] => destruct (N.eqb_spec a b); try lia_div
  end; cbn [andb].

(** Decoding reads back the code point that was encoded. *)
Lemma utf8_decode_point (c : N) (bs rest : bytes) :
  utf8_encode_point c = Some bs ->
  utf8_decode (bs ++ rest) = option_map (cons c) (utf8_decode rest).
Proof.
  unfold utf8_encode_point. intros H.
  destruct (N.ltb_spec c 128).
  { injection H as <-. cbn [app]. rewrite utf8_decode_cons.
    destruct (N.ltb_spec c 128); [reflexivity | lia]. }
  destruct (N.ltb_spec c 2048).
  { injection H as <-. cbn [app]. rewrite utf8_decode_cons.
    unfold between. compare_all. f_equal. f_equal. lia_div. }
  destruct (N.ltb_spec c 65536).
  { destruct (N.leb_spec 55296 c); destruct (N.leb_spec c 57343);
      cbn [andb] in H; try discriminate;
      injection H as <-; cbn [app]; rewrite utf8_decode_cons;
      unfold second_of_three, between; compare_all; f_equal; f_equal; lia_div. }
  destruct (N.ltb_spec c 1114112); [|discriminate].
  injection H as <-. cbn [app]. rewrite utf8_decode_cons.
  unfold second_of_four, between; compare_all; f_equal; f_equal; lia_div.
Qed.

(** What was encoded decodes to the same string. *)
Lemma utf8_decode_encode (s : pystr) (b : bytes) :
  utf8_encode s = Some b -> utf8_decode b = Some s.
Proof.
  revert b. induction s as [|c s IH]; intros b; cbn [utf8_encode].
  - now intros [= <-].
  - destruct (utf8_encode_point c) as [bs|] eqn:Ec; [|discriminate].
    destruct (utf8_encode s) as [rest|]; [|discriminate].
    intros [= <-]. rewrite (utf8_decode_point c bs rest Ec), (IH rest eq_refl).
    reflexivity.
Qed.

(** What decodes is the encoding of what it decodes to. *)
Lemma utf8_encode_decode (b : bytes) (s : pystr) :
  utf8_decode b = Some s -> utf8_encode s = Some b.
Proof.
  remember (length b) as n eqn:Hn. revert b s Hn.
  induction n as [n IH] using lt_wf_ind. intros b s Hn.
  destruct b as [|b0 r0]; [now intros [= <-]|].
  rewrite utf8_decode_cons.
  assert (Hstep : forall (c : N) (bs rest : bytes),
             b0 :: r0 = bs ++ rest -> bs <> [] ->
             utf8_encode_point c = Some bs ->
             option_map (cons c) (utf8_decode rest) = Some s ->
             utf8_encode s = Some (b0 :: r0)).
  { intros c bs rest Hb Hbs Hc Hd.
    destruct (utf8_decode rest) as [t|] eqn:Et; [|discriminate].
    injection Hd as <-. cbn [utf8_encode]. rewrite Hc.
    rewrite (IH (length rest)) with (b := rest) (s := t);
      try reflexivity; try assumption.
    - now rewrite Hb.
    - subst n. rewrite Hb, length_app. destruct bs; [congruence|]. simpl. lia. }
  destruct (N.ltb_spec b0 128).
  { apply (Hstep b0 [b0] r0); [reflexivity | discriminate |].
    unfold utf8_encode_point. destruct (N.ltb_spec b0 128); [reflexivity | lia]. }
  destruct (between 194 223 b0) eqn:E2.
  { destruct r0 as [|b1 r1]; [discriminate|].
    destruct (between 128 191 b1) eqn:E21; [|discriminate].
    apply (Hstep _ [b0; b1] r1); [reflexivity | discriminate |].
    unfold between in *. apply andb_prop in E2, E21.
    rewrite !N.leb_le in E2, E21.
    unfold utf8_encode_point; compare_all; repeat f_equal; lia_div. }
  destruct (between 224 239 b0) eqn:E3.
  { destruct r0 as [|b1 [|b2 r2]]; try discriminate.
    destruct (second_of_three b0 b1 && between 128 191 b2) eqn:E31; [|discriminate].
    apply (Hstep _ [b0; b1; b2] r2); [reflexivity | discriminate |].
    apply andb_prop in E31. destruct E31 as [E31 E32].
    unfold second_of_three, between in *. apply andb_prop in E3, E32.
    rewrite !N.leb_le in E3, E32.
    assert (Hb1 : 128 <= b1 <= 191 /\ (b0 = 224 -> 160 <= b1)
                  /\ (b0 = 237 -> b1 <= 159)).
    { revert E31. destruct (N.eqb_spec b0 224); [|destruct (N.eqb_spec b0 237)];
        intros E; apply andb_prop in E; rewrite !N.leb_le in E; lia. }
    clear E31.
    unfold utf8_encode_point; compare_all; repeat f_equal; lia_div. }
  destruct (between 240 244 b0) eqn:E4; [|discriminate].
  destruct r0 as [|b1 [|b2 [|b3 r3]]]; try discriminate.
  destruct (second_of_four b0 b1 && between 128 191 b2 && between 128 191 b3)
    eqn:E41; [|discriminate].
  apply (Hstep _ [b0; b1; b2; b3] r3); [reflexivity | discriminate |].
  apply andb_prop in E41. destruct E41 as [E41 E43].
  apply andb_prop in E41. destruct E41 as [E41 E42].
  unfold second_of_four, between in *. apply andb_prop in E4, E42, E43.
  rewrite !N.leb_le in E4, E42, E43.
  assert (Hb1 : 128 <= b1 <= 191 /\ (b0 = 240 -> 144 <= b1)
                /\ (b0 = 244 -> b1 <= 143)).
  { revert E41. destruct (N.eqb_spec b0 240); [|destruct (N.eqb_spec b0 244)];
      intros E; apply andb_prop in E; rewrite !N.leb_le in E; lia. }
  clear E41.
  unfold utf8_encode_point; compare_all; repeat f_equal; lia_div.
Qed.

Lemma utf8_encode_nonempty (s : pystr) (b : bytes) :
  utf8_encode s = Some b -> s <> [] -> b <> [].
Proof.
  intros H Hs ->. apply utf8_decode_encode in H. injection H as <-. congruence.
Qed.

Lemma utf8_decode_nonempty (b : bytes) (s : pystr) :
  utf8_decode b = Some s -> b <> [] -> s <> [].
Proof.
  intros H Hb ->. apply utf8_encode_decode in H. injection H as <-. congruence.
Qed.

(** A string can be encoded exactly when each of its code points can. *)
Lemma utf8_encode_points (s : pystr) :
  (exists b, utf8_encode s = Some b) <->
  Forall (fun c => utf8_encode_point c <> None) s.
Proof.
  induction s as [|c s IH]; cbn [utf8_encode].
  - split; [constructor | now exists []].
  - split.
    + intros [b H]. destruct (utf8_encode_point c) eqn:Ec; [|discriminate].
      destruct (utf8_encode s) eqn:Es; [|discriminate].
      constructor; [congruence|]. apply IH. now eexists.
    + intros H. inversion H as [|c' s' Hc Hs]. subst.
      apply IH in Hs. destruct Hs as [bs ->].
      destruct (utf8_encode_point c); [now eexists | congruence].
Qed.

Lemma universal_newlines_cons (c : N) (rest : pystr) :
  universal_newlines (c :: rest) =
  if c =? CR then
    NL :: match rest with
          | [] => []
          | c' :: rest' =>
              if c' =? NL then universal_newlines rest'
              else universal_newlines rest
          end
  else c :: universal_newlines rest.
Proof. reflexivity. Qed.

(** Translating the line ends adds no character other than the line
    feed. *)
Lemma universal_newlines_Forall (P : N -> Prop) (s : pystr) :
  P NL -> Forall P s -> Forall P (universal_newlines s).
Proof.
  intros HNL. remember (length s) as n eqn:Hn. revert s Hn.
  induction n as [n IH] using lt_wf_ind. intros s Hn Hs.
  destruct s as [|c rest]; [constructor|].
  inversion Hs as [|c0 s0 Hc Hrest]. subst c0 s0.
  rewrite universal_newlines_cons. destruct (c =? CR).
  - constructor; [exact HNL|]. destruct rest as [|c' rest']; [constructor|].
    destruct (c' =? NL).
    + inversion Hrest as [|c1 s1 Hc1 Hrest']. subst c1 s1.
      apply (IH (length rest')); [subst n; simpl; lia | reflexivity | assumption].
    + apply (IH (length (c' :: rest'))); [subst n; simpl; lia | reflexivity | assumption].
  - constructor; [exact Hc|].
    apply (IH (length rest)); [subst n; simpl; lia | reflexivity | assumption].
Qed.

(** A text without carriage returns is read as it is. *)
Lemma universal_newlines_id (s : pystr) :
  ~ In CR s -> universal_newlines s = s.
Proof.
  induction s as [|c rest IH]; [reflexivity|].
  intros Hno. rewrite universal_newlines_cons.
  destruct (N.eqb_spec c CR) as [-> | _].
  - elim Hno. now left.
  - f_equal. apply IH. intros Hin. apply Hno. now right.
Qed.

Lemma universal_newlines_nonempty (s : pystr) :
  s <> [] -> universal_newlines s <> [].
Proof.
  destruct s as [|c rest]; [congruence|]. intros _.
  rewrite universal_newlines_cons. destruct (c =? CR); discriminate.
Qed.

(** The text of a read can be written back. *)
Lemma universal_newlines_encodable (s : pystr) (b : bytes) :
  utf8_encode s = Some b -> exists b', utf8_encode (universal_newlines s) = Some b'.
Proof.
  intros H. apply utf8_encode_points. apply universal_newlines_Forall.
  - discriminate.
  - apply utf8_encode_points. now exists b.
Qed.

Lemma file_text_nonempty (content : bytes) :
  content <> [] -> file_text content <> [].
Proof.
  intros Hc. unfold file_text. apply universal_newlines_nonempty.
  destruct (utf8_decode content) as [text|] eqn:E.
  - exact (utf8_decode_nonempty _ _ E Hc).
  - exact Hc.
Qed.

(* ===================================================================== *)
(** * Facts about the string operations *)
(* ===================================================================== *)

Section StringFacts.

Variable p : N -> bool.

Lemma lstrip_by_all (s : pystr) :
  Forall (fun c => p c = true) s -> lstrip_by p s = [].
Proof.
  induction 1 as [|c s Hc _ IH]; simpl; [reflexivity|].
  now rewrite Hc.
Qed.

(** Stripping on the left leaves a suffix. *)
Lemma lstrip_by_suffix (s : pystr) :
  exists pre, s = pre ++ lstrip_by p s.
Proof.
  induction s as [|c s [pre IH]]; simpl.
  - now exists [].
  - destruct (p c).
    + exists (c :: pre). simpl. now f_equal.
    + now exists [].
Qed.

(** Stripping on the right leaves a prefix. *)
Lemma rstrip_by_prefix (s : pystr) :
  exists post, s = rstrip_by p s ++ post.
Proof.
  unfold rstrip_by.
  destruct (lstrip_by_suffix (rev s)) as [pre Hpre].
  exists (rev pre).
  rewrite <- rev_app_distr, <- Hpre. now rewrite rev_involutive.
Qed.

Lemma strip_by_infix (s : pystr) :
  exists pre post, s = pre ++ strip_by p s ++ post.
Proof.
  unfold strip_by.
  destruct (lstrip_by_suffix s) as [pre Hpre].
  destruct (rstrip_by_prefix (lstrip_by p s)) as [post Hpost].
  exists pre, post. now rewrite <- Hpost.
Qed.

Lemma strip_by_all (s : pystr) :
  Forall (fun c => p c = true) s -> strip_by p s = [].
Proof.
  intros H. unfold strip_by. now rewrite lstrip_by_all.
Qed.

End StringFacts.

(** A split starts with a piece that starts the text. *)
Lemma split_on_head (sep : N) (s : pystr) :
  exists q qs post, split_on sep s = q :: qs /\ s = q ++ post.
Proof.
  induction s as [|c s (q & qs & post & IH & Hs)]; simpl.
  - now exists [], [], [].
  - destruct (c =? sep).
    + now exists [], (split_on sep s), (c :: s).
    + rewrite IH. exists (c :: q), qs, post. split; [reflexivity|].
      simpl. now f_equal.
Qed.

(** Splitting distributes over a separator in the middle. *)
Lemma split_on_app (sep : N) (u v : pystr) :
  split_on sep (u ++ sep :: v) = split_on sep u ++ split_on sep v.
Proof.
  induction u as [|c u IH]; simpl.
  - now rewrite N.eqb_refl.
  - rewrite IH. destruct (c =? sep); [reflexivity|].
    now destruct (split_on_head sep u) as (q & qs & _ & -> & _).
Qed.

(** Every piece of a split is an infix of the text. *)
Lemma split_on_infix (sep : N) (s piece : pystr) :
  In piece (split_on sep s) -> exists pre post, s = pre ++ piece ++ post.
Proof.
  revert piece. induction s as [|c s IH]; simpl; intros piece Hin.
  - destruct Hin as [<-|[]]. now exists [], [].
  - destruct (c =? sep).
    + destruct Hin as [<-|Hin].
      * now exists [], (c :: s).
      * destruct (IH _ Hin) as (pre & post & ->). now exists (c :: pre), post.
    + destruct (split_on_head sep s) as (q & qs & post & Hq & Hs).
      rewrite Hq in Hin, IH. destruct Hin as [<-|Hin].
      * exists [], post. simpl. now f_equal.
      * destruct (IH _ (or_intror Hin)) as (pre & post' & ->).
        now exists (c :: pre), post'.
Qed.

Lemma split_on_all (sep : N) (P : N -> Prop) (s : pystr) :
  Forall P s -> Forall (Forall P) (split_on sep s).
Proof.
  induction 1 as [|c s Hc _ IH]; simpl.
  - repeat constructor.
  - destruct (c =? sep).
    + constructor; [constructor | exact IH].
    + destruct (split_on sep s) as [|q qs].
      * repeat constructor. exact Hc.
      * inversion IH; subst. constructor; [now constructor | assumption].
Qed.

Lemma infix_refl (s : pystr) : infix s s.
Proof. exists [], []. now rewrite app_nil_r. Qed.

Lemma infix_trans (r t s : pystr) : infix r t -> infix t s -> infix r s.
Proof.
  intros (p1 & q1 & ->) (p2 & q2 & ->).
  exists (p2 ++ p1), (q1 ++ q2). now rewrite <- !app_assoc.
Qed.

Lemma has_path_shape_infix (t s : pystr) :
  infix t s -> has_path_shape t -> has_path_shape s.
Proof.
  intros Hts (m & Hm & Hshape). exists m. split; [|exact Hshape].
  now apply infix_trans with t.
Qed.

Lemma strip_by_is_infix (p : N -> bool) (s : pystr) : infix (strip_by p s) s.
Proof. exact (strip_by_infix p s). Qed.

(* ===================================================================== *)
(** * Facts about the two regular expressions *)
(* ===================================================================== *)

Lemma take_alnum_spec (s : pystr) :
  Forall (fun c => is_alnum c = true) (take_alnum s) /\
  exists post, s = take_alnum s ++ post.
Proof.
  induction s as [|c s [IH1 [post IH2]]]; simpl.
  - split; [constructor | now exists []].
  - destruct (is_alnum c) eqn:Hc.
    + split; [now constructor|]. exists post. simpl. now f_equal.
    + split; [constructor | now exists (c :: s)].
Qed.

Lemma match_ext_sound (s m : pystr) :
  match_ext s = Some m ->
  exists b post, m = DOT :: b /\ b <> [] /\
                 Forall (fun c => is_alnum c = true) b /\ s = m ++ post.
Proof.
  destruct s as [|c s]; simpl; [discriminate|].
  destruct (c =? DOT) eqn:Hc; [|discriminate].
  apply N.eqb_eq in Hc. subst c.
  destruct (take_alnum_spec s) as [Hall [post Hpost]].
  destruct (take_alnum s) as [|d b] eqn:Ht; [discriminate|].
  intros [= <-]. exists (d :: b), post.
  repeat split; [discriminate | exact Hall | simpl; now f_equal].
Qed.

Lemma match_ext_complete (c : N) (rest : pystr) :
  is_alnum c = true -> match_ext (DOT :: c :: rest) <> None.
Proof.
  intros Hc. simpl. rewrite Hc. discriminate.
Qed.

Lemma alnum_is_path_char (c : N) : is_alnum c = true -> is_path_char c = true.
Proof. intros H. unfold is_path_char. now rewrite H. Qed.

Lemma match_path_sound (s m : pystr) :
  match_path s = Some m -> path_shaped m /\ exists post, s = m ++ post.
Proof.
  revert m. induction s as [|c s IH]; simpl; intros m; [discriminate|].
  destruct (is_path_char c) eqn:Hc; [|discriminate].
  destruct (match_path s) as [m'|] eqn:Hm.
  - intros [= <-]. destruct (IH _ eq_refl) as [(a & b & -> & Ha & Hpa & Hb & Hab) [post ->]].
    split.
    + exists (c :: a), b. repeat split; try assumption; [discriminate | now constructor].
    + exists post. reflexivity.
  - destruct (match_ext s) as [m'|] eqn:He; [|discriminate].
    intros [= <-]. destruct (match_ext_sound _ _ He) as (b & post & -> & Hb & Hab & ->).
    split.
    + exists [c], b. repeat split; try assumption; [discriminate | now repeat constructor].
    + exists post. reflexivity.
Qed.

Lemma match_path_cons (c : N) (rest : pystr) :
  match_path (c :: rest) =
  if is_path_char c then
    match match_path rest with
    | Some m => Some (c :: m)
    | None => match match_ext rest with
              | Some m => Some (c :: m)
              | None => None
              end
    end
  else None.
Proof. reflexivity. Qed.

Lemma search_path_cons (c : N) (rest : pystr) :
  search_path (c :: rest) =
  match match_path (c :: rest) with
  | Some m => Some m
  | None => search_path rest
  end.
Proof. reflexivity. Qed.

Lemma match_path_complete (a : pystr) (c : N) (rest : pystr) :
  a <> [] -> Forall (fun x => is_path_char x = true) a -> is_alnum c = true ->
  match_path (a ++ DOT :: c :: rest) <> None.
Proof.
  intros Ha Hall Hc. induction Hall as [|x a Hx Hall IH]; [congruence|].
  change ((x :: a) ++ DOT :: c :: rest) with (x :: (a ++ DOT :: c :: rest)).
  rewrite match_path_cons, Hx.
  destruct a as [|y a].
  - change ([] ++ DOT :: c :: rest) with (DOT :: c :: rest).
    destruct (match_path (DOT :: c :: rest)); [discriminate|].
    destruct (match_ext (DOT :: c :: rest)) eqn:He; [discriminate|].
    exfalso. now apply (match_ext_complete c rest).
  - destruct (match_path ((y :: a) ++ DOT :: c :: rest)) eqn:Hm; [discriminate|].
    exfalso. apply IH; [discriminate | reflexivity].
Qed.

Lemma search_path_sound (s m : pystr) :
  search_path s = Some m -> path_shaped m /\ infix m s.
Proof.
  revert m. induction s as [|c s IH]; intros m; [discriminate|].
  change (search_path (c :: s)) with
    (match match_path (c :: s) with Some r => Some r | None => search_path s end).
  destruct (match_path (c :: s)) as [r|] eqn:Hm.
  - intros [= <-]. destruct (match_path_sound _ _ Hm) as [Hshape [post Hpost]].
    split; [exact Hshape|]. exists [], post. exact Hpost.
  - intros Hs. destruct (IH _ Hs) as [Hshape (pre & post & ->)].
    split; [exact Hshape|]. now exists (c :: pre), post.
Qed.

Lemma search_path_complete (s : pystr) :
  has_path_shape s -> search_path s <> None.
Proof.
  intros (m & (pre & post & ->) & a & b & -> & Ha & Hpa & Hb & Hab).
  induction pre as [|x pre IH].
  - destruct b as [|c b]; [congruence|]. inversion Hab as [|? ? Hc _]; subst.
    assert (Hm := match_path_complete a c (b ++ post) Ha Hpa Hc).
    simpl app. rewrite <- app_assoc. simpl app.
    destruct a as [|y a]; [congruence|].
    change (search_path ((y :: a) ++ DOT :: c :: b ++ post)) with
      (match match_path ((y :: a) ++ DOT :: c :: b ++ post) with
       | Some r => Some r
       | None => search_path (a ++ DOT :: c :: b ++ post)
       end).
    destruct (match_path ((y :: a) ++ DOT :: c :: b ++ post)); [discriminate|congruence].
  - change (search_path ((x :: pre) ++ (a ++ DOT :: b) ++ post)) with
      (match match_path ((x :: pre) ++ (a ++ DOT :: b) ++ post) with
       | Some r => Some r
       | None => search_path (pre ++ (a ++ DOT :: b) ++ post)
       end).
    destruct (match_path ((x :: pre) ++ (a ++ DOT :: b) ++ post)); [discriminate|exact IH].
Qed.

Lemma path_shaped_nonempty (m : pystr) : path_shaped m -> m <> [].
Proof.
  intros (a & b & -> & Ha & _). destruct a; [congruence | discriminate].
Qed.

(* ===================================================================== *)
(** * PathExtractor: lines 159 to 197 of [identify_critical_file] *)
(* ===================================================================== *)

Lemma first_line_infix (clean : pystr) : infix (first_line clean) clean.
Proof.
  unfold first_line.
  destruct (List.filter (fun line => truthy (strip line)) (split_on NL clean))
    as [|piece pieces] eqn:Hf; simpl.
  - apply strip_by_is_infix.
  - assert (Hin : In piece (List.filter (fun line => truthy (strip line))
                               (split_on NL clean))) by (rewrite Hf; now left).
    apply filter_In in Hin. destruct Hin as [Hin _].
    apply infix_trans with piece; [apply strip_by_is_infix|].
    exact (split_on_infix NL clean piece Hin).
Qed.

Lemma cleaned_result_infix (raw : pystr) :
  infix (cleaned_result raw) (clean_result raw).
Proof.
  unfold cleaned_result, strip_chars, strip.
  eapply infix_trans; [apply strip_by_is_infix|].
  eapply infix_trans; [apply strip_by_is_infix|].
  apply first_line_infix.
Qed.

(** The extracted path is the fallback or has the shape of a path. *)
Lemma extract_cases (raw : pystr) :
  extract raw = rendering_file 0 \/
  (path_shaped (extract raw) /\ infix (extract raw) (clean_result raw)).
Proof.
  unfold extract.
  destruct (search_path (cleaned_result raw)) as [m|] eqn:Hs; [right | now left].
  destruct (search_path_sound _ _ Hs) as [Hshape Hin].
  split; [exact Hshape|].
  apply infix_trans with (cleaned_result raw); [exact Hin|].
  apply cleaned_result_infix.
Qed.

(** ** Tags *)

Lemma sub_tags_inside (body rest : pystr) :
  Forall (fun c => c <> GT) body ->
  sub_tags true (body ++ GT :: rest) = sub_tags false rest.
Proof.
  induction 1 as [|c body Hc _ IH]; simpl.
  - reflexivity.
  - destruct (c =? GT) eqn:E; [apply N.eqb_eq in E; contradiction | exact IH].
Qed.

Lemma tag_opens_body (body rest : pystr) :
  tag_body body -> tag_opens (body ++ GT :: rest) = true.
Proof.
  intros [Hne Hall]. destruct body as [|c body]; [congruence|].
  inversion Hall as [|? ? Hc _]; subst. simpl.
  destruct (c =? GT) eqn:E; [apply N.eqb_eq in E; contradiction|].
  simpl. rewrite existsb_app. simpl. now rewrite orb_true_r.
Qed.

(** A tag is dropped whole. *)
Lemma sub_tags_tag (body rest : pystr) :
  tag_body body -> sub_tags false (tag body ++ rest) = sub_tags false rest.
Proof.
  intros Hb. unfold tag. rewrite <- !app_assoc.
  change (sub_tags false ([LT] ++ body ++ [GT] ++ rest)) with
    (if (LT =? LT) && tag_opens (body ++ GT :: rest)
     then sub_tags true (body ++ GT :: rest)
     else LT :: sub_tags false (body ++ GT :: rest)).
  rewrite (tag_opens_body body rest Hb). simpl.
  apply sub_tags_inside. exact (proj2 Hb).
Qed.

(** Text without ['<'] is kept as it is. *)
Lemma sub_tags_keep (w rest : pystr) :
  Forall (fun c => c <> LT) w ->
  sub_tags false (w ++ rest) = w ++ sub_tags false rest.
Proof.
  induction 1 as [|c w Hc _ IH]; simpl; [reflexivity|].
  destruct (c =? LT) eqn:E; [apply N.eqb_eq in E; contradiction|].
  simpl. now rewrite IH.
Qed.

Lemma blank_no_lt (w : pystr) : blank w -> Forall (fun c => c <> LT) w.
Proof.
  unfold blank. induction 1 as [|c w Hc _ IH]; constructor; [|exact IH].
  intros ->. discriminate Hc.
Qed.

Lemma blank_lines_dropped (w : pystr) :
  blank w ->
  List.filter (fun line => truthy (strip line)) (split_on NL w) = [].
Proof.
  intros Hw. assert (H := split_on_all NL _ w Hw).
  induction H as [|piece pieces Hp _ IH]; simpl; [reflexivity|].
  unfold strip at 1. rewrite (strip_by_all isspace piece Hp). exact IH.
Qed.

(** C3, as amended. For all raw model text made of an opening tag, a
    span between the tags that holds nothing but whitespace, a closing
    tag and then a line containing only [foo/bar.ts], the extractor
    returns exactly [foo/bar.ts]. Only the tags themselves are
    stripped: text between them stays in the cleaned answer. *)
Theorem extract_blank_span (a b w : pystr) :
  tag_body a -> tag_body b -> blank w ->
  extract (tag a ++ w ++ tag b ++ [NL] ++ py "foo/bar.ts") = py "foo/bar.ts".
Proof.
  intros Ha Hb Hw.
  assert (Hclean : clean_result (tag a ++ w ++ tag b ++ [NL] ++ py "foo/bar.ts")
                   = w ++ NL :: py "foo/bar.ts").
  { unfold clean_result.
    rewrite (sub_tags_tag a _ Ha), (sub_tags_keep w _ (blank_no_lt w Hw)).
    rewrite (sub_tags_tag b _ Hb). reflexivity. }
  unfold extract, cleaned_result. rewrite Hclean.
  unfold first_line.
  rewrite split_on_app, List.filter_app, (blank_lines_dropped w Hw).
  reflexivity.
Qed.

(** C3, the amended statement at a concrete answer: [<think> </think>]
    followed by the line [foo/bar.ts]. *)
Lemma extract_blank_span_witness :
  extract (tag (py "think") ++ py " " ++ tag (py "/think") ++ [NL] ++ py "foo/bar.ts")
  = py "foo/bar.ts".
Proof.
  apply (extract_blank_span (py "think") (py "/think") (py " ")).
  - split; [discriminate | repeat constructor; discriminate].
  - split; [discriminate | repeat constructor; discriminate].
  - repeat constructor.
Defined.

(** C3 as stated fails: with text between the tags, that text becomes
    the first line. For [<think>reasoning</think>] followed by the line
    [foo/bar.ts] the extractor does not return [foo/bar.ts] but falls
    back to the default file, and a path inside the reasoning is
    returned in place of [foo/bar.ts]. *)
Lemma extract_reasoning_counterexample :
  extract (tag (py "think") ++ py "reasoning" ++ tag (py "/think")
             ++ [NL] ++ py "foo/bar.ts") <> py "foo/bar.ts" /\
  extract (tag (py "think") ++ py "reasoning" ++ tag (py "/think")
             ++ [NL] ++ py "foo/bar.ts") = py "render/fluid.wgsl" /\
  extract (tag (py "think") ++ py "see a.b" ++ tag (py "/think")
             ++ [NL] ++ py "foo/bar.ts") = py "a.b".
Proof. split; [discriminate | split; reflexivity]. Qed.




(* ===================================================================== *)
(** * Running the commands *)
(* ===================================================================== *)

Lemma bind_returned {A B} (m : M A) (k : A -> M B) (w w' : world) (a : A) :
  m w = (Returned a, w') -> bind m k w = k a w'.
Proof. intros H. unfold bind. now rewrite H. Qed.

Lemma bind_raised {A B} (m : M A) (k : A -> M B) (w w' : world) (e : exn) :
  m w = (Raised e, w') -> bind m k w = (Raised e, w').
Proof. intros H. unfold bind. now rewrite H. Qed.

Lemma files_logged (w : world) (evs : list event) : files (logged w evs) = files w.
Proof. reflexivity. Qed.

Lemma draws_logged (w : world) (evs : list event) : draws (logged w evs) = draws w.
Proof. reflexivity. Qed.

Lemma trace_logged (w : world) (evs : list event) :
  trace (logged w evs) = trace w ++ evs.
Proof. reflexivity. Qed.

Lemma logged_logged (w : world) (xs ys : list event) :
  logged (logged w xs) ys = logged w (xs ++ ys).
Proof. unfold logged. simpl. now rewrite app_assoc. Qed.

Lemma logged_nil (w : world) : logged w [] = w.
Proof. unfold logged. rewrite app_nil_r. now destruct w. Qed.

Lemma isfile_run (p : pystr) (w : world) :
  isfile p w = (Returned match node_at (files w) p with
                         | Some (File _) => true
                         | _ => false
                         end, w).
Proof. reflexivity. Qed.

Lemma path_exists_run (p : pystr) (w : world) :
  path_exists p w = (Returned (on_disk (files w) p), w).
Proof. reflexivity. Qed.

Lemma emit_run (e : event) (w : world) : emit e w = (Returned tt, logged w [e]).
Proof. reflexivity. Qed.

Lemma print_run (line : N) (args : list arg) (w : world) :
  print line args w = (Returned tt, logged w [Print line args]).
Proof. reflexivity. Qed.

Lemma print_err_run (line : N) (args : list arg) (w : world) :
  print_err line args w = (Returned tt, logged w [PrintErr line args]).
Proof. reflexivity. Qed.

Lemma ret_run {A} (a : A) (w : world) : ret a w = (Returned a, w).
Proof. reflexivity. Qed.

Lemma no_request_nil : no_request [].
Proof. intros r []. Qed.

Lemma no_request_app (xs ys : list event) :
  no_request xs -> no_request ys -> no_request (xs ++ ys).
Proof.
  intros Hx Hy r Hin. apply in_app_or in Hin.
  destruct Hin; [now apply (Hx r) | now apply (Hy r)].
Qed.

Lemma no_request_print (line : N) (args : list arg) : no_request [Print line args].
Proof. intros r [H|[]]. discriminate. Qed.

Lemma no_request_print_err (line : N) (args : list arg) :
  no_request [PrintErr line args].
Proof. intros r [H|[]]. discriminate. Qed.

Lemma no_request_tree : no_request [RunTree].
Proof. intros r [H|[]]. discriminate. Qed.

Create HintDb quiet.
#[local] Hint Resolve no_request_nil no_request_app no_request_print
  no_request_print_err no_request_tree : quiet.

(* ===================================================================== *)
(** * identify_critical_file without its context files *)
(* ===================================================================== *)

Section IdentifyFallback.

Variable b64encode : bytes -> pystr.
Variable tree_run : option (Z * pystr).
Variable requests_post : request -> result response.

(** The tree listing always yields some text and sends nothing. *)
Lemma get_directory_structure_run (w : world) :
  exists out,
    get_directory_structure tree_run w = (Returned out, logged w [RunTree]).
Proof.
  unfold get_directory_structure, try_except_only, try_except, bind, emit, ret, raise.
  destruct tree_run as [[code out]|]; simpl.
  - destruct (code =? 0)%Z; eexists; reflexivity.
  - eexists; reflexivity.
Qed.

(** A missing file encodes to the empty string, with a warning. *)
Lemma encode_file_missing (p : pystr) (w : world) :
  node_at (files w) p = None ->
  encode_file b64encode p w = (Returned [], logged w [PrintErr 29 [AStr p]]).
Proof.
  intros H. unfold encode_file, bind, isfile, print_err, emit, ret. now rewrite H.
Qed.

(** The fallback loop returns the first candidate on disk. *)
Lemma first_existing_run (candidates : list pystr) (w : world) :
  exists evs,
    first_existing candidates w =
    (Returned (List.find (on_disk (files w)) candidates), logged w evs) /\
    no_request evs.
Proof.
  induction candidates as [|c cs IH]; simpl.
  - exists []. split; [|apply no_request_nil]. now rewrite logged_nil.
  - unfold bind. rewrite path_exists_run.
    destruct (on_disk (files w) c).
    + exists [Print 93 [AStr c]]. split; [reflexivity | apply no_request_print].
    + exact IH.
Qed.

(** C10. When both repository-context files are missing,
    [identify_critical_file] sends no request: it returns the first
    entry of the fallback list that exists on disk, or the first entry
    of the list when none exists, and never [None]. *)
Theorem identify_without_context (w : world) :
  node_at (files w) COMPRESSED_FILE = None ->
  node_at (files w) UNCOMPRESSED_FILE = None ->
  exists evs,
    identify_critical_file b64encode tree_run requests_post w =
    (Returned (Some (default (rendering_file 0)
                       (List.find (on_disk (files w)) RENDERING_FILES))),
     logged w evs) /\
    no_request evs.
Proof.
  intros Hc Hu. unfold identify_critical_file.
  destruct (get_directory_structure_run w) as [out Htree].
  rewrite (bind_returned _ _ _ _ _ Htree).
  rewrite (bind_returned _ _ _ _ _
             (encode_file_missing COMPRESSED_FILE (logged w [RunTree]) Hc)).
  rewrite logged_logged.
  rewrite (bind_returned _ _ _ _ _
             (encode_file_missing UNCOMPRESSED_FILE (logged w _) Hu)).
  change (negb (truthy []) && negb (truthy [])) with true. cbv iota.
  rewrite (bind_returned _ _ _ _ _ (print_run 89 [] _)).
  rewrite !logged_logged.
  match goal with |- context [logged w ?evs0] =>
    destruct (first_existing_run RENDERING_FILES (logged w evs0))
      as (evs & Hrun & Hevs)
  end.
  rewrite (bind_returned _ _ _ _ _ Hrun), files_logged, logged_logged.
  destruct (List.find (on_disk (files w)) RENDERING_FILES) as [fallback|]; simpl default.
  - rewrite ret_run. eexists. split; [reflexivity|]. auto 10 with quiet.
  - rewrite (bind_returned _ _ _ _ _ (print_run 97 _ _)), ret_run, logged_logged.
    eexists. split; [reflexivity|]. auto 10 with quiet.
Qed.

End IdentifyFallback.

(** C10 at a concrete world: only the second fallback file is on disk,
    and the service is unreachable. *)
Lemma identify_without_context_witness :
  exists evs,
    identify_critical_file (fun s => s) None (fun _ => Raised (ExternalError 0))
      (world_of [(py "render/fluidRender.ts", File (py "x"))]) =
    (Returned (Some (py "render/fluidRender.ts")),
     logged (world_of [(py "render/fluidRender.ts", File (py "x"))]) evs) /\
    no_request evs.
Proof.
  exact (identify_without_context (fun s => s) None
           (fun _ => Raised (ExternalError 0))
           (world_of [(py "render/fluidRender.ts", File (py "x"))])
           eq_refl eq_refl).
Defined.

(* ===================================================================== *)
(** * The backup next to the file *)
(* ===================================================================== *)

(** Case analysis on the node a command looks at. *)
Ltac case_node :=
  match goal with
  | H : context [match ?x with Some _ => _ | None => _ end] |- _ =>
      destruct x as [[|]|] eqn:?
  | |- context [match ?x with Some _ => _ | None => _ end] =>
      destruct x as [[|]|] eqn:?
  end.

Lemma app_ne_self (p x : pystr) : x <> [] -> p ++ x <> p.
Proof.
  intros Hx Heq. apply (f_equal (@length N)) in Heq.
  rewrite length_app in Heq. destruct x; [congruence | simpl in Heq; lia].
Qed.

Lemma node_at_insert_ne (fs : gmap pystr node) (k p : pystr) (v : node) :
  k <> p -> node_at (<[k := v]> fs) p = node_at fs p.
Proof.
  intros Hne. destruct p; [reflexivity|]. simpl. now rewrite lookup_insert_ne.
Qed.

Lemma node_at_insert_eq (fs : gmap pystr node) (k : pystr) (v : node) :
  k <> [] -> node_at (<[k := v]> fs) k = Some v.
Proof.
  intros Hne. destruct k; [congruence|]. simpl. now rewrite lookup_insert_eq.
Qed.

Lemma node_at_nonempty (fs : gmap pystr node) (p : pystr) (n : node) :
  node_at fs p = Some n -> p <> [].
Proof. destruct p; [discriminate | discriminate]. Qed.

Lemma read_bytes_file (p : pystr) (c : bytes) (w : world) :
  node_at (files w) p = Some (File c) -> read_bytes p w = (Returned c, w).
Proof. intros H. unfold read_bytes. now rewrite H. Qed.

(** Writing to a path that is not a directory replaces the file there. *)
Lemma write_bytes_run (p : pystr) (s : bytes) (w : world) :
  p <> [] -> node_at (files w) p <> Some Dir ->
  write_bytes p s w = (Returned tt, set_files (<[p := File s]> (files w)) w).
Proof.
  intros Hp Hd. unfold write_bytes. destruct p as [|c p]; [congruence|].
  unfold node_at in Hd.
  case_node; try reflexivity. now elim Hd.
Qed.

(** Whatever a write does, it leaves every other path alone. *)
Lemma write_bytes_other (p q : pystr) (s : bytes) (w : world) :
  p <> q ->
  node_at (files (snd (write_bytes p s w))) q = node_at (files w) q.
Proof.
  intros Hne. unfold write_bytes. destruct p as [|c p]; [reflexivity|].
  case_node; simpl; try reflexivity; now apply node_at_insert_ne.
Qed.

Lemma write_bytes_trace (p : pystr) (s : bytes) (w : world) :
  trace (snd (write_bytes p s w)) = trace w.
Proof.
  unfold write_bytes. destruct p as [|c p]; [reflexivity|].
  case_node; reflexivity.
Qed.

(** A text-mode read of UTF-8 bytes gives their text, with the line
    ends translated, and changes nothing. *)
Lemma read_text_run (p : pystr) (c : bytes) (t : pystr) (w : world) :
  node_at (files w) p = Some (File c) -> utf8_decode c = Some t ->
  read_text p w = (Returned (universal_newlines t), w).
Proof.
  intros Hp Hd. unfold read_text.
  rewrite (bind_returned _ _ _ _ _ (read_bytes_file p c w Hp)). now rewrite Hd.
Qed.

Lemma read_text_undecodable (p : pystr) (c : bytes) (w : world) :
  node_at (files w) p = Some (File c) -> utf8_decode c = None ->
  read_text p w = (Raised UnicodeDecodeError, w).
Proof.
  intros Hp Hd. unfold read_text.
  rewrite (bind_returned _ _ _ _ _ (read_bytes_file p c w Hp)). now rewrite Hd.
Qed.

(** A read returns a text or raises; either way the world is as
    before. *)
Lemma read_text_cases (p : pystr) (w : world) :
  (exists c t, node_at (files w) p = Some (File c) /\ utf8_decode c = Some t /\
               read_text p w = (Returned (universal_newlines t), w)) \/
  ((forall c t, node_at (files w) p = Some (File c) -> utf8_decode c <> Some t) /\
   exists e, read_text p w = (Raised e, w)).
Proof.
  unfold read_text, read_bytes, bind.
  destruct (node_at (files w) p) as [[c|]|].
  - destruct (utf8_decode c) as [t|] eqn:Hd.
    + left. now exists c, t.
    + right. split; [|now eexists]. intros c' t [= <-]. congruence.
  - right. split; [discriminate | now eexists].
  - right. split; [discriminate | now eexists].
Qed.

(** A text-mode write of an encodable string replaces the file by its
    encoding. *)
Lemma write_text_run (p s : pystr) (b : bytes) (w : world) :
  p <> [] -> node_at (files w) p <> Some Dir -> utf8_encode s = Some b ->
  write_text p s w = (Returned tt, set_files (<[p := File b]> (files w)) w).
Proof.
  intros Hp Hd He. unfold write_text. rewrite He. now apply write_bytes_run.
Qed.

(** A string that cannot be encoded leaves the file empty: [open] has
    truncated it when [f.write] raises. *)
Lemma write_text_unencodable (p s : pystr) (w : world) :
  p <> [] -> node_at (files w) p <> Some Dir -> utf8_encode s = None ->
  write_text p s w
  = (Raised UnicodeEncodeError, set_files (<[p := File []]> (files w)) w).
Proof.
  intros Hp Hd He. unfold write_text. rewrite He.
  now rewrite (bind_returned _ _ _ _ _ (write_bytes_run p [] w Hp Hd)).
Qed.

Lemma write_text_other (p q s : pystr) (w : world) :
  p <> q ->
  node_at (files (snd (write_text p s w))) q = node_at (files w) q.
Proof.
  intros Hne. unfold write_text. destruct (utf8_encode s) as [b|].
  - now apply write_bytes_other.
  - unfold bind. assert (H := write_bytes_other p q [] w Hne).
    now destruct (write_bytes p [] w) as [[[]|e] w1].
Qed.

(** The backup step never fails and never touches the file itself. *)
Lemma capture_keeps_file (p : pystr) (c : bytes) (w : world) :
  node_at (files w) p = Some (File c) ->
  exists w',
    capture p w = (Returned tt, w') /\
    node_at (files w') p = Some (File c) /\
    no_request (drop (length (trace w)) (trace w')).
Proof.
  intros Hp. unfold capture, try_except, copy2, bind.
  rewrite (read_bytes_file p c w Hp).
  set (bak := p ++ py ".bak").
  set (target := match node_at (files w) bak with
                 | Some Dir => bak ++ [SLASH] ++ basename p
                 | _ => bak
                 end).
  assert (Htarget : target <> p).
  { unfold target, bak. destruct (node_at (files w) (p ++ py ".bak")) as [[|]|];
      try (apply app_ne_self; discriminate).
    rewrite <- app_assoc. apply app_ne_self. discriminate. }
  assert (Hstep : (match node_at (files w) bak with
                   | Some Dir => write_bytes (bak ++ [SLASH] ++ basename p) c w
                   | _ => write_bytes bak c w
                   end) = write_bytes target c w).
  { unfold target. now destruct (node_at (files w) bak) as [[|]|]. }
  rewrite Hstep.
  assert (Hother := write_bytes_other target p c w Htarget).
  assert (Htrace := write_bytes_trace target c w).
  destruct (write_bytes target c w) as [[[]|e] w1] eqn:Hw; simpl in Hother, Htrace.
  - eexists. split; [reflexivity|]. simpl. split; [now rewrite Hother|].
    rewrite Htrace, drop_app_length. apply no_request_print.
  - eexists. split; [reflexivity|]. simpl. split; [now rewrite Hother|].
    rewrite Htrace, drop_app_length. apply no_request_print.
Qed.

(* ===================================================================== *)
(** * RewriteOrchestrator: failed responses *)
(* ===================================================================== *)

Section OptimizeFailure.

Variable requests_post : request -> result response.
Variable unicode_isalnum : N -> bool.

Lemma truthy_nonempty (s : pystr) : s <> [] -> truthy s = true.
Proof. destruct s; [congruence | reflexivity]. Qed.

(** For a regular file the UTF-8 read or its Latin-1 retry returns. *)
Lemma get_file_content_file (p : pystr) (c : bytes) (w : world) :
  node_at (files w) p = Some (File c) ->
  get_file_content p w = (Returned (file_text c), w).
Proof.
  intros H. unfold get_file_content.
  rewrite (bind_returned _ _ _ _ _ (isfile_run p w)), H.
  unfold try_except_only, try_except, file_text.
  destruct (utf8_decode c) as [t|] eqn:Hd.
  - now rewrite (read_text_run p c t w H Hd).
  - rewrite (read_text_undecodable p c w H Hd). cbn [is_unicode_decode_error].
    unfold read_latin1. now rewrite (bind_returned _ _ _ _ _ (read_bytes_file p c w H)).
Qed.

Lemma post_run (r : request) (resp : response) (w : world) :
  requests_post r = Returned resp ->
  post requests_post r w = (Returned resp, logged w [HttpPost r]).
Proof.
  intros H. unfold post. rewrite (bind_returned _ _ _ _ _ (emit_run _ w)).
  now rewrite H.
Qed.

(** C7. For every existing, readable, non-empty tracked file: when the
    generation service answers with a status other than 200, or with a
    body that does not decode as JSON, [optimize_file_for_m1] returns
    [False] and the tracked file holds exactly the content it held
    before the call; the write step is not reached. *)
Theorem optimize_failure_keeps_file (w : world) (file_path : pystr)
    (content : bytes) :
  node_at (files w) file_path = Some (File content) ->
  content <> [] ->
  (forall r, exists resp, requests_post r = Returned resp /\ failed_response resp) ->
  exists w',
    optimize_file_for_m1 requests_post unicode_isalnum file_path w
    = (Returned false, w') /\
    node_at (files w') file_path = Some (File content).
Proof.
  intros Hfile Hne Hresp. unfold optimize_file_for_m1.
  rewrite (truthy_nonempty file_path (node_at_nonempty _ _ _ Hfile)).
  cbn [negb].
  rewrite (bind_returned _ _ _ _ _ (isfile_run file_path w)), Hfile.
  cbn [negb].
  destruct (capture_keeps_file file_path content w Hfile) as (w1 & Hcap & Hfile1 & _).
  rewrite (bind_returned _ _ _ _ _ Hcap).
  rewrite (bind_returned _ _ _ _ _ (get_file_content_file _ _ _ Hfile1)).
  rewrite (truthy_nonempty _ (file_text_nonempty content Hne)). cbn [negb].
  rewrite (bind_returned _ _ _ _ _ (print_run 285 _ w1)).
  match goal with |- context [post requests_post ?r] =>
    destruct (Hresp r) as (resp & Hr & Hfail);
    rewrite (bind_returned _ _ _ _ _ (post_run r resp _ Hr))
  end.
  rewrite logged_logged.
  destruct (status_code resp =? 200)%Z eqn:Hstatus.
  - destruct Hfail as [Hcode | Hbody].
    + apply Z.eqb_eq in Hstatus. contradiction.
    + unfold try_except_only, try_except, response_json.
      rewrite Hbody.
      rewrite (bind_raised _ _ _ _ _ (eq_refl : raise JSONDecodeError _ = _)).
      cbn [is_json_decode_error].
      rewrite (bind_returned _ _ _ _ _ (print_run 317 _ _)).
      rewrite (bind_returned _ _ _ _ _ (print_run 318 _ _)).
      rewrite ret_run. eexists. split; [reflexivity | exact Hfile1].
  - rewrite (bind_returned _ _ _ _ _ (print_run 320 _ _)).
    rewrite (bind_returned _ _ _ _ _ (print_run 321 _ _)).
    rewrite ret_run. eexists. split; [reflexivity | exact Hfile1].
Qed.

End OptimizeFailure.

(** C7 at a concrete world: a shader on disk and a service that
    answers 500. *)
Lemma optimize_failure_keeps_file_witness :
  exists w',
    optimize_file_for_m1
      (fun _ => Returned {| status_code := 500; json_body := None; text := [] |})
      (fun _ => false) (py "render/fluid.wgsl")
      (world_of [(py "render/fluid.wgsl", File (py "fn main() {}"))])
    = (Returned false, w') /\
    node_at (files w') (py "render/fluid.wgsl") = Some (File (py "fn main() {}")).
Proof.
  apply optimize_failure_keeps_file.
  - reflexivity.
  - discriminate.
  - intros r. eexists. split; [reflexivity|]. left. discriminate.
Defined.

(* ===================================================================== *)
(** * ReportBuilder *)
(* ===================================================================== *)

Section ReportBuilder.

Variable plot_frame_times : Q -> Q -> result unit.
Variable render_plot : summary -> result bytes.
Variable json_dump : results -> bytes.

(** C5, as amended. Whenever the optimized-sample sequence is empty,
    even if the original-sample sequence is not, [visualize_results]
    returns at once without raising anything, and it produces no report
    output at all: no file is written and nothing is printed. *)
Theorem visualize_results_empty_optimized
    (original_times : list Q) (changes : option change_report) (w : world) :
  visualize_results plot_frame_times render_plot json_dump
    original_times [] changes w
  = (Returned tt, w).
Proof. destruct original_times; reflexivity. Qed.

End ReportBuilder.

(** C5 as stated fails: with one original sample and no optimized
    sample the call returns normally, it does not raise. *)
Lemma visualize_results_returns_counterexample :
  visualize_results (fun _ _ => Returned tt) (fun _ => Returned []) (fun _ => [])
    [20%Q] [] None (world_of [])
  = (Returned tt, world_of []) /\
  forall e, fst (visualize_results (fun _ _ => Returned tt) (fun _ => Returned [])
                   (fun _ => []) [20%Q] [] None (world_of [])) <> Raised e.
Proof. split; [reflexivity | discriminate]. Qed.

(** C6. For the original samples [20, 20, 20] and the optimized samples
    [15, 15, 15] the summary holds an improvement of 25 percent, its
    verdict is the significant band (25 > 15), and the optimized
    throughput 1000 / 15 lies within 0.01 of 66.67. *)
Theorem summary_scenario :
  exists s,
    summarize [20; 20; 20]%Q [15; 15; 15]%Q = Returned s /\
    (improvement_pct s == 25)%Q /\
    verdict (improvement_pct s) = Significant /\
    (66.67 - 0.01 <= fps_optimized s /\ fps_optimized s <= 66.67 + 0.01)%Q.
Proof.
  eexists. split; [reflexivity|]. split; [reflexivity|]. split; [reflexivity|].
  split; vm_compute; discriminate.
Qed.

(* ===================================================================== *)
(** * ChangeAnalyzer *)
(* ===================================================================== *)

Lemma pystr_eqb_refl (s : pystr) : pystr_eqb s s = true.
Proof. induction s as [|c s IH]; simpl; [reflexivity|]. now rewrite N.eqb_refl. Qed.

Lemma lines_eqb_refl (a : list pystr) : lines_eqb a a = true.
Proof.
  induction a as [|x a IH]; simpl; [reflexivity|]. now rewrite pystr_eqb_refl.
Qed.

Lemma whole_file_diff_same (a : list pystr) : whole_file_diff a a = [].
Proof. unfold whole_file_diff. now rewrite lines_eqb_refl. Qed.

Lemma optimization_notes_nil (lines : list pystr) :
  optimization_notes lines = [] <->
  forall line, In line lines -> contains MARKER line = false.
Proof.
  unfold optimization_notes. induction lines as [|l ls IH]; simpl.
  - split; [intros _ line [] | reflexivity].
  - destruct (contains MARKER l) eqn:Hl; simpl.
    + split; [discriminate|]. intros H. specialize (H l (or_introl eq_refl)). congruence.
    + rewrite IH. split.
      * intros H line [<-|Hin]; [exact Hl | now apply H].
      * intros H line Hin. apply H. now right.
Qed.

Section ChangeAnalyzer.

Variable unified_diff : list pystr -> list pystr -> list pystr.

(** What difflib guarantees for equal inputs: no header, no hunk. *)
Hypothesis unified_diff_same : forall a, unified_diff a a = [].

(** C8, as amended. For every text [t], analysing [t] against itself
    yields zero added lines, zero removed lines and zero changed chunks.
    The annotation list holds the lines of [t] that contain the marker,
    so it is empty exactly when no line of [t] contains the marker. *)
Theorem analyze_same (t : pystr) :
  additions (analyze unified_diff (readlines t) (readlines t)) = 0%nat /\
  deletions (analyze unified_diff (readlines t) (readlines t)) = 0%nat /\
  changes (analyze unified_diff (readlines t) (readlines t)) = 0%nat /\
  (m1_optimizations (analyze unified_diff (readlines t) (readlines t)) = [] <->
   forall line, In line (readlines t) -> contains MARKER line = false).
Proof.
  unfold analyze. rewrite unified_diff_same. simpl.
  repeat split; try reflexivity; apply optimization_notes_nil.
Qed.

End ChangeAnalyzer.

(** C8, the amended statement at a concrete text without the marker,
    under the stand-in differ. *)
Lemma analyze_same_witness :
  additions (analyze whole_file_diff (readlines (py "a;b;")) (readlines (py "a;b;"))) = 0%nat /\
  deletions (analyze whole_file_diff (readlines (py "a;b;")) (readlines (py "a;b;"))) = 0%nat /\
  changes (analyze whole_file_diff (readlines (py "a;b;")) (readlines (py "a;b;"))) = 0%nat /\
  (m1_optimizations (analyze whole_file_diff (readlines (py "a;b;")) (readlines (py "a;b;"))) = [] <->
   forall line, In line (readlines (py "a;b;")) -> contains MARKER line = false).
Proof. exact (analyze_same whole_file_diff whole_file_diff_same (py "a;b;")). Defined.

(** C8 as stated fails: a text with a marker line, analysed against
    itself, has that line in its annotation list. *)
Lemma analyze_same_marker_counterexample :
  m1_optimizations
    (analyze whole_file_diff (readlines (py "// M1 OPTIMIZED: unrolled"))
                             (readlines (py "// M1 OPTIMIZED: unrolled")))
  = [py "// M1 OPTIMIZED: unrolled"] /\
  m1_optimizations
    (analyze whole_file_diff (readlines (py "// M1 OPTIMIZED: unrolled"))
                             (readlines (py "// M1 OPTIMIZED: unrolled")))
  <> [].
Proof. split; [reflexivity | discriminate]. Qed.

(* ===================================================================== *)
(** * BackupStore: capture, restore, reinstate *)
(* ===================================================================== *)

Lemma files_set_files (fs : gmap pystr node) (w : world) :
  files (set_files fs w) = fs.
Proof. reflexivity. Qed.

(** With a free or a file-holding backup location the copy lands there. *)
Lemma capture_run (p : pystr) (c : bytes) (w : world) :
  node_at (files w) p = Some (File c) ->
  node_at (files w) (p ++ py ".bak") <> Some Dir ->
  capture p w =
  (Returned tt,
   logged (set_files (<[p ++ py ".bak" := File c]> (files w)) w)
          [Print 224 [AStr (p ++ py ".bak")]]).
Proof.
  intros Hp Hbak. unfold capture, try_except, copy2, bind.
  rewrite (read_bytes_file p c w Hp).
  assert (Hne : p ++ py ".bak" <> []) by (destruct p; discriminate).
  assert (Hw := write_bytes_run (p ++ py ".bak") c w Hne Hbak).
  destruct (node_at (files w) (p ++ py ".bak")) as [[|]|];
    try contradiction; now rewrite Hw.
Qed.

Lemma path_of_some (p : pystr) : path_of (Some p) = p.
Proof. reflexivity. Qed.

Section Swap.

Variables (g : globals) (p b : pystr).
Hypothesis Hopt : OPTIMIZED_FILE g = Some p.
Hypothesis Horig : ORIGINAL_FILE g = Some b.

(** With both files readable as UTF-8, the text of the backup goes live
    and the text of the file it replaces is handed back, both with
    their line ends translated by the read. *)
Lemma temporarily_restore_original_run (opt orig : bytes) (topt torig : pystr)
    (w : world) :
  node_at (files w) p = Some (File opt) -> utf8_decode opt = Some topt ->
  node_at (files w) b = Some (File orig) -> utf8_decode orig = Some torig ->
  exists orig',
    utf8_encode (universal_newlines torig) = Some orig' /\
    temporarily_restore_original g w =
    (Returned (PStr (universal_newlines topt)),
     set_files (<[p := File orig']> (files w)) w).
Proof.
  intros Hp Hdp Hb Hdb.
  destruct (universal_newlines_encodable torig orig (utf8_encode_decode _ _ Hdb))
    as [orig' Henc].
  exists orig'. split; [exact Henc|].
  unfold temporarily_restore_original, is_set.
  rewrite Hopt, Horig, !path_of_some.
  rewrite (truthy_nonempty p (node_at_nonempty _ _ _ Hp)).
  rewrite (truthy_nonempty b (node_at_nonempty _ _ _ Hb)).
  cbn [negb andb]. unfold try_except, bind.
  rewrite (read_text_run p opt topt w Hp Hdp), (read_text_run b orig torig w Hb Hdb).
  rewrite (write_text_run p _ orig' w (node_at_nonempty _ _ _ Hp)); [reflexivity| |exact Henc].
  rewrite Hp. discriminate.
Qed.

(** Writing an encodable string back over the live file succeeds. *)
Lemma restore_optimized_run (s : pystr) (content old : bytes) (w : world) :
  node_at (files w) p = Some (File old) ->
  utf8_encode s = Some content ->
  restore_optimized g (PStr s) w =
  (Returned true, set_files (<[p := File content]> (files w)) w).
Proof.
  intros Hp Henc. unfold restore_optimized, is_set. rewrite Hopt, !path_of_some.
  rewrite (truthy_nonempty p (node_at_nonempty _ _ _ Hp)). cbn [negb].
  unfold try_except, bind.
  rewrite (write_text_run p s content w (node_at_nonempty _ _ _ Hp)); [reflexivity| |exact Henc].
  rewrite Hp. discriminate.
Qed.

End Swap.

(** C2, as amended. For every tracked file that holds UTF-8 text without
    a carriage return and whose backup location is not taken by a
    directory: capture (the copy to the [.bak] sibling), then
    [temporarily_restore_original] (the backup written over the live
    file, the overwritten content returned), then [restore_optimized]
    with that returned content, leaves the live file with exactly the
    bytes it had before the capture. *)
Theorem capture_restore_reinstate (w : world) (path : pystr) (content : bytes)
    (text : pystr) :
  node_at (files w) path = Some (File content) ->
  utf8_decode content = Some text ->
  ~ In CR text ->
  node_at (files w) (path ++ py ".bak") <> Some Dir ->
  exists w1 w2 w3 returned,
    capture path w = (Returned tt, w1) /\
    temporarily_restore_original (tracking path) w1 = (Returned (PStr returned), w2) /\
    restore_optimized (tracking path) (PStr returned) w2 = (Returned true, w3) /\
    node_at (files w3) path = Some (File content).
Proof.
  intros Hp Hdec Hcr Hbak.
  assert (Hp0 : path <> []) by exact (node_at_nonempty _ _ _ Hp).
  assert (Hne : path ++ py ".bak" <> path) by (apply app_ne_self; discriminate).
  assert (Hb0 : path ++ py ".bak" <> []) by (destruct path; discriminate).
  assert (Henc : utf8_encode text = Some content) by exact (utf8_encode_decode _ _ Hdec).
  assert (Hlive : node_at (<[path ++ py ".bak" := File content]> (files w)) path
                  = Some (File content)) by (now rewrite node_at_insert_ne).
  destruct (temporarily_restore_original_run (tracking path) path
              (path ++ py ".bak") eq_refl eq_refl content content text text
              (logged (set_files (<[path ++ py ".bak" := File content]> (files w)) w)
                      [Print 224 [AStr (path ++ py ".bak")]])
              Hlive Hdec (node_at_insert_eq _ _ _ Hb0) Hdec)
    as (live' & Hlive' & Hswap).
  rewrite (universal_newlines_id text Hcr) in Hlive', Hswap.
  assert (live' = content) as -> by congruence.
  eexists _, _, _, text. split; [exact (capture_run path content w Hp Hbak)|].
  split; [exact Hswap|]. split.
  - apply (restore_optimized_run (tracking path) path eq_refl text content content).
    + now apply node_at_insert_eq.
    + exact Henc.
  - now apply node_at_insert_eq.
Qed.

(** C2 at a concrete world: a shader with no backup yet. *)
Lemma capture_restore_reinstate_witness :
  exists w1 w2 w3 returned,
    capture (py "render/fluid.wgsl")
      (world_of [(py "render/fluid.wgsl", File (py "fn main() {}"))])
    = (Returned tt, w1) /\
    temporarily_restore_original (tracking (py "render/fluid.wgsl")) w1
    = (Returned (PStr returned), w2) /\
    restore_optimized (tracking (py "render/fluid.wgsl")) (PStr returned) w2
    = (Returned true, w3) /\
    node_at (files w3) (py "render/fluid.wgsl") = Some (File (py "fn main() {}")).
Proof.
  apply (capture_restore_reinstate _ _ _ (py "fn main() {}")).
  - reflexivity.
  - reflexivity.
  - vm_compute. intuition discriminate.
  - discriminate.
Defined.

(** C2 as stated fails, in three ways. A live file with a Windows line
    end, [a\r\nb], comes back as [a\nb]: the text-mode reads translate
    the line end and the write puts the translated text back. A live
    file that is not UTF-8 (the single byte 255) cannot be read, so
    [temporarily_restore_original] returns [False], and
    [restore_optimized] with that value truncates the file before
    [f.write(False)] raises: the file ends up empty. The same happens to
    a plain file whose [.bak] location is a directory. *)
Lemma capture_restore_reinstate_counterexample :
  (exists w1 w2 w3,
     capture (py "render/fluid.wgsl")
       (world_of [(py "render/fluid.wgsl", File [97; CR; NL; 98])])
     = (Returned tt, w1) /\
     temporarily_restore_original (tracking (py "render/fluid.wgsl")) w1
     = (Returned (PStr [97; NL; 98]), w2) /\
     restore_optimized (tracking (py "render/fluid.wgsl")) (PStr [97; NL; 98]) w2
     = (Returned true, w3) /\
     node_at (files w3) (py "render/fluid.wgsl") = Some (File [97; NL; 98])) /\
  (exists w1 w2 w3,
     capture (py "render/fluid.wgsl")
       (world_of [(py "render/fluid.wgsl", File [255])])
     = (Returned tt, w1) /\
     temporarily_restore_original (tracking (py "render/fluid.wgsl")) w1
     = (Returned PFalse, w2) /\
     restore_optimized (tracking (py "render/fluid.wgsl")) PFalse w2
     = (Returned false, w3) /\
     node_at (files w3) (py "render/fluid.wgsl") = Some (File [])) /\
  (exists w1 w2 w3,
     capture (py "render/fluid.wgsl")
       (world_of [(py "render/fluid.wgsl", File (py "fn main() {}"));
                  (py "render/fluid.wgsl.bak", Dir)])
     = (Returned tt, w1) /\
     temporarily_restore_original (tracking (py "render/fluid.wgsl")) w1
     = (Returned PFalse, w2) /\
     restore_optimized (tracking (py "render/fluid.wgsl")) PFalse w2
     = (Returned false, w3) /\
     node_at (files w3) (py "render/fluid.wgsl") = Some (File [])).
Proof.
  split; [|split]; eexists _, _, _;
    (split; [vm_compute; reflexivity|]);
    (split; [vm_compute; reflexivity|]);
    (split; [vm_compute; reflexivity|]);
    vm_compute; reflexivity.
Qed.

(* ===================================================================== *)
(** * BenchmarkRunner *)
(* ===================================================================== *)

Lemma temporarily_restore_original_returns (g : globals) (w : world) :
  exists v w', temporarily_restore_original g w = (Returned v, w').
Proof.
  unfold temporarily_restore_original.
  destruct (negb _); [now eexists _, _|].
  unfold try_except, bind.
  destruct (read_text (path_of (OPTIMIZED_FILE g)) w) as [[opt|e] w1];
    [|now eexists _, _].
  destruct (read_text (path_of (ORIGINAL_FILE g)) w1) as [[orig|e] w2];
    [|now eexists _, _].
  destruct (write_text (path_of (OPTIMIZED_FILE g)) orig w2) as [[[]|e] w3];
    now eexists _, _.
Qed.

Lemma restore_optimized_returns (g : globals) (v : str_or_false) (w : world) :
  exists ok w', restore_optimized g v w = (Returned ok, w').
Proof.
  unfold restore_optimized.
  destruct (negb _); [now eexists _, _|].
  unfold try_except, bind. destruct v as [|s].
  - destruct (write_bytes (path_of (OPTIMIZED_FILE g)) [] w) as [[[]|e] w1];
      now eexists _, _.
  - destruct (write_text (path_of (OPTIMIZED_FILE g)) s w) as [[[]|e] w1];
      now eexists _, _.
Qed.

Section Sampling.

Local Open Scope Q_scope.

Variable normalvariate : nat -> result Q.

Lemma simulate_rendering_test_files (is_original : bool) (w w' : world)
    (r : result Q) :
  simulate_rendering_test normalvariate is_original w = (r, w') ->
  files w' = files w.
Proof.
  unfold simulate_rendering_test, bind, draw.
  destruct (normalvariate (draws w)); [|now intros [= _ <-]].
  destruct is_original; simpl; [now intros [= _ <-]|].
  destruct (normalvariate (S (draws w))); now intros [= _ <-].
Qed.

(** The sampling loops never touch the files; a loop that completes
    adds one sample per run. *)
Lemma run_tests_spec (is_original : bool) (line : N) (runs i : nat)
    (frame_times : list Q) (w w' : world) (r : result (list Q)) :
  run_tests normalvariate is_original line runs i frame_times w = (r, w') ->
  files w' = files w /\
  forall l, r = Returned l -> length l = (length frame_times + runs)%nat.
Proof.
  revert i frame_times w. induction runs as [|runs IH]; intros i acc w; simpl.
  - intros [= <- <-]. split; [reflexivity|]. intros l [= <-]. lia.
  - unfold bind at 1. rewrite print_run. unfold bind at 1.
    destruct (simulate_rendering_test normalvariate is_original _)
      as [[q|e] w1] eqn:Hs.
    + apply simulate_rendering_test_files in Hs. rewrite files_logged in Hs.
      unfold bind at 1. rewrite emit_run. intros Hrun.
      destruct (IH _ _ _ Hrun) as [Hf Hl]. rewrite files_logged in Hf.
      split; [congruence|]. intros l Hr. rewrite (Hl l Hr), length_app. simpl. lia.
    + apply simulate_rendering_test_files in Hs. rewrite files_logged in Hs.
      intros [= <- <-]. split; [exact Hs | discriminate].
Qed.

(** [measure_performance] always returns, and what it returns is either
    the pair of empty lists or the outcome of two completed loops. *)
Lemma measure_performance_cases (g : globals) (w : world) :
  exists times w',
    measure_performance normalvariate g w = (Returned times, w') /\
    (times = ([], []) \/
     exists wa wb wc wd,
       run_tests normalvariate true 123 NUM_TEST_RUNS 0 [] wa
       = (Returned (fst times), wb) /\
       run_tests normalvariate false 134 NUM_TEST_RUNS 0 [] wc
       = (Returned (snd times), wd)).
Proof.
  unfold measure_performance.
  destruct (temporarily_restore_original_returns g w) as (v & w1 & Htro).
  rewrite (bind_returned _ _ _ _ _ Htro).
  destruct (negb (truthy_sf v)); [eexists _, _; split; [reflexivity | now left]|].
  unfold try_except. unfold bind at 1. rewrite print_run.
  unfold bind at 1.
  destruct (run_tests normalvariate true 123 NUM_TEST_RUNS 0 [] _)
    as [[o|e] w2] eqn:Ho.
  - unfold bind at 1.
    destruct (restore_optimized_returns g v w2) as (ok & w3 & Hres). rewrite Hres.
    unfold bind at 1. rewrite print_run. unfold bind at 1.
    destruct (run_tests normalvariate false 134 NUM_TEST_RUNS 0 [] _)
      as [[p|e] w4] eqn:Hp.
    + unfold bind at 1. rewrite print_run, ret_run.
      eexists _, _. split; [reflexivity|]. right.
      eexists _, _, _, _. split; [exact Ho | exact Hp].
    + rewrite (bind_returned _ _ _ _ _ (print_run 143 [] _)).
      destruct (restore_optimized_returns g v (logged w4 [Print 143 []]))
        as (ok' & w5 & Hres').
      rewrite (bind_returned _ _ _ _ _ Hres'), ret_run.
      eexists _, _. split; [reflexivity | now left].
  - rewrite (bind_returned _ _ _ _ _ (print_run 143 [] _)).
    destruct (restore_optimized_returns g v (logged w2 [Print 143 []]))
      as (ok' & w5 & Hres').
    rewrite (bind_returned _ _ _ _ _ Hres'), ret_run.
    eexists _, _. split; [reflexivity | now left].
Qed.

End Sampling.

Section Invariant.

Local Open Scope Q_scope.

Variable normalvariate : nat -> result Q.
Variables (g : globals) (p b : pystr).
Hypothesis Hopt : OPTIMIZED_FILE g = Some p.
Hypothesis Horig : ORIGINAL_FILE g = Some b.

(** X17. With a backup and a non-empty optimized file that both hold
    UTF-8 text, every call returns with the text of the optimized file
    live again, whether the draws succeed or raise: the file holds the
    encoding of the text that was read from it, that is, its former
    bytes with the line ends [\r\n] and [\r] turned into [\n], and
    exactly its former bytes when the text has no carriage return. The
    call returns either two full sample sets or two empty ones. *)
Lemma measure_performance_restores (opt orig : bytes) (topt torig : pystr)
    (w : world) :
  node_at (files w) p = Some (File opt) -> utf8_decode opt = Some topt ->
  node_at (files w) b = Some (File orig) -> utf8_decode orig = Some torig ->
  opt <> [] ->
  exists times w' opt',
    measure_performance normalvariate g w = (Returned times, w') /\
    node_at (files w') p = Some (File opt') /\
    utf8_encode (universal_newlines topt) = Some opt' /\
    (~ In CR topt -> opt' = opt) /\
    (times = ([], []) \/
     (length (fst times) = NUM_TEST_RUNS /\ length (snd times) = NUM_TEST_RUNS)).
Proof.
  intros Hp Hdp Hb Hdb Hne.
  assert (Hp0 : p <> []) by exact (node_at_nonempty _ _ _ Hp).
  assert (Henc : utf8_encode topt = Some opt) by exact (utf8_encode_decode _ _ Hdp).
  destruct (universal_newlines_encodable topt opt Henc) as [opt' Hopt'].
  assert (Hsame : ~ In CR topt -> opt' = opt).
  { intros Hcr. rewrite (universal_newlines_id topt Hcr) in Hopt'. congruence. }
  assert (Htext : universal_newlines topt <> [])
    by exact (universal_newlines_nonempty _ (utf8_decode_nonempty _ _ Hdp Hne)).
  destruct (temporarily_restore_original_run g p b Hopt Horig opt orig topt torig
              w Hp Hdp Hb Hdb) as (orig' & _ & Hswap).
  unfold measure_performance.
  rewrite (bind_returned _ _ _ _ _ Hswap).
  cbn [truthy_sf]. rewrite (truthy_nonempty _ Htext). cbn [negb].
  unfold try_except. unfold bind at 1. rewrite print_run. unfold bind at 1.
  destruct (run_tests normalvariate true 123 NUM_TEST_RUNS 0 [] _)
    as [[o|e] w2] eqn:Ho;
    destruct (run_tests_spec _ _ _ _ _ _ _ _ _ Ho) as [Hf2 Hl2];
    rewrite files_logged, files_set_files in Hf2;
    assert (Hlive2 : node_at (files w2) p = Some (File orig'))
      by (rewrite Hf2; now apply node_at_insert_eq).
  - unfold bind at 1.
    rewrite (restore_optimized_run g p Hopt _ opt' orig' w2 Hlive2 Hopt').
    unfold bind at 1. rewrite print_run. unfold bind at 1.
    destruct (run_tests normalvariate false 134 NUM_TEST_RUNS 0 [] _)
      as [[s|e] w4] eqn:Hs;
      destruct (run_tests_spec _ _ _ _ _ _ _ _ _ Hs) as [Hf4 Hl4];
      rewrite files_logged, files_set_files in Hf4;
      assert (Hlive4 : node_at (files w4) p = Some (File opt'))
        by (rewrite Hf4; now apply node_at_insert_eq).
    + unfold bind at 1. rewrite print_run, ret_run.
      eexists _, _, opt'. split; [reflexivity|]. split; [exact Hlive4|].
      split; [exact Hopt'|]. split; [exact Hsame|]. right.
      split; [exact (Hl2 _ eq_refl) | exact (Hl4 _ eq_refl)].
    + rewrite (bind_returned _ _ _ _ _ (print_run 143 [] _)).
      rewrite (bind_returned _ _ _ _ _
                 (restore_optimized_run g p Hopt _ opt' opt' (logged w4 _)
                    Hlive4 Hopt')).
      rewrite ret_run. eexists _, _, opt'. split; [reflexivity|].
      split; [now apply node_at_insert_eq|].
      split; [exact Hopt'|]. split; [exact Hsame | now left].
  - rewrite (bind_returned _ _ _ _ _ (print_run 143 [] _)).
    rewrite (bind_returned _ _ _ _ _
               (restore_optimized_run g p Hopt _ opt' orig' (logged w2 _)
                  Hlive2 Hopt')).
    rewrite ret_run. eexists _, _, opt'. split; [reflexivity|].
    split; [now apply node_at_insert_eq|].
    split; [exact Hopt'|]. split; [exact Hsame | now left].
Qed.

End Invariant.

(** C1, at the input where the code breaks it. The optimized file is
    empty and its backup is not: [temporarily_restore_original] has
    already written the backup over the live file when it hands back
    the empty string, which [measure_performance] takes for the failure
    value and returns on without reinstating anything. The call
    returns two empty lists and leaves the live file holding the
    original content. *)
Theorem measure_performance_empty_optimized (normalvariate : nat -> result Q) :
  exists w',
    measure_performance normalvariate (tracking (py "render/fluid.wgsl"))
      (world_of [(py "render/fluid.wgsl", File []);
                 (py "render/fluid.wgsl.bak", File (py "fn main() {}"))])
    = (Returned ([], []), w') /\
    node_at (files w') (py "render/fluid.wgsl") = Some (File (py "fn main() {}")) /\
    node_at (files w') (py "render/fluid.wgsl") <> Some (File []).
Proof.
  eexists. split; [vm_compute; reflexivity|].
  split; [vm_compute; reflexivity | vm_compute; discriminate].
Qed.

(* ===================================================================== *)
(** * Commands that leave the files alone, and what commands return *)
(* ===================================================================== *)

Section CommandRules.

Context {A B : Type}.

Lemma keeps_ret (a : A) : keeps_files (ret a).
Proof. intros w. reflexivity. Qed.

Lemma keeps_raise (e : exn) : keeps_files (@raise A e).
Proof. intros w. reflexivity. Qed.

Lemma keeps_lift (r : result A) : keeps_files (lift r).
Proof. intros w. reflexivity. Qed.

Lemma keeps_bind (m : M A) (k : A -> M B) :
  keeps_files m -> (forall a, keeps_files (k a)) -> keeps_files (bind m k).
Proof.
  intros Hm Hk w. unfold bind. specialize (Hm w).
  destruct (m w) as [[a|e] w1]; simpl in *; [|exact Hm].
  now rewrite Hk.
Qed.

Lemma keeps_try_except (body : M A) (handler : exn -> M A) :
  keeps_files body -> (forall e, keeps_files (handler e)) ->
  keeps_files (try_except body handler).
Proof.
  intros Hm Hk w. unfold try_except. specialize (Hm w).
  destruct (body w) as [[a|e] w1]; simpl in *; [exact Hm|].
  now rewrite Hk.
Qed.

Lemma keeps_try_except_only (cls : exn -> bool) (body : M A)
    (handler : exn -> M A) :
  keeps_files body -> (forall e, keeps_files (handler e)) ->
  keeps_files (try_except_only cls body handler).
Proof.
  intros Hm Hk. apply keeps_try_except; [exact Hm|].
  intros e. destruct (cls e); [apply Hk | apply keeps_raise].
Qed.

Lemma returns_ret (P : A -> Prop) (a : A) : P a -> returns_only P (ret a).
Proof. intros H w a' w' [= <- _]. exact H. Qed.

Lemma returns_raise (P : A -> Prop) (e : exn) : returns_only P (raise e).
Proof. intros w a w' [=]. Qed.

Lemma returns_bind (P : B -> Prop) (m : M A) (k : A -> M B) :
  (forall a, returns_only P (k a)) -> returns_only P (bind m k).
Proof.
  intros Hk w b w'. unfold bind.
  destruct (m w) as [[a|e] w1]; [apply Hk | discriminate].
Qed.

(** The same, knowing what the first command returns. *)
Lemma returns_bind_with (Q : A -> Prop) (P : B -> Prop) (m : M A)
    (k : A -> M B) :
  returns_only Q m -> (forall a, Q a -> returns_only P (k a)) ->
  returns_only P (bind m k).
Proof.
  intros Hm Hk w b w'. unfold bind.
  destruct (m w) as [[a|e] w1] eqn:E; [|discriminate].
  apply Hk. exact (Hm _ _ _ E).
Qed.

Lemma returns_try_except (P : A -> Prop) (body : M A) (handler : exn -> M A) :
  returns_only P body -> (forall e, returns_only P (handler e)) ->
  returns_only P (try_except body handler).
Proof.
  intros Hm Hk w a w'. unfold try_except.
  destruct (body w) as [[a0|e] w1] eqn:E.
  - intros [= <- _]. exact (Hm _ _ _ E).
  - apply Hk.
Qed.

Lemma returns_try_except_only (P : A -> Prop) (cls : exn -> bool)
    (body : M A) (handler : exn -> M A) :
  returns_only P body -> (forall e, returns_only P (handler e)) ->
  returns_only P (try_except_only cls body handler).
Proof.
  intros Hm Hk. apply returns_try_except; [exact Hm|].
  intros e. destruct (cls e); [apply Hk | apply returns_raise].
Qed.

End CommandRules.

Lemma keeps_emit (e : event) : keeps_files (emit e).
Proof. intros w. reflexivity. Qed.

Lemma keeps_print (line : N) (args : list arg) : keeps_files (print line args).
Proof. intros w. reflexivity. Qed.

Lemma keeps_print_err (line : N) (args : list arg) :
  keeps_files (print_err line args).
Proof. intros w. reflexivity. Qed.

Lemma keeps_isfile (p : pystr) : keeps_files (isfile p).
Proof. intros w. reflexivity. Qed.

Lemma keeps_path_exists (p : pystr) : keeps_files (path_exists p).
Proof. intros w. reflexivity. Qed.

Lemma keeps_read_bytes (p : pystr) : keeps_files (read_bytes p).
Proof. intros w. unfold read_bytes. now destruct (node_at (files w) p) as [[|]|]. Qed.

(** Breaks a command into its steps, for the two rule sets above. *)
Ltac keeps_steps :=
  repeat first
    [ apply keeps_ret | apply keeps_raise | apply keeps_lift
    | apply keeps_emit | apply keeps_print | apply keeps_print_err
    | apply keeps_isfile | apply keeps_path_exists | apply keeps_read_bytes
    | apply keeps_bind; [|intros ?]
    | apply keeps_try_except_only; [|intros ?]
    | apply keeps_try_except; [|intros ?]
    | match goal with
      | |- keeps_files (if ?b then _ else _) => destruct b
      | |- keeps_files (match ?x with _ => _ end) => destruct x
      end ].

Section IdentifyInvariants.

Variable b64encode : bytes -> pystr.
Variable tree_run : option (Z * pystr).
Variable requests_post : request -> result response.
Variable unicode_isalnum : N -> bool.

Lemma keeps_post (r : request) : keeps_files (post requests_post r).
Proof. intros w. unfold post, bind. simpl. now destruct (requests_post r). Qed.

Lemma keeps_first_existing (candidates : list pystr) :
  keeps_files (first_existing candidates).
Proof. induction candidates as [|c cs IH]; simpl; keeps_steps. exact IH. Qed.

Lemma keeps_debug_sample (line : N) (v : json) : keeps_files (debug_sample line v).
Proof. unfold debug_sample. keeps_steps. Qed.

Lemma keeps_identify :
  keeps_files (identify_critical_file b64encode tree_run requests_post).
Proof.
  unfold identify_critical_file, get_directory_structure, encode_file,
    response_json, get_response.
  keeps_steps; try apply keeps_post; try apply keeps_first_existing;
    try apply keeps_debug_sample.
Qed.

(** The fallback loop only returns candidates. *)
Lemma returns_first_existing (candidates : list pystr) :
  returns_only (fun found => forall f, found = Some f -> In f candidates)
    (first_existing candidates).
Proof.
  induction candidates as [|c cs IH]; simpl.
  - apply returns_ret. discriminate.
  - apply returns_bind. intros [|].
    + apply returns_bind. intros _. apply returns_ret. intros f [= <-]. now left.
    + intros w a w' H f Hf. right. exact (IH _ _ _ H f Hf).
Qed.

Lemma rendering_files_nonempty (f : pystr) : In f RENDERING_FILES -> f <> [].
Proof.
  intros H. repeat (destruct H as [<-|H]; [discriminate|]). destruct H.
Qed.

Lemma search_path_nonempty (s m : pystr) : search_path s = Some m -> m <> [].
Proof.
  intros H. apply path_shaped_nonempty. exact (proj1 (search_path_sound _ _ H)).
Qed.

Lemma returns_identify :
  returns_only (fun r => exists p, r = Some p /\ p <> [])
    (identify_critical_file b64encode tree_run requests_post).
Proof.
  assert (Hfallback : exists p, Some (rendering_file 0) = Some p /\ p <> [])
    by (eexists; split; [reflexivity | discriminate]).
  unfold identify_critical_file.
  apply returns_bind; intros tree_output.
  apply returns_bind; intros compressed_content.
  apply returns_bind; intros uncompressed_content.
  destruct (negb (truthy compressed_content) && negb (truthy uncompressed_content)).
  - apply returns_bind; intros _.
    eapply returns_bind_with; [apply returns_first_existing|].
    intros [f|] Hf.
    + apply returns_ret. exists f. split; [reflexivity|].
      apply rendering_files_nonempty. now apply Hf.
    + apply returns_bind; intros _. now apply returns_ret.
  - apply returns_bind; intros _.
    apply returns_bind; intros response.
    destruct (status_code response =? 200)%Z.
    + apply returns_try_except_only.
      * apply returns_bind; intros data.
        apply returns_bind; intros raw_json.
        apply returns_bind; intros raw_result.
        apply returns_bind; intros _.
        destruct (search_path (cleaned_result raw_result)) as [m|] eqn:Hs.
        -- apply returns_bind; intros _. apply returns_ret.
           exists m. split; [reflexivity | exact (search_path_nonempty _ _ Hs)].
        -- apply returns_bind; intros _. now apply returns_ret.
      * intros e. repeat (apply returns_bind; intros _). now apply returns_ret.
    + repeat (apply returns_bind; intros _). now apply returns_ret.
Qed.

(** X1. [identify_critical_file] only reads: whatever the collaborators
    do, and whether it returns or raises, it leaves every file as it
    was; and whatever it returns is a non-empty path, never [None]. *)
Theorem identify_reads_only (w : world) :
  files (snd (identify_critical_file b64encode tree_run requests_post w))
  = files w /\
  forall r w',
    identify_critical_file b64encode tree_run requests_post w = (Returned r, w') ->
    exists p, r = Some p /\ p <> [].
Proof.
  split; [apply keeps_identify|]. intros r w' H. exact (returns_identify _ _ _ H).
Qed.

(** X2. [main] of the optimizer never takes its error exit: the branch
    that prints the error and calls [sys.exit(1)] needs an empty or
    absent path, which [identify_critical_file] never returns. *)
Theorem main_never_exits (w : world) (w' : world) :
  OllamaApi.main b64encode tree_run requests_post unicode_isalnum w
  <> (Returned Exit1, w').
Proof.
  unfold OllamaApi.main. unfold bind at 1. rewrite print_run.
  unfold bind at 1. rewrite print_run. unfold bind at 1.
  destruct (identify_critical_file b64encode tree_run requests_post _)
    as [[r|e] w1] eqn:Hid; [|discriminate].
  destruct (returns_identify _ _ _ Hid) as (p & -> & Hp).
  destruct p as [|c p]; [congruence|].
  unfold bind at 1. rewrite print_run. unfold bind at 1. rewrite print_run.
  unfold bind at 1.
  destruct (optimize_file_for_m1 requests_post unicode_isalnum (c :: p) _)
    as [[[|]|e] w2]; [| |discriminate].
  - repeat (unfold bind at 1; rewrite print_run). discriminate.
  - unfold bind at 1. rewrite print_run. discriminate.
Qed.

End IdentifyInvariants.

(* ===================================================================== *)
(** * identify_critical_file with its context files *)
(* ===================================================================== *)

Lemma requests_app (xs ys : list event) :
  requests (xs ++ ys) = requests xs ++ requests ys.
Proof.
  induction xs as [|x xs IH]; simpl; [reflexivity|].
  destruct x; simpl; now rewrite ?IH.
Qed.

Lemma bind_bind {A B C} (m : M A) (k1 : A -> M B) (k2 : B -> M C) (w : world) :
  bind (bind m k1) k2 w = bind m (fun a => bind (k1 a) k2) w.
Proof. unfold bind. now destruct (m w) as [[a|e] w1]. Qed.

Lemma bind_print {A} (line : N) (args : list arg) (k : unit -> M A) (w : world) :
  bind (print line args) k w = k tt (logged w [Print line args]).
Proof. reflexivity. Qed.

Lemma bind_ret {A B} (a : A) (k : A -> M B) (w : world) :
  bind (ret a) k w = k a w.
Proof. reflexivity. Qed.

(** Runs the prints and returns at the head of a command. *)
Ltac run_prints :=
  repeat (rewrite bind_bind || rewrite bind_print || rewrite bind_ret
          || rewrite logged_logged);
  cbv beta.

Section IdentifyRequest.

Variable b64encode : bytes -> pystr.
Variable tree_run : option (Z * pystr).
Variable requests_post : request -> result response.

(** The warning [encode_file] prints for a path, if any. *)
Lemma encode_file_run (p : pystr) (w : world) :
  exists evs,
    encode_file b64encode p w
    = (Returned (encoded b64encode (files w) p), logged w evs) /\
    requests evs = [].
Proof.
  unfold encode_file, encoded.
  rewrite (bind_returned _ _ _ _ _ (isfile_run p w)).
  destruct (node_at (files w) p) as [[c|]|] eqn:E.
  - rewrite (bind_returned _ _ _ _ _ (read_bytes_file p c w E)).
    exists []. now rewrite logged_nil.
  - rewrite (bind_returned _ _ _ _ _ (print_err_run 29 _ w)). now eexists.
  - rewrite (bind_returned _ _ _ _ _ (print_err_run 29 _ w)). now eexists.
Qed.

Lemma context_present_branch (fs : gmap pystr node) :
  context_present b64encode fs ->
  negb (truthy (encoded b64encode fs COMPRESSED_FILE))
  && negb (truthy (encoded b64encode fs UNCOMPRESSED_FILE)) = false.
Proof.
  intros [H|H].
  - now rewrite (truthy_nonempty _ H).
  - rewrite (truthy_nonempty _ H). apply andb_false_r.
Qed.

(** Runs [identify_critical_file] up to the answer of the service. *)
Ltac to_the_answer w Hctx Hans :=
  unfold identify_critical_file;
  let out := fresh "out" in
  let Htree := fresh "Htree" in
  destruct (get_directory_structure_run tree_run w) as [out Htree];
  rewrite (bind_returned _ _ _ _ _ Htree);
  let e1 := fresh "evs" in
  let H1 := fresh "Henc" in
  let R1 := fresh "Hreq" in
  destruct (encode_file_run COMPRESSED_FILE (logged w [RunTree]))
    as (e1 & H1 & R1);
  rewrite (bind_returned _ _ _ _ _ H1), logged_logged;
  let e2 := fresh "evs" in
  let H2 := fresh "Henc" in
  let R2 := fresh "Hreq" in
  destruct (encode_file_run UNCOMPRESSED_FILE (logged w ([RunTree] ++ e1)))
    as (e2 & H2 & R2);
  rewrite (bind_returned _ _ _ _ _ H2), logged_logged;
  rewrite !files_logged, (context_present_branch _ Hctx);
  rewrite (bind_returned _ _ _ _ _ (print_run 140 [] _)), logged_logged;
  rewrite (bind_returned _ _ _ _ _ (post_run requests_post _ _ _ (Hans _))),
    logged_logged.

(** Closes the count of the requests once the events are known. *)
Ltac one_request :=
  rewrite ?requests_app;
  repeat match goal with H : requests _ = [] |- _ => rewrite H end;
  reflexivity.

(** X3. With at least one context file on disk, a service that answers
    with a status other than 200, or with a body that does not decode
    as JSON, makes [identify_critical_file] return the first fallback
    file, after exactly one request and without touching a file. *)
Theorem identify_service_failure (w : world) (resp : response) :
  context_present b64encode (files w) ->
  answers requests_post resp ->
  failed_response resp ->
  exists evs,
    identify_critical_file b64encode tree_run requests_post w
    = (Returned (Some (rendering_file 0)), logged w evs) /\
    length (requests evs) = 1%nat.
Proof.
  intros Hctx Hans Hfail. to_the_answer w Hctx Hans.
  destruct (status_code resp =? 200)%Z eqn:Hstatus.
  - destruct Hfail as [Hcode | Hbody]; [apply Z.eqb_eq in Hstatus; contradiction|].
    unfold try_except_only, try_except, response_json. rewrite Hbody.
    rewrite (bind_raised _ _ _ _ _ (eq_refl : raise JSONDecodeError _ = _)).
    cbn [is_json_decode_error].
    rewrite (bind_returned _ _ _ _ _ (print_run 200 _ _)), logged_logged.
    rewrite (bind_returned _ _ _ _ _ (print_run 201 _ _)), logged_logged.
    rewrite ret_run. eexists. split; [reflexivity | one_request].
  - rewrite (bind_returned _ _ _ _ _ (print_run 203 _ _)), logged_logged.
    rewrite (bind_returned _ _ _ _ _ (print_run 204 _ _)), logged_logged.
    rewrite ret_run. eexists. split; [reflexivity | one_request].
Qed.


End IdentifyRequest.

(** X3 at a concrete world: the compressed listing is on disk and the
    service answers 500. *)
Lemma identify_service_failure_witness :
  exists evs,
    identify_critical_file (fun s => s) None
      (fun _ => Returned {| status_code := 500; json_body := None; text := [] |})
      (world_of [(COMPRESSED_FILE, File (py "src/main.ts"))])
    = (Returned (Some (py "render/fluid.wgsl")),
       logged (world_of [(COMPRESSED_FILE, File (py "src/main.ts"))]) evs) /\
    length (requests evs) = 1%nat.
Proof.
  apply identify_service_failure
    with (resp := {| status_code := 500; json_body := None; text := [] |}).
  - left. vm_compute. discriminate.
  - intros r. reflexivity.
  - left. discriminate.
Defined.


(* ===================================================================== *)
(** * More on the extracted path *)
(* ===================================================================== *)

Lemma path_shaped_chars (m : pystr) :
  path_shaped m -> Forall (fun c => is_path_char c = true) m /\ In DOT m.
Proof.
  intros (a & b & -> & _ & Ha & _ & Hb). split.
  - apply Forall_app. split; [exact Ha|]. constructor; [reflexivity|].
    induction Hb as [|c b Hc _ IH]; constructor; [|exact IH].
    now apply alnum_is_path_char.
  - apply in_or_app. right. now left.
Qed.

(** X5. Whatever the raw answer, the extracted path is made of letters,
    digits, [_], [/], [.] and [-] only, and contains a dot. *)
Theorem extract_path_characters (raw : pystr) :
  Forall (fun c => is_path_char c = true) (extract raw) /\ In DOT (extract raw).
Proof.
  destruct (extract_cases raw) as [-> | [Hshape _]].
  - split; [repeat constructor | vm_compute; tauto].
  - now apply path_shaped_chars.
Qed.

(** ** A path wrapped in other text *)

Section Core.

Variable p : N -> bool.

(** Stripping on the left stops at the first character it must keep. *)
Lemma lstrip_by_core (P : N -> Prop) (pre rest : pystr) (x : N) :
  p x = false -> Forall P pre ->
  exists pre', lstrip_by p (pre ++ x :: rest) = pre' ++ x :: rest /\ Forall P pre'.
Proof.
  intros Hx. induction 1 as [|c pre Hc Hpre IH]; simpl.
  - rewrite Hx. exists []. split; [reflexivity | constructor].
  - destruct (p c).
    + exact IH.
    + exists (c :: pre). split; [reflexivity | now constructor].
Qed.

Lemma rstrip_by_core (P : N -> Prop) (front post : pystr) (y : N) :
  p y = false -> Forall P post ->
  exists post',
    rstrip_by p (front ++ y :: post) = front ++ y :: post' /\ Forall P post'.
Proof.
  intros Hy Hpost. unfold rstrip_by.
  assert (Hrev : Forall P (rev post)) by (apply Forall_rev; exact Hpost).
  replace (rev (front ++ y :: post)) with (rev post ++ y :: rev front)
    by (rewrite rev_app_distr; simpl; now rewrite <- app_assoc).
  destruct (lstrip_by_core P (rev post) (rev front) y Hy Hrev) as (q & -> & Hq).
  exists (rev q). split.
  - rewrite rev_app_distr. simpl. rewrite rev_involutive, <- app_assoc. reflexivity.
  - apply Forall_rev. exact Hq.
Qed.

(** Stripping both ends keeps a core that starts and ends with
    characters it must keep. *)
Lemma strip_by_core (P : N -> Prop) (pre mid post : pystr) (x y : N) :
  p x = false -> p y = false -> Forall P pre -> Forall P post ->
  exists pre' post',
    strip_by p (pre ++ (x :: mid ++ [y]) ++ post)
    = pre' ++ (x :: mid ++ [y]) ++ post' /\
    Forall P pre' /\ Forall P post'.
Proof.
  intros Hx Hy Hpre Hpost. unfold strip_by.
  replace (pre ++ (x :: mid ++ [y]) ++ post)
    with (pre ++ x :: (mid ++ y :: post))
    by (simpl; now rewrite <- app_assoc).
  destruct (lstrip_by_core P pre (mid ++ y :: post) x Hx Hpre) as (pre' & -> & Hpre').
  replace (pre' ++ x :: mid ++ y :: post) with ((pre' ++ x :: mid) ++ y :: post)
    by (now rewrite <- app_assoc).
  destruct (rstrip_by_core P (pre' ++ x :: mid) post y Hy Hpost)
    as (post' & -> & Hpost').
  exists pre', post'. split; [|now split].
  rewrite <- app_assoc. simpl. now rewrite <- app_assoc.
Qed.

End Core.

Lemma path_char_not_stripped (c : N) :
  is_path_char c = true -> c <> DOT ->
  isspace c = false /\ existsb (N.eqb c) TRIM_CHARS = false /\ c <> LT /\ c <> NL.
Proof.
  unfold is_path_char, is_alnum, isspace, in_range, TRIM_CHARS, DQUOTE, SLASH,
    DOT, LT, NL.
  rewrite !orb_true_iff, !andb_true_iff, !N.leb_le, !N.eqb_eq.
  intros Hc Hdot. repeat split; try lia;
    apply not_true_is_false; simpl;
    rewrite !orb_true_iff, ?andb_true_iff, ?N.leb_le, !N.eqb_eq; lia.
Qed.

Lemma alnum_not_dot (c : N) : is_alnum c = true -> c <> DOT.
Proof.
  unfold is_alnum, in_range, DOT.
  rewrite !orb_true_iff, !andb_true_iff, !N.leb_le. lia.
Qed.

Lemma split_on_none (sep : N) (s : pystr) :
  Forall (fun c => c <> sep) s -> split_on sep s = [s].
Proof.
  induction 1 as [|c s Hc _ IH]; simpl; [reflexivity|].
  destruct (c =? sep) eqn:E; [apply N.eqb_eq in E; contradiction|].
  now rewrite IH.
Qed.

Lemma take_alnum_all (b post : pystr) :
  Forall (fun c => is_alnum c = true) b -> stops post ->
  take_alnum (b ++ post) = b.
Proof.
  intros Hb Hpost. induction Hb as [|c b Hc _ IH]; simpl.
  - destruct post as [|d post]; [reflexivity|]. simpl in Hpost. simpl.
    destruct (is_alnum d) eqn:Hd; [|reflexivity].
    apply alnum_is_path_char in Hd. congruence.
  - now rewrite Hc, IH.
Qed.

Lemma match_ext_not_dot (s : pystr) :
  match s with [] => True | c :: _ => c <> DOT end -> match_ext s = None.
Proof.
  destruct s as [|c s]; [reflexivity|]. intros Hc. simpl.
  destruct (c =? DOT) eqn:E; [apply N.eqb_eq in E; contradiction | reflexivity].
Qed.

(** Letters and digits alone, up to a stop, match nothing. *)
Lemma match_path_alnum (b post : pystr) :
  Forall (fun c => is_alnum c = true) b -> stops post ->
  match_path (b ++ post) = None.
Proof.
  intros Hb Hpost. induction Hb as [|c b Hc Hb IH].
  - destruct post as [|d post]; [reflexivity|]. simpl in Hpost.
    simpl app. rewrite match_path_cons. now rewrite Hpost.
  - simpl app. rewrite match_path_cons, IH.
    rewrite match_ext_not_dot; [now destruct (is_path_char c)|].
    destruct Hb as [|d b Hd _]; simpl.
    + destruct post as [|e post]; [exact I|]. simpl in Hpost.
      intros ->. discriminate Hpost.
    + now apply alnum_not_dot.
Qed.

(** A path followed by a stop is matched whole. *)
Lemma match_path_exact (m post : pystr) :
  path_shaped m -> stops post -> match_path (m ++ post) = Some m.
Proof.
  intros (a & b & -> & Ha & Hpa & Hb & Hab) Hpost.
  rewrite <- app_assoc. simpl app.
  induction Hpa as [|c a Hc Hpa IH]; [congruence|].
  simpl app. rewrite match_path_cons, Hc.
  destruct a as [|d a].
  - simpl app. rewrite match_path_cons.
    replace (is_path_char DOT) with true by reflexivity.
    rewrite (match_path_alnum b post Hab Hpost).
    rewrite match_ext_not_dot.
    + destruct b as [|e b]; [congruence|].
      inversion Hab as [|? ? He Hb']; subst.
      simpl. rewrite He, (take_alnum_all b post Hb' Hpost). reflexivity.
    + destruct b as [|e b]; [congruence|].
      inversion Hab as [|? ? He _]; subst. simpl. now apply alnum_not_dot.
  - rewrite IH; [reflexivity | discriminate].
Qed.

Lemma search_path_skip (pre s : pystr) :
  Forall (fun c => is_path_char c = false) pre ->
  search_path (pre ++ s) = search_path s.
Proof.
  induction 1 as [|c pre Hc _ IH]; [reflexivity|].
  simpl app. rewrite search_path_cons, match_path_cons, Hc. exact IH.
Qed.

Lemma wrapping_stops (post : pystr) : wrapping post -> stops post.
Proof. intros H. destruct H as [|c post [Hc _] _]; [exact I | exact Hc]. Qed.

Lemma wrapping_no_path (s : pystr) :
  wrapping s -> Forall (fun c => is_path_char c = false) s.
Proof. induction 1 as [|c s [Hc _] _ IH]; constructor; assumption. Qed.

(** A path starts with a path character and ends with a letter or digit. *)
Lemma path_shaped_ends (m : pystr) :
  path_shaped m ->
  exists x mid y, m = x :: mid ++ [y] /\ is_path_char x = true /\ is_alnum y = true.
Proof.
  intros (a & b & -> & Ha & Hpa & Hb & Hab).
  destruct a as [|x a]; [congruence|]. inversion Hpa as [|? ? Hx _]; subst.
  destruct (exists_last Hb) as (b' & y & ->).
  exists x, (a ++ DOT :: b'), y. split.
  - simpl. rewrite <- app_assoc. reflexivity.
  - split; [exact Hx|].
    apply Forall_app in Hab. destruct Hab as [_ Hy]. now inversion Hy.
Qed.

(** X6. A path answer wrapped in quotes, spaces or any other text free
    of path characters, of ['<'] and of newlines comes out as it is,
    provided it does not start with a dot (a leading dot is trimmed
    away with the punctuation). *)
Theorem extract_wrapped_path (pre m post : pystr) :
  path_shaped m -> hd_error m <> Some DOT -> wrapping pre -> wrapping post ->
  extract (pre ++ m ++ post) = m.
Proof.
  intros Hshape Hhead Hpre Hpost.
  destruct (path_shaped_ends m Hshape) as (x & mid & y & Hm & Hx & Hy).
  assert (Hxdot : x <> DOT) by (intros ->; apply Hhead; now rewrite Hm).
  destruct (path_char_not_stripped x Hx Hxdot) as (Hxs & Hxt & _ & _).
  destruct (path_char_not_stripped y (alnum_is_path_char y Hy) (alnum_not_dot y Hy))
    as (Hys & Hyt & _ & _).
  assert (Hchars : Forall (fun c => c <> LT /\ c <> NL) (pre ++ m ++ post)).
  { repeat (apply Forall_app; split).
    - induction Hpre as [|c s (_ & H1 & H2) _ IH]; constructor; auto.
    - destruct (path_shaped_chars m Hshape) as [Hall _].
      clear -Hall. induction Hall as [|c s Hc _ IH]; constructor; [|exact IH].
      split; intros ->; discriminate Hc.
    - induction Hpost as [|c s (_ & H1 & H2) _ IH]; constructor; auto. }
  assert (Hclean : clean_result (pre ++ m ++ post) = pre ++ m ++ post).
  { unfold clean_result.
    rewrite <- (app_nil_r (pre ++ m ++ post)) at 1.
    rewrite sub_tags_keep; [apply app_nil_r|].
    clear -Hchars. induction Hchars as [|c s [H _] _ IH]; constructor; auto. }
  assert (Hsplit : split_on NL (pre ++ m ++ post) = [pre ++ m ++ post]).
  { apply split_on_none.
    clear -Hchars. induction Hchars as [|c s [_ H] _ IH]; constructor; auto. }
  unfold extract, cleaned_result, first_line. rewrite Hclean, Hsplit, Hm.
  destruct (strip_by_core isspace _ pre mid post x y Hxs Hys Hpre Hpost)
    as (pre1 & post1 & E1 & Hpre1 & Hpost1).
  destruct (strip_by_core isspace _ pre1 mid post1 x y Hxs Hys Hpre1 Hpost1)
    as (pre2 & post2 & E2 & Hpre2 & Hpost2).
  destruct (strip_by_core (fun c => existsb (N.eqb c) TRIM_CHARS) _
              pre2 mid post2 x y Hxt Hyt Hpre2 Hpost2)
    as (pre3 & post3 & E3 & Hpre3 & Hpost3).
  change (strip_by isspace) with strip in E1, E2.
  change (strip_by (fun c => existsb (N.eqb c) TRIM_CHARS))
    with (strip_chars TRIM_CHARS) in E3.
  cbn [List.filter]. rewrite E1.
  replace (truthy (pre1 ++ (x :: mid ++ [y]) ++ post1)) with true
    by (now destruct pre1).
  cbn [List.map]. rewrite E1, E2, E3.
  rewrite (search_path_skip pre3 _ (wrapping_no_path pre3 Hpre3)).
  rewrite <- Hm.
  destruct m as [|c m']; [discriminate Hm|].
  change ((c :: m') ++ post3) with (c :: (m' ++ post3)).
  rewrite search_path_cons.
  change (c :: (m' ++ post3)) with ((c :: m') ++ post3).
  now rewrite (match_path_exact (c :: m') post3 Hshape (wrapping_stops post3 Hpost3)).
Qed.

(** X6 at a concrete answer: the path in double quotes with a space in
    front. *)
Lemma extract_wrapped_path_witness :
  extract ([32; DQUOTE] ++ py "src/render/fluid.wgsl" ++ [DQUOTE])
  = py "src/render/fluid.wgsl".
Proof.
  apply extract_wrapped_path.
  - exists (py "src/render/fluid"), (py "wgsl").
    repeat split; try discriminate; repeat constructor.
  - discriminate.
  - repeat constructor; discriminate.
  - repeat constructor; discriminate.
Defined.

(** X7. Only the first line counts: when the answer starts with a line
    that is not blank and holds no ['<'], the extracted path is the one
    that line alone yields, whatever follows it. *)
Theorem extract_first_line_only (l rest : pystr) :
  Forall (fun c => c <> LT /\ c <> NL) l -> strip l <> [] ->
  extract (l ++ NL :: rest) = extract l.
Proof.
  intros Hl Hstrip.
  assert (Hlt : Forall (fun c => c <> LT) l)
    by (clear -Hl; induction Hl as [|c s [H _] _ IH]; constructor; auto).
  assert (Hnl : Forall (fun c => c <> NL) l)
    by (clear -Hl; induction Hl as [|c s [_ H] _ IH]; constructor; auto).
  assert (Hone : cleaned_result l = strip_chars TRIM_CHARS (strip (strip l))).
  { unfold cleaned_result, clean_result, first_line.
    rewrite <- (app_nil_r l) at 1. rewrite (sub_tags_keep l [] Hlt), app_nil_r.
    rewrite (split_on_none NL l Hnl). cbn [List.filter].
    now rewrite (truthy_nonempty _ Hstrip). }
  assert (Hall : cleaned_result (l ++ NL :: rest)
                 = strip_chars TRIM_CHARS (strip (strip l))).
  { unfold cleaned_result, clean_result, first_line.
    rewrite (sub_tags_keep l _ Hlt).
    change (sub_tags false (NL :: rest)) with (NL :: sub_tags false rest).
    rewrite split_on_app, List.filter_app, (split_on_none NL l Hnl).
    cbn [List.filter]. now rewrite (truthy_nonempty _ Hstrip). }
  unfold extract. now rewrite Hone, Hall.
Qed.

(** X7 at a concrete answer: a path on the first line, another below. *)
Lemma extract_first_line_only_witness :
  extract (py "render/a.ts" ++ NL :: py "render/b.ts") = extract (py "render/a.ts").
Proof.
  apply extract_first_line_only.
  - repeat constructor; discriminate.
  - discriminate.
Defined.

(** ** What the tag removal leaves *)

Lemma sub_tags_gt (inside : bool) (s : pystr) :
  existsb (N.eqb GT) (sub_tags inside s) = true -> existsb (N.eqb GT) s = true.
Proof.
  revert inside. induction s as [|c s IH]; intros inside;
    cbn [sub_tags existsb]; [trivial|].
  destruct inside.
  - destruct (c =? GT) eqn:E.
    + intros _. apply N.eqb_eq in E. subst c. reflexivity.
    + intros H. rewrite (IH _ H). apply orb_true_r.
  - destruct ((c =? LT) && tag_opens s).
    + intros H. rewrite (IH _ H). apply orb_true_r.
    + cbn [existsb]. destruct (GT =? c); [reflexivity|]. cbn [orb]. apply IH.
Qed.

Lemma sub_tags_no_gt (inside : bool) (s : pystr) :
  existsb (N.eqb GT) s = false -> existsb (N.eqb GT) (sub_tags inside s) = false.
Proof.
  intros H. apply not_true_is_false. intros Hout.
  apply sub_tags_gt in Hout. congruence.
Qed.

Lemma tag_opens_no_gt (s : pystr) :
  existsb (N.eqb GT) s = false -> tag_opens s = false.
Proof.
  destruct s as [|x out]; [reflexivity|]. cbn [existsb tag_opens].
  intros H. apply orb_false_elim in H. destruct H as [_ H].
  rewrite H. apply andb_false_r.
Qed.

Lemma tag_opens_sub_tags (rest : pystr) :
  tag_opens rest = false -> tag_opens (sub_tags false rest) = false.
Proof.
  destruct rest as [|d r]; [reflexivity|]. cbn [tag_opens sub_tags].
  destruct (d =? GT) eqn:E.
  - intros _. apply N.eqb_eq in E. subst d. reflexivity.
  - cbn [negb andb]. intros Hno.
    destruct ((d =? LT) && tag_opens r).
    + apply tag_opens_no_gt. now apply sub_tags_no_gt.
    + cbn [tag_opens]. rewrite E. cbn [negb andb]. now apply sub_tags_no_gt.
Qed.

(** Every ['<'] left in the output opens no tag. *)
Lemma sub_tags_closed (inside : bool) (s pre r : pystr) :
  sub_tags inside s = pre ++ LT :: r -> tag_opens r = false.
Proof.
  revert inside pre. induction s as [|c s IH]; intros inside pre; cbn [sub_tags].
  - destruct pre; discriminate.
  - destruct inside.
    + destruct (c =? GT); apply IH.
    + destruct ((c =? LT) && tag_opens s) eqn:Hopen; [apply IH|].
      destruct pre as [|x pre]; cbn [app].
      * intros [= -> <-]. rewrite N.eqb_refl in Hopen. cbn [andb] in Hopen.
        now apply tag_opens_sub_tags.
      * intros [= _ H]. exact (IH _ _ H).
Qed.

(** X8. After the first cleaning step no tag is left: the cleaned answer
    contains no ['<'], one or more characters other than ['>'], ['>']. *)
Theorem clean_result_no_tag (raw body : pystr) :
  tag_body body -> ~ infix (tag body) (clean_result raw).
Proof.
  intros Hbody (pre & post & Heq). unfold clean_result, tag in Heq.
  rewrite <- !app_assoc in Heq. simpl in Heq.
  apply sub_tags_closed in Heq.
  now rewrite (tag_opens_body body post Hbody) in Heq.
Qed.

(** X8 at a concrete answer. *)
Lemma clean_result_no_tag_witness :
  ~ infix (tag (py "think")) (clean_result (py "<<think>>render/a.ts<think>")).
Proof.
  apply clean_result_no_tag. split; [discriminate | repeat constructor; discriminate].
Defined.

(* ===================================================================== *)
(** * RewriteOrchestrator: every way [optimize_file_for_m1] ends *)
(* ===================================================================== *)

Lemma set_files_logged (fs : gmap pystr node) (w : world) (evs : list event) :
  set_files fs (logged w evs) = logged (set_files fs w) evs.
Proof. reflexivity. Qed.

Lemma set_files_set_files (fs fs' : gmap pystr node) (w : world) :
  set_files fs (set_files fs' w) = set_files fs w.
Proof. reflexivity. Qed.

Lemma rsplit_at_none (c : N) (s : pystr) : ~ In c s -> rsplit_at c s = None.
Proof.
  induction s as [|x s IH]; [reflexivity|]. intros Hin. simpl.
  rewrite IH by (intros H; apply Hin; now right).
  destruct (x =? c) eqn:E; [|reflexivity].
  apply N.eqb_eq in E. exfalso. apply Hin. now left.
Qed.

(** With the parent directory in place, the write replaces the file and
    reports it. *)
Lemma makedirs_present (d : pystr) (w : world) :
  node_at (files w) d = Some Dir -> makedirs d w = (Returned tt, w).
Proof.
  intros Hdir. unfold makedirs. destruct d as [|x d]; [discriminate Hdir|].
  unfold node_at in Hdir. now rewrite Hdir.
Qed.

Lemma write_file_content_run (p c : pystr) (b : bytes) (w : world) :
  node_at (files w) (dirname p) = Some Dir ->
  p <> [] -> node_at (files w) p <> Some Dir ->
  utf8_encode c = Some b ->
  write_file_content p c w
  = (Returned tt, logged (set_files (<[p := File b]> (files w)) w)
                    [Print 53 [AStr p]]).
Proof.
  intros Hdir Hp Hnode Henc. unfold write_file_content.
  rewrite (bind_returned _ _ _ _ _ (makedirs_present _ w Hdir)).
  rewrite (bind_returned _ _ _ _ _ (write_text_run p c b w Hp Hnode Henc)).
  reflexivity.
Qed.

(** A content that cannot be encoded leaves the file empty and the
    exception on its way out. *)
Lemma write_file_content_unencodable (p c : pystr) (w : world) :
  node_at (files w) (dirname p) = Some Dir ->
  p <> [] -> node_at (files w) p <> Some Dir ->
  utf8_encode c = None ->
  write_file_content p c w
  = (Raised UnicodeEncodeError, set_files (<[p := File []]> (files w)) w).
Proof.
  intros Hdir Hp Hnode Henc. unfold write_file_content.
  rewrite (bind_returned _ _ _ _ _ (makedirs_present _ w Hdir)).
  now rewrite (bind_raised _ _ _ _ _ (write_text_unencodable p c w Hp Hnode Henc)).
Qed.

(** Without a directory part, the write fails before it opens the file. *)
Lemma write_file_content_bare (p c : pystr) (w : world) :
  ~ In SLASH p ->
  write_file_content p c w = (Raised FileNotFoundError, w).
Proof.
  intros Hbare. unfold write_file_content, dirname.
  rewrite (rsplit_at_none SLASH p Hbare). reflexivity.
Qed.

Section OptimizeOutcomes.

Variable requests_post : request -> result response.
Variable unicode_isalnum : N -> bool.

(** X9. For a path that names no regular file (nothing there, a
    directory, or the empty path), [optimize_file_for_m1] returns
    [False] after a message: it creates no backup, touches no file and
    sends no request. *)
Theorem optimize_not_a_file (w : world) (file_path : pystr) :
  (forall c, node_at (files w) file_path <> Some (File c)) ->
  exists evs,
    optimize_file_for_m1 requests_post unicode_isalnum file_path w
    = (Returned false, logged w evs) /\
    requests evs = [].
Proof.
  intros Hnot. unfold optimize_file_for_m1.
  destruct file_path as [|x p]; cbn [truthy negb].
  - rewrite bind_print, ret_run. now eexists.
  - rewrite (bind_returned _ _ _ _ _ (isfile_run (x :: p) w)).
    destruct (node_at (files w) (x :: p)) as [[c|]|] eqn:E; cbn [negb].
    + now elim (Hnot c).
    + rewrite bind_print, ret_run. now eexists.
    + rewrite bind_print, ret_run. now eexists.
Qed.

(** X10. An empty file is backed up and then turned down: the call
    returns [False] without sending a request, the file stays empty and
    its [.bak] sibling now holds the same empty content. *)
Theorem optimize_empty_file (w : world) (file_path : pystr) :
  node_at (files w) file_path = Some (File []) ->
  node_at (files w) (file_path ++ py ".bak") <> Some Dir ->
  exists evs,
    optimize_file_for_m1 requests_post unicode_isalnum file_path w
    = (Returned false,
       logged (set_files (<[file_path ++ py ".bak" := File []]> (files w)) w) evs) /\
    requests evs = [].
Proof.
  intros Hfile Hbak. unfold optimize_file_for_m1.
  rewrite (truthy_nonempty file_path (node_at_nonempty _ _ _ Hfile)). cbn [negb].
  rewrite (bind_returned _ _ _ _ _ (isfile_run file_path w)), Hfile. cbn [negb].
  rewrite (bind_returned _ _ _ _ _ (capture_run file_path [] w Hfile Hbak)).
  assert (Hlive : node_at (<[file_path ++ py ".bak" := File []]> (files w)) file_path
                  = Some (File [])).
  { rewrite node_at_insert_ne; [exact Hfile|]. apply app_ne_self. discriminate. }
  match goal with |- context [bind (get_file_content _) _ ?W] =>
    rewrite (bind_returned _ _ _ _ _ (get_file_content_file file_path [] W Hlive))
  end.
  change (file_text []) with (@nil N).
  cbn [truthy negb]. rewrite bind_print, ret_run, logged_logged. now eexists.
Qed.

Section WithAnswer.

Variables (w : world) (file_path : pystr) (content : bytes) (raw : pystr)
  (resp : response).
Hypothesis Hfile : node_at (files w) file_path = Some (File content).
Hypothesis Hcontent : content <> [].
Hypothesis Hbak : node_at (files w) (file_path ++ py ".bak") <> Some Dir.
Hypothesis Hanswers : answers requests_post resp.
Hypothesis Hwell : well_formed resp raw.

(** The run up to the write: the backup is made, one request is sent,
    and the cleaned answer is about to be written. *)
Lemma optimize_to_the_write :
  exists evs,
    optimize_file_for_m1 requests_post unicode_isalnum file_path w
    = try_except_only is_json_decode_error
        (bind (write_file_content file_path (clean_optimized unicode_isalnum raw))
           (fun _ => bind (print 312 [AStr file_path])
              (fun _ => bind (print 313 [AStr (file_path ++ py ".bak")])
                 (fun _ => ret true))))
        (fun _ => bind (print 317 [])
           (fun _ => bind (print 318 [AStr (take 200 (text resp))])
              (fun _ => ret false)))
        (logged (set_files (<[file_path ++ py ".bak" := File content]> (files w)) w)
           evs) /\
    length (requests evs) = 1%nat.
Proof.
  destruct Hwell as (Hstatus & members & Hbody & Hmember).
  unfold optimize_file_for_m1.
  rewrite (truthy_nonempty file_path (node_at_nonempty _ _ _ Hfile)). cbn [negb].
  rewrite (bind_returned _ _ _ _ _ (isfile_run file_path w)), Hfile. cbn [negb].
  rewrite (bind_returned _ _ _ _ _ (capture_run file_path content w Hfile Hbak)).
  assert (Hlive : node_at (<[file_path ++ py ".bak" := File content]> (files w))
                    file_path = Some (File content)).
  { rewrite node_at_insert_ne; [exact Hfile|]. apply app_ne_self. discriminate. }
  match goal with |- context [bind (get_file_content _) _ ?W] =>
    rewrite (bind_returned _ _ _ _ _
               (get_file_content_file file_path content W Hlive))
  end.
  rewrite (truthy_nonempty _ (file_text_nonempty content Hcontent)). cbn [negb].
  rewrite bind_print, logged_logged.
  rewrite (bind_returned _ _ _ _ _ (post_run requests_post _ _ _ (Hanswers _))),
    logged_logged.
  rewrite Hstatus. cbn [Z.eqb Pos.eqb].
  unfold try_except_only, try_except, response_json, get_response.
  rewrite Hbody, bind_ret, Hmember, bind_ret.
  unfold debug_sample. cbn [DEBUG]. run_prints.
  eexists. split; [reflexivity|]. now rewrite !requests_app.
Qed.

End WithAnswer.



End OptimizeOutcomes.

(** X9 at a concrete world: nothing on disk. *)
Lemma optimize_not_a_file_witness :
  exists evs,
    optimize_file_for_m1 (fun _ => Raised (ExternalError 0)) (fun _ => false)
      (py "render/fluid.wgsl") (world_of [])
    = (Returned false, logged (world_of []) evs) /\
    requests evs = [].
Proof.
  apply optimize_not_a_file. intros c. vm_compute. discriminate.
Defined.

(** X10 at a concrete world: an empty shader. *)
Lemma optimize_empty_file_witness :
  exists evs,
    optimize_file_for_m1 (fun _ => Raised (ExternalError 0)) (fun _ => false)
      (py "render/fluid.wgsl") (world_of [(py "render/fluid.wgsl", File [])])
    = (Returned false,
       logged (set_files (<[py "render/fluid.wgsl" ++ py ".bak" := File []]>
                            (files (world_of [(py "render/fluid.wgsl", File [])])))
                 (world_of [(py "render/fluid.wgsl", File [])])) evs) /\
    requests evs = [].
Proof.
  apply optimize_empty_file.
  - vm_compute. reflexivity.
  - vm_compute. discriminate.
Defined.



(* ===================================================================== *)
(** * Cleaning the rewritten content *)
(* ===================================================================== *)

(** Joining the pieces of a split gives the text back. *)
Lemma join_split_on (s : pystr) : join [NL] (split_on NL s) = s.
Proof.
  induction s as [|c s IH]; [reflexivity|].
  destruct (split_on_head NL s) as (q & qs & post & Hq & _).
  cbn [split_on]. rewrite Hq in IH |- *. destruct (c =? NL) eqn:E.
  - apply N.eqb_eq in E. subst c.
    change (join [NL] ([] :: q :: qs)) with ([] ++ [NL] ++ join [NL] (q :: qs)).
    now rewrite IH.
  - destruct qs as [|q' qs].
    + simpl in IH |- *. now rewrite IH.
    + change (join [NL] ((c :: q) :: q' :: qs))
        with (c :: (q ++ [NL] ++ join [NL] (q' :: qs))).
      change (join [NL] (q :: q' :: qs))
        with (q ++ [NL] ++ join [NL] (q' :: qs)) in IH.
      now rewrite IH.
Qed.

Lemma join_app (sep : pystr) (xs ys : list pystr) :
  xs <> [] -> ys <> [] ->
  join sep (xs ++ ys) = join sep xs ++ sep ++ join sep ys.
Proof.
  intros Hx Hy. induction xs as [|x xs IH]; [congruence|].
  destruct xs as [|x' xs].
  - destruct ys; [congruence | reflexivity].
  - change (join sep ((x :: x' :: xs) ++ ys))
      with (x ++ sep ++ join sep ((x' :: xs) ++ ys)).
    rewrite IH by discriminate.
    change (join sep (x :: x' :: xs)) with (x ++ sep ++ join sep (x' :: xs)).
    now rewrite <- !app_assoc.
Qed.

Lemma pystr_eqb_eq (a b : pystr) : pystr_eqb a b = true -> a = b.
Proof.
  revert b. induction a as [|x a IH]; intros [|y b]; simpl; try discriminate;
    [reflexivity|].
  rewrite andb_true_iff, N.eqb_eq. intros [-> H]. now rewrite (IH _ H).
Qed.

Lemma map_unchanged {A} (f : A -> A) (xs : list A) :
  Forall (fun x => f x = x) xs -> List.map f xs = xs.
Proof. induction 1 as [|x xs Hx _ IH]; simpl; [reflexivity | now rewrite Hx, IH]. Qed.

Section Stripping.

Variable p : N -> bool.

Lemma lstrip_by_blank (w s : pystr) :
  Forall (fun c => p c = true) w -> lstrip_by p (w ++ s) = lstrip_by p s.
Proof. induction 1 as [|c w Hc _ IH]; simpl; [reflexivity | now rewrite Hc]. Qed.

(** What the left strip removes is blank, and what it leaves starts
    with a character to keep. *)
Lemma lstrip_by_split (s : pystr) :
  exists pre,
    s = pre ++ lstrip_by p s /\ Forall (fun c => p c = true) pre /\
    match lstrip_by p s with [] => True | x :: _ => p x = false end.
Proof.
  induction s as [|c s (pre & Hs & Hpre & Hhead)]; simpl.
  - exists []. repeat split. constructor.
  - destruct (p c) eqn:Hc.
    + exists (c :: pre). repeat split; [simpl; now f_equal | now constructor | exact Hhead].
    + exists []. repeat split; [constructor | exact Hc].
Qed.

Lemma lstrip_by_kept (x : N) (t : pystr) :
  p x = false -> lstrip_by p (x :: t) = x :: t.
Proof. intros Hx. simpl. now rewrite Hx. Qed.

(** Stripping does not see what it would strip anyway. *)
Lemma strip_by_blank (w1 w2 s : pystr) :
  Forall (fun c => p c = true) w1 -> Forall (fun c => p c = true) w2 ->
  strip_by p (w1 ++ s ++ w2) = strip_by p s.
Proof.
  intros H1 H2. unfold strip_by.
  rewrite (lstrip_by_blank w1 _ H1).
  destruct (lstrip_by_split s) as (pre & Hs & Hpre & Hhead).
  rewrite Hs at 1. rewrite <- app_assoc, (lstrip_by_blank pre _ Hpre).
  destruct (lstrip_by p s) as [|x t].
  - simpl. now rewrite (lstrip_by_all p w2 H2).
  - change ((x :: t) ++ w2) with (x :: (t ++ w2)).
    rewrite (lstrip_by_kept x _ Hhead).
    unfold rstrip_by.
    change (x :: (t ++ w2)) with ((x :: t) ++ w2).
    rewrite rev_app_distr, lstrip_by_blank; [reflexivity|].
    apply Forall_rev. exact H2.
Qed.

End Stripping.

Section CleanOptimized.

Variable unicode_isalnum : N -> bool.

Lemma not_fence_not_bare (line : pystr) :
  is_fence unicode_isalnum line = false -> pystr_eqb line FENCE = false.
Proof.
  intros H. destruct (pystr_eqb line FENCE) eqn:E; [|reflexivity].
  apply pystr_eqb_eq in E. subst line. discriminate H.
Qed.

Lemma sub_fence_free (s : pystr) :
  fence_free unicode_isalnum s -> sub_fence unicode_isalnum s = s.
Proof.
  intros H. unfold sub_fence. rewrite map_unchanged; [apply join_split_on|].
  unfold fence_free in H. induction H as [|l ls Hl _ IH]; constructor; [|exact IH].
  now rewrite Hl.
Qed.

Lemma sub_bare_fence_free (s : pystr) :
  fence_free unicode_isalnum s -> sub_bare_fence s = s.
Proof.
  intros H. unfold sub_bare_fence. rewrite map_unchanged; [apply join_split_on|].
  unfold fence_free in H. induction H as [|l ls Hl _ IH]; constructor; [|exact IH].
  now rewrite (not_fence_not_bare l Hl).
Qed.

(** X13. An answer without a fence line is written as it is, apart from
    the whitespace around it. *)
Theorem clean_optimized_plain (raw : pystr) :
  fence_free unicode_isalnum raw ->
  clean_optimized unicode_isalnum raw = strip raw.
Proof.
  intros H. unfold clean_optimized.
  now rewrite (sub_fence_free raw H), (sub_bare_fence_free raw H).
Qed.

Lemma startswith_nil (s : pystr) : startswith s [] = true.
Proof. now destruct s. Qed.

Lemma word_not_newline (c : N) : is_word unicode_isalnum c = true -> c <> NL.
Proof. intros H ->. discriminate H. Qed.

Lemma is_fence_opening (lang : pystr) :
  Forall (fun c => is_word unicode_isalnum c = true) lang ->
  is_fence unicode_isalnum (FENCE ++ lang) = true.
Proof.
  intros H. unfold is_fence.
  change (FENCE ++ lang) with (BACKTICK :: BACKTICK :: BACKTICK :: lang).
  cbn [startswith FENCE drop]. rewrite !N.eqb_refl, startswith_nil, drop_0.
  cbn [andb].
  induction H as [|c lang Hc _ IH]; cbn [forallb]; [reflexivity | now rewrite Hc].
Qed.

(** X14. An answer wrapped in a fenced block, an opening fence with an
    optional language tag, a body without fence lines and a closing
    fence, is written as its body, apart from the whitespace around
    it. *)
Theorem clean_optimized_fenced (lang body : pystr) :
  Forall (fun c => is_word unicode_isalnum c = true) lang ->
  fence_free unicode_isalnum body ->
  clean_optimized unicode_isalnum (FENCE ++ lang ++ NL :: body ++ NL :: FENCE)
  = strip body.
Proof.
  intros Hlang Hbody.
  assert (Hopen : split_on NL (FENCE ++ lang) = [FENCE ++ lang]).
  { apply split_on_none. apply Forall_app. split.
    - repeat constructor; discriminate.
    - clear -Hlang. induction Hlang as [|c l Hc _ IH]; constructor; [|exact IH].
      now apply word_not_newline. }
  destruct (split_on_head NL body) as (q & qs & post & Hq & _).
  assert (Hfirst : sub_fence unicode_isalnum
                     (FENCE ++ lang ++ NL :: body ++ NL :: FENCE)
                   = NL :: body ++ [NL]).
  { unfold sub_fence.
    replace (FENCE ++ lang ++ NL :: body ++ NL :: FENCE)
      with ((FENCE ++ lang) ++ NL :: (body ++ NL :: FENCE))
      by (now rewrite <- app_assoc).
    rewrite split_on_app, Hopen, split_on_app.
    change (split_on NL FENCE) with [FENCE].
    rewrite !map_app. cbn [List.map].
    rewrite (is_fence_opening lang Hlang).
    change (is_fence unicode_isalnum FENCE) with true. cbv iota.
    rewrite map_unchanged.
    - change ([[]] ++ split_on NL body ++ [[]])
        with ([] :: (split_on NL body ++ [[]])).
      rewrite Hq.
      change (join [NL] ([] :: (q :: qs) ++ [[]]))
        with ([] ++ [NL] ++ join [NL] ((q :: qs) ++ [[]])).
      rewrite join_app by discriminate. rewrite <- Hq, join_split_on.
      simpl. reflexivity.
    - unfold fence_free in Hbody. clear -Hbody.
      induction Hbody as [|l ls Hl _ IH]; constructor; [now rewrite Hl | exact IH]. }
  assert (Hfree : fence_free unicode_isalnum (NL :: body ++ [NL])).
  { unfold fence_free.
    change (NL :: body ++ [NL]) with ([] ++ NL :: (body ++ NL :: [])).
    rewrite split_on_app, split_on_app.
    apply Forall_app. split; [repeat constructor|].
    apply Forall_app. split; [exact Hbody | repeat constructor]. }
  unfold clean_optimized. rewrite Hfirst, (sub_bare_fence_free _ Hfree).
  change (NL :: body ++ [NL]) with ([NL] ++ body ++ [NL]).
  apply strip_by_blank; repeat constructor.
Qed.

End CleanOptimized.

(** X13 at a concrete answer. *)
Lemma clean_optimized_plain_witness :
  clean_optimized (fun _ => false) (py "  fn main() { }  ") = strip (py "  fn main() { }  ").
Proof.
  apply clean_optimized_plain. repeat constructor.
Defined.

(** X14 at a concrete answer: a [wgsl] block of one line. *)
Lemma clean_optimized_fenced_witness :
  clean_optimized (fun _ => false)
    (FENCE ++ py "wgsl" ++ NL :: py "fn main() { }" ++ NL :: FENCE)
  = strip (py "fn main() { }").
Proof.
  apply clean_optimized_fenced; repeat constructor.
Defined.

(** X15. What [write_file_content] writes, [get_file_content] reads
    back, up to the line ends: with the parent directory in place, no
    directory in the way and a content that can be encoded as UTF-8,
    the write succeeds and a read of the same path returns the content
    with every [\r\n] and [\r] turned into [\n], which is the content
    itself when it holds no carriage return. *)
Theorem write_then_read (p c : pystr) (w : world) :
  node_at (files w) (dirname p) = Some Dir ->
  node_at (files w) p <> Some Dir ->
  utf8_encode c <> None ->
  exists w1,
    write_file_content p c w = (Returned tt, w1) /\
    get_file_content p w1 = (Returned (universal_newlines c), w1) /\
    (~ In CR c -> get_file_content p w1 = (Returned c, w1)).
Proof.
  intros Hdir Hnode Henc.
  assert (Hp : p <> []) by (intros ->; discriminate Hdir).
  destruct (utf8_encode c) as [b|] eqn:Eb; [clear Henc | congruence].
  assert (Hread : forall w1, node_at (files w1) p = Some (File b) ->
                    get_file_content p w1 = (Returned (universal_newlines c), w1)).
  { intros w1 Hnode1. rewrite (get_file_content_file p b w1 Hnode1).
    unfold file_text. now rewrite (utf8_decode_encode c b Eb). }
  eexists. split; [exact (write_file_content_run p c b w Hdir Hp Hnode Eb)|].
  assert (Hlive : node_at (files (logged (set_files (<[p := File b]> (files w)) w)
                                    [Print 53 [AStr p]])) p = Some (File b)).
  { rewrite files_logged, files_set_files. now apply node_at_insert_eq. }
  split; [exact (Hread _ Hlive)|].
  intros Hcr. rewrite (Hread _ Hlive). now rewrite (universal_newlines_id c Hcr).
Qed.

(** X15 at a concrete world. *)
Lemma write_then_read_witness :
  exists w1,
    write_file_content (py "render/fluid.wgsl") (py "fn main() { }")
      (world_of [(py "render", Dir)]) = (Returned tt, w1) /\
    get_file_content (py "render/fluid.wgsl") w1
    = (Returned (universal_newlines (py "fn main() { }")), w1) /\
    (~ In CR (py "fn main() { }") ->
     get_file_content (py "render/fluid.wgsl") w1 = (Returned (py "fn main() { }"), w1)).
Proof.
  apply write_then_read.
  - vm_compute. reflexivity.
  - vm_compute. discriminate.
  - vm_compute. discriminate.
Defined.

(* ===================================================================== *)
(** * BenchmarkRunner: the swap that cannot start *)
(* ===================================================================== *)

(** A swap that cannot start answers [False] and changes nothing but the
    trace. *)
Lemma temporarily_restore_original_blocked (g : globals) (w : world) :
  swap_blocked g (files w) ->
  exists evs,
    temporarily_restore_original g w = (Returned PFalse, logged w evs) /\
    (evs = [] \/ evs = [Print 66 []]).
Proof.
  intros Hblocked. unfold temporarily_restore_original.
  destruct (is_set (ORIGINAL_FILE g)) eqn:Ho; cbn [andb negb];
    [|exists []; rewrite logged_nil; auto].
  destruct (is_set (OPTIMIZED_FILE g)) eqn:Hp; cbn [andb negb];
    [|exists []; rewrite logged_nil; auto].
  unfold try_except, read_text. unfold bind, read_bytes.
  destruct Hblocked as [H|[H|[H|H]]]; [congruence | congruence | |].
  - destruct (node_at (files w) (path_of (OPTIMIZED_FILE g))) as [[c|]|] eqn:E.
    + now elim (H c).
    + exists [Print 66 []]. auto.
    + exists [Print 66 []]. auto.
  - destruct (node_at (files w) (path_of (OPTIMIZED_FILE g))) as [[c|]|] eqn:E;
      [|exists [Print 66 []]; auto | exists [Print 66 []]; auto].
    destruct (utf8_decode c) as [t|]; [|exists [Print 66 []]; auto].
    cbn [ret].
    destruct (node_at (files w) (path_of (ORIGINAL_FILE g))) as [[c'|]|] eqn:E'.
    + now elim (H c').
    + exists [Print 66 []]. auto.
    + exists [Print 66 []]. auto.
Qed.

(** X16. When the swap cannot start, because a module variable is unset
    or one of the two files is missing or a directory,
    [measure_performance] returns two empty lists at once: no file is
    touched and no sample is drawn. *)
Theorem measure_performance_blocked (normalvariate : nat -> result Q)
    (g : globals) (w : world) :
  swap_blocked g (files w) ->
  exists evs,
    measure_performance normalvariate g w = (Returned ([], []), logged w evs) /\
    ~ In Draw evs.
Proof.
  intros Hblocked.
  destruct (temporarily_restore_original_blocked g w Hblocked)
    as (evs & Hrun & Hevs).
  unfold measure_performance. rewrite (bind_returned _ _ _ _ _ Hrun).
  cbn [truthy_sf negb]. rewrite ret_run. exists evs. split; [reflexivity|].
  destruct Hevs as [-> | ->]; [intros [] | intros [H|[]]; discriminate].
Qed.

(** X16 at a concrete world: the backup is gone. *)
Lemma measure_performance_blocked_witness :
  exists evs,
    measure_performance (fun _ => Returned 0%Q) (tracking (py "render/fluid.wgsl"))
      (world_of [(py "render/fluid.wgsl", File (py "fn main() { }"))])
    = (Returned ([], []),
       logged (world_of [(py "render/fluid.wgsl", File (py "fn main() { }"))]) evs) /\
    ~ In Draw evs.
Proof.
  apply measure_performance_blocked.
  right. right. right. intros c. vm_compute. discriminate.
Defined.

(** X17 at a concrete world, with a random source that raises on every
    call. *)
Lemma measure_performance_restores_witness :
  exists times w' opt',
    measure_performance (fun _ => Raised AttributeError)
      (tracking (py "render/fluid.wgsl"))
      (world_of [(py "render/fluid.wgsl", File (py "fn main() { fast }"));
                 (py "render/fluid.wgsl.bak", File (py "fn main() {}"))])
    = (Returned times, w') /\
    node_at (files w') (py "render/fluid.wgsl") = Some (File opt') /\
    utf8_encode (universal_newlines (py "fn main() { fast }")) = Some opt' /\
    (~ In CR (py "fn main() { fast }") -> opt' = py "fn main() { fast }") /\
    (times = ([], []) \/
     (length (fst times) = NUM_TEST_RUNS /\ length (snd times) = NUM_TEST_RUNS)).
Proof.
  apply (measure_performance_restores _ (tracking (py "render/fluid.wgsl"))
           (py "render/fluid.wgsl") (py "render/fluid.wgsl" ++ py ".bak")
           eq_refl eq_refl (py "fn main() { fast }") (py "fn main() {}")
           (py "fn main() { fast }") (py "fn main() {}")).
  - vm_compute. reflexivity.
  - vm_compute. reflexivity.
  - vm_compute. reflexivity.
  - vm_compute. reflexivity.
  - discriminate.
Defined.

(* ===================================================================== *)
(** * BenchmarkRunner: the draws a run takes *)
(* ===================================================================== *)

Section Draws.

Variable normalvariate : nat -> result Q.

Lemma simulate_draws_ok (is_original : bool) (w : world) :
  draws_succeed normalvariate (draws w) (draws_per is_original) ->
  exists q w',
    simulate_rendering_test normalvariate is_original w = (Returned q, w') /\
    draws w' = (draws w + draws_per is_original)%nat.
Proof.
  intros Hok. unfold simulate_rendering_test, bind, draw.
  destruct (Hok 0%nat) as [z Hz]; [destruct is_original; simpl; lia|].
  rewrite Nat.add_0_r in Hz. rewrite Hz.
  destruct is_original; simpl.
  - eexists _, _. split; [reflexivity|]. simpl. lia.
  - destruct (Hok 1%nat) as [z' Hz']; [simpl; lia|].
    rewrite Nat.add_1_r in Hz'. rewrite Hz'.
    eexists _, _. split; [reflexivity|]. simpl. lia.
Qed.

Lemma simulate_returned_draws (is_original : bool) (w w' : world) (q : Q) :
  simulate_rendering_test normalvariate is_original w = (Returned q, w') ->
  draws w' = (draws w + draws_per is_original)%nat /\
  draws_succeed normalvariate (draws w) (draws_per is_original).
Proof.
  unfold simulate_rendering_test, bind, draw.
  destruct (normalvariate (draws w)) as [z|] eqn:Hz; [|discriminate].
  destruct is_original; simpl.
  - intros [= _ <-]. simpl. split; [lia|].
    intros k Hk. assert (k = 0%nat) as -> by lia. rewrite Nat.add_0_r. eauto.
  - destruct (normalvariate (S (draws w))) as [z'|] eqn:Hz'; [|discriminate].
    intros [= _ <-]. simpl. split; [lia|].
    intros k Hk. assert (k = 0 \/ k = 1)%nat as [-> | ->] by lia.
    + rewrite Nat.add_0_r. eauto.
    + rewrite Nat.add_1_r. eauto.
Qed.

Lemma draws_succeed_split (start n m : nat) :
  draws_succeed normalvariate start (n + m) ->
  draws_succeed normalvariate start n /\
  draws_succeed normalvariate (start + n) m.
Proof.
  intros H. split; intros k Hk.
  - apply H. lia.
  - rewrite <- Nat.add_assoc. apply H. lia.
Qed.

(** A loop whose draws all succeed completes and takes them all. *)
Lemma run_tests_ok (is_original : bool) (line : N) (runs i : nat)
    (frame_times : list Q) (w : world) :
  draws_succeed normalvariate (draws w) (runs * draws_per is_original) ->
  exists l w',
    run_tests normalvariate is_original line runs i frame_times w
    = (Returned l, w') /\
    draws w' = (draws w + runs * draws_per is_original)%nat.
Proof.
  revert i frame_times w. induction runs as [|runs IH]; intros i acc w Hok.
  - eexists _, _. split; [reflexivity|]. simpl. lia.
  - cbn [run_tests]. rewrite bind_print.
    change (S runs * draws_per is_original)%nat
      with (draws_per is_original + runs * draws_per is_original)%nat in Hok.
    apply draws_succeed_split in Hok. destruct Hok as [Hfirst Hrest].
    destruct (simulate_draws_ok is_original (logged w [Print line
                [AInt (Z.of_nat i + 1); AInt (Z.of_nat NUM_TEST_RUNS)]]) Hfirst)
      as (q & w1 & Hsim & Hd).
    rewrite (bind_returned _ _ _ _ _ Hsim).
    rewrite (bind_returned _ _ _ _ _ (emit_run Sleep w1)).
    rewrite draws_logged in Hd.
    destruct (IH (S i) (acc ++ [q]) (logged w1 [Sleep])) as (l & w' & Hrun & Hd').
    + rewrite draws_logged, Hd. exact Hrest.
    + exists l, w'. split; [exact Hrun|].
      rewrite Hd', draws_logged, Hd. simpl. lia.
Qed.

(** A loop that completes took all its draws, and they all succeeded. *)
Lemma run_tests_returned (is_original : bool) (line : N) (runs i : nat)
    (frame_times l : list Q) (w w' : world) :
  run_tests normalvariate is_original line runs i frame_times w = (Returned l, w') ->
  draws w' = (draws w + runs * draws_per is_original)%nat /\
  draws_succeed normalvariate (draws w) (runs * draws_per is_original).
Proof.
  revert i frame_times w. induction runs as [|runs IH]; intros i acc w.
  - intros [= _ <-]. split; [simpl; lia|]. intros k Hk. simpl in Hk. lia.
  - cbn [run_tests]. rewrite bind_print. unfold bind at 1.
    destruct (simulate_rendering_test normalvariate is_original _)
      as [[q|e] w1] eqn:Hsim; [|discriminate].
    apply simulate_returned_draws in Hsim. rewrite draws_logged in Hsim.
    destruct Hsim as [Hd Hfirst].
    rewrite (bind_returned _ _ _ _ _ (emit_run Sleep w1)).
    intros Hrun. destruct (IH _ _ _ Hrun) as [Hd' Hrest].
    rewrite draws_logged in Hd', Hrest. split; [rewrite Hd', Hd; simpl; lia|].
    intros k Hk. simpl in Hk.
    destruct (Nat.lt_ge_cases k (draws_per is_original)) as [Hlt|Hge].
    + now apply Hfirst.
    + destruct (Hrest (k - draws_per is_original)%nat) as [z Hz]; [lia|].
      exists z. rewrite <- Hz. f_equal. lia.
Qed.

Lemma draws_not_both (start n : nat) :
  draws_succeed normalvariate start n -> draw_raises normalvariate start n -> False.
Proof.
  intros Hok (k & e & Hk & He). destruct (Hok k Hk) as [z Hz]. congruence.
Qed.

End Draws.

Lemma draws_set_files (fs : gmap pystr node) (w : world) :
  draws (set_files fs w) = draws w.
Proof. reflexivity. Qed.

Section DrawCount.

Variable normalvariate : nat -> result Q.
Variables (g : globals) (p b : pystr).
Hypothesis Hopt : OPTIMIZED_FILE g = Some p.
Hypothesis Horig : ORIGINAL_FILE g = Some b.

Lemma measure_performance_draw_cases (opt orig : bytes) (topt torig : pystr)
    (w : world) :
  node_at (files w) p = Some (File opt) -> utf8_decode opt = Some topt ->
  node_at (files w) b = Some (File orig) -> utf8_decode orig = Some torig ->
  opt <> [] ->
  exists times w',
    measure_performance normalvariate g w = (Returned times, w') /\
    (draws_succeed normalvariate (draws w) 15 ->
     length (fst times) = 5%nat /\ length (snd times) = 5%nat /\
     draws w' = (draws w + 15)%nat) /\
    (draw_raises normalvariate (draws w) 15 -> times = ([], [])).
Proof.
  intros Hp Hdp Hb Hdb Hne.
  assert (Hp0 : p <> []) by exact (node_at_nonempty _ _ _ Hp).
  destruct (universal_newlines_encodable topt opt (utf8_encode_decode _ _ Hdp))
    as [opt' Hopt'].
  assert (Htext : universal_newlines topt <> [])
    by exact (universal_newlines_nonempty _ (utf8_decode_nonempty _ _ Hdp Hne)).
  destruct (temporarily_restore_original_run g p b Hopt Horig opt orig topt torig
              w Hp Hdp Hb Hdb) as (orig' & _ & Hswap).
  unfold measure_performance.
  rewrite (bind_returned _ _ _ _ _ Hswap).
  cbn [truthy_sf]. rewrite (truthy_nonempty _ Htext). cbn [negb].
  unfold try_except. unfold bind at 1. rewrite print_run. unfold bind at 1.
  set (w1 := logged (set_files _ w) [Print 121 []]).
  assert (Hd1 : draws w1 = draws w) by reflexivity.
  destruct (run_tests normalvariate true 123 NUM_TEST_RUNS 0 [] w1)
    as [[o|e] w2] eqn:Ho.
  - destruct (run_tests_spec _ _ _ _ _ _ _ _ _ Ho) as [Hf2 Hl2].
    destruct (run_tests_returned _ _ _ _ _ _ _ _ _ Ho) as [Hd2 Hok2].
    unfold w1 in Hf2. rewrite files_logged, files_set_files in Hf2.
    assert (Hlive2 : node_at (files w2) p = Some (File orig'))
      by (rewrite Hf2; now apply node_at_insert_eq).
    unfold bind at 1.
    rewrite (restore_optimized_run g p Hopt _ opt' orig' w2 Hlive2 Hopt').
    unfold bind at 1. rewrite print_run. unfold bind at 1.
    set (w3 := logged (set_files _ w2) [Print 132 []]).
    assert (Hd3 : draws w3 = (draws w + 5)%nat)
      by (unfold w3; rewrite draws_logged, draws_set_files, Hd2, Hd1; reflexivity).
    destruct (run_tests normalvariate false 134 NUM_TEST_RUNS 0 [] w3)
      as [[s|e] w4] eqn:Hs.
    + destruct (run_tests_spec _ _ _ _ _ _ _ _ _ Hs) as [Hf4 Hl4].
      destruct (run_tests_returned _ _ _ _ _ _ _ _ _ Hs) as [Hd4 Hok4].
      unfold bind at 1. rewrite print_run, ret_run.
      eexists _, _. split; [reflexivity|]. split.
      * intros _. split; [exact (Hl2 _ eq_refl)|]. split; [exact (Hl4 _ eq_refl)|].
        rewrite draws_logged, Hd4, Hd3. simpl. lia.
      * intros (k & e & Hk & He). exfalso.
        destruct (Nat.lt_ge_cases k 5) as [Hlt|Hge].
        -- destruct (Hok2 k) as [z Hz]; [simpl; lia|].
           rewrite Hd1 in Hz. congruence.
        -- destruct (Hok4 (k - 5)%nat) as [z Hz]; [simpl; lia|].
           rewrite Hd3 in Hz.
           replace (draws w + 5 + (k - 5))%nat with (draws w + k)%nat in Hz by lia.
           congruence.
    + rewrite (bind_returned _ _ _ _ _ (print_run 143 [] _)).
      destruct (restore_optimized_returns g (PStr (universal_newlines topt))
                  (logged w4 [Print 143 []]))
        as (ok' & w5 & Hres').
      rewrite (bind_returned _ _ _ _ _ Hres'), ret_run.
      eexists _, _. split; [reflexivity|]. split.
      * intros Hall. exfalso.
        destruct (run_tests_ok normalvariate false 134 NUM_TEST_RUNS 0 [] w3)
          as (l & w' & Hrun & _); [|congruence].
        intros k Hk. simpl in Hk. rewrite Hd3.
        destruct (Hall (5 + k)%nat) as [z Hz]; [lia|].
        exists z. rewrite <- Hz. f_equal. lia.
      * reflexivity.
  - rewrite (bind_returned _ _ _ _ _ (print_run 143 [] _)).
    destruct (restore_optimized_returns g (PStr (universal_newlines topt))
                (logged w2 [Print 143 []]))
      as (ok' & w5 & Hres').
    rewrite (bind_returned _ _ _ _ _ Hres'), ret_run.
    eexists _, _. split; [reflexivity|]. split.
    + intros Hall. exfalso.
      destruct (run_tests_ok normalvariate true 123 NUM_TEST_RUNS 0 [] w1)
        as (l & w' & Hrun & _); [|congruence].
      intros k Hk. simpl in Hk. rewrite Hd1. apply Hall. lia.
    + reflexivity.
Qed.

(** X18. With a readable backup and a non-empty optimized file, both
    holding UTF-8 text, a measurement takes fifteen draws from the
    random source: one for each of the five original samples and two
    for each of the five optimized ones. If those fifteen draws all
    succeed, it returns two sets of five samples and has taken exactly
    fifteen draws; if any one of them raises, it returns the two empty
    lists. *)
Theorem measure_performance_draws (opt orig : bytes) (topt torig : pystr)
    (w : world) :
  node_at (files w) p = Some (File opt) -> utf8_decode opt = Some topt ->
  node_at (files w) b = Some (File orig) -> utf8_decode orig = Some torig ->
  opt <> [] ->
  (draws_succeed normalvariate (draws w) 15 ->
   exists o s w',
     measure_performance normalvariate g w = (Returned (o, s), w') /\
     length o = 5%nat /\ length s = 5%nat /\
     draws w' = (draws w + 15)%nat) /\
  (draw_raises normalvariate (draws w) 15 ->
   exists w', measure_performance normalvariate g w = (Returned ([], []), w')).
Proof.
  intros Hp Hdp Hb Hdb Hne.
  destruct (measure_performance_draw_cases opt orig topt torig w Hp Hdp Hb Hdb Hne)
    as ([o s] & w' & Hrun & Hok & Hfail).
  split.
  - intros Hall. exists o, s, w'. split; [exact Hrun | exact (Hok Hall)].
  - intros Hr. exists w'. rewrite Hrun, (Hfail Hr). reflexivity.
Qed.

End DrawCount.

(** X18 at a concrete world, with a random source whose draws are all
    zero. *)
Lemma measure_performance_draws_witness :
  exists o s w',
    measure_performance (fun _ => Returned 0%Q)
      (tracking (py "render/fluid.wgsl"))
      (world_of [(py "render/fluid.wgsl", File (py "fn main() { fast }"));
                 (py "render/fluid.wgsl.bak", File (py "fn main() {}"))])
    = (Returned (o, s), w') /\
    length o = 5%nat /\ length s = 5%nat /\ draws w' = 15%nat.
Proof.
  apply (measure_performance_draws (fun _ => Returned 0%Q)
           (tracking (py "render/fluid.wgsl"))
           (py "render/fluid.wgsl") (py "render/fluid.wgsl" ++ py ".bak")
           eq_refl eq_refl (py "fn main() { fast }") (py "fn main() {}")
           (py "fn main() { fast }") (py "fn main() {}")).
  - vm_compute. reflexivity.
  - vm_compute. reflexivity.
  - vm_compute. reflexivity.
  - vm_compute. reflexivity.
  - discriminate.
  - intros k _. exists 0%Q. reflexivity.
Defined.

(* ===================================================================== *)
(** * BenchmarkRunner: the measurement source as it runs *)
(* ===================================================================== *)

(** C9, where the code breaks it. The measurement source never produces
    a timing sample: its first statement evaluates
    [statistics.normalvariate], an attribute the [statistics] module
    does not have, so every call of [simulate_rendering_test], for
    either variant, raises [AttributeError] instead of returning a
    finite positive number. Consequently [measure_performance] returns
    the two empty lists in every state: after a swap the first sample
    raises, the handler reinstates the file and reports no
    measurement. *)
Theorem simulate_rendering_test_raises :
  (forall (is_original : bool) (w : world),
     exists w',
       simulate_rendering_test statistics_normalvariate is_original w
       = (Raised AttributeError, w')) /\
  (forall (g : globals) (w : world),
     exists w',
       measure_performance statistics_normalvariate g w
       = (Returned ([], []), w')).
Proof.
  split.
  - intros is_original w. eexists. reflexivity.
  - intros g w.
    destruct (measure_performance_cases statistics_normalvariate g w)
      as (times & w' & Hrun & [-> | (wa & wb & wc & wd & Ho & _)]).
    + now exists w'.
    + exfalso.
      destruct (run_tests_returned _ _ _ _ _ _ _ _ _ Ho) as [_ Hok].
      destruct (Hok 0%nat) as [z Hz]; [unfold NUM_TEST_RUNS; simpl; lia|].
      discriminate Hz.
Qed.

(* ===================================================================== *)
(** * The scan for the newest backup *)
(* ===================================================================== *)

Lemma startswith_prefix (s prefix : pystr) :
  startswith s prefix = true -> exists rest, s = prefix ++ rest.
Proof.
  revert s. induction prefix as [|a prefix IH]; intros s; simpl.
  - intros _. now exists s.
  - destruct s as [|c s]; [discriminate|].
    intros H. apply andb_prop in H. destruct H as [Hc Hs].
    apply N.eqb_eq in Hc. subst c.
    destruct (IH s Hs) as [rest ->]. now exists rest.
Qed.

Lemma endswith_suffix (s suffix : pystr) :
  endswith s suffix = true -> exists pre, s = pre ++ suffix.
Proof.
  unfold endswith. intros H. apply startswith_prefix in H. destruct H as [rest H].
  exists (rev rest). apply (f_equal (@rev N)) in H.
  now rewrite rev_involutive, rev_app_distr, rev_involutive in H.
Qed.

Lemma rsplit_at_parts (c : N) (s before after : pystr) :
  rsplit_at c s = Some (before, after) -> s = before ++ c :: after.
Proof.
  revert before after. induction s as [|x s IH]; intros before after; simpl.
  - discriminate.
  - destruct (rsplit_at c s) as [[b a]|].
    + intros [= <- <-]. simpl. f_equal. now apply IH.
    + destruct (x =? c) eqn:E; [|discriminate].
      apply N.eqb_eq in E. subst x. now intros [= <- <-].
Qed.

Lemma basename_suffix (p : pystr) : exists pre, p = pre ++ basename p.
Proof.
  unfold basename. destruct (rsplit_at SLASH p) as [[before after]|] eqn:E.
  - apply rsplit_at_parts in E. exists (before ++ [SLASH]).
    now rewrite <- app_assoc.
  - now exists [].
Qed.

(** A backup path is the path it stands for followed by [.bak]. *)
Lemma backup_path_parts (b : pystr) :
  endswith (basename b) (py ".bak") = true ->
  b = take (length b - 4) b ++ py ".bak".
Proof.
  intros H. apply endswith_suffix in H. destruct H as [pre Hpre].
  destruct (basename_suffix b) as [dir Hb]. rewrite Hpre in Hb.
  rewrite app_assoc in Hb. clear Hpre. subst b.
  rewrite length_app. change (length (py ".bak")) with 4%nat.
  replace (length (dir ++ pre) + 4 - 4)%nat with (length (dir ++ pre)) by lia.
  now rewrite take_app_length.
Qed.

(** The loop of [max] either meets a key that raises, or ends on an
    item of the list whose key is the largest. *)
Lemma max_from_cases {A} (key : A -> result Q) (items : list A) :
  forall (best : A) (best_key : Q),
  key best = Returned best_key ->
  (exists m km,
     max_from key best best_key items = Returned m /\
     In m (best :: items) /\ key m = Returned km /\
     (best_key <= km)%Q /\
     forall x, In x items -> exists k, key x = Returned k /\ (k <= km)%Q) \/
  (exists x e,
     In x items /\ key x = Raised e /\
     max_from key best best_key items = Raised e).
Proof.
  induction items as [|y items IH]; intros best bk Hbest; cbn [max_from].
  - left. exists best, bk. split; [reflexivity|]. split; [now left|].
    split; [exact Hbest|]. split; [apply Qle_refl|]. intros x [].
  - destruct (key y) as [k|e] eqn:Ey.
    2:{ right. exists y, e. split; [now left|]. now split. }
    destruct (Qle_bool k bk) eqn:E.
    + apply Qle_bool_iff in E.
      destruct (IH best bk Hbest)
        as [(m & km & Hrun & Hin & Hm & Hle & Hall) | (x & e & Hin & Hx & Hrun)].
      * left. exists m, km. split; [exact Hrun|]. split.
        { destruct Hin as [Hin | Hin]; [now left | now right; right]. }
        split; [exact Hm|]. split; [exact Hle|].
        intros x [<- | Hx]; [|now apply Hall].
        exists k. split; [exact Ey|]. eapply Qle_trans; [exact E | exact Hle].
      * right. exists x, e. split; [now right|]. now split.
    + assert (Hlt : (bk < k)%Q).
      { apply Qnot_le_lt. intros Hle. apply Qle_bool_iff in Hle. congruence. }
      destruct (IH y k Ey)
        as [(m & km & Hrun & Hin & Hm & Hle & Hall) | (x & e & Hin & Hx & Hrun)].
      * left. exists m, km. split; [exact Hrun|]. split; [now right|].
        split; [exact Hm|]. split.
        { apply Qlt_le_weak. eapply Qlt_le_trans; [exact Hlt | exact Hle]. }
        intros x [<- | Hx]; [|now apply Hall].
        exists k. now split.
      * right. exists x, e. split; [now right|]. now split.
Qed.

Lemma max_by_cases {A} (key : A -> result Q) (first : A) (others : list A) :
  (exists m km,
     max_by key first others = Returned m /\
     In m (first :: others) /\ key m = Returned km /\
     forall x, In x (first :: others) ->
               exists k, key x = Returned k /\ (k <= km)%Q) \/
  (exists x e,
     In x (first :: others) /\ key x = Raised e /\
     max_by key first others = Raised e).
Proof.
  unfold max_by. destruct (key first) as [k|e] eqn:Ef.
  2:{ right. exists first, e. split; [now left|]. now split. }
  destruct (max_from_cases key others first k Ef)
    as [(m & km & Hrun & Hin & Hm & Hle & Hall) | (x & e & Hin & Hx & Hrun)].
  - left. exists m, km. split; [exact Hrun|]. split; [exact Hin|].
    split; [exact Hm|].
    intros x [<- | Hx]; [|now apply Hall]. exists k. now split.
  - right. exists x, e. split; [now right|]. now split.
Qed.

Section ScanFacts.

Variable walk : gmap pystr node -> list pystr.
Variable getmtime : pystr -> result Q.

(** The scan collects exactly the candidates, each with the path it
    stands for, and changes nothing. *)
Lemma collect_backups_run (paths : list pystr) (w : world) :
  exists found,
    collect_backups paths w = (Returned found, w) /\
    forall b o, In (b, o) found <->
                candidate (files w) paths b /\ o = take (length b - 4) b.
Proof.
  induction paths as [|q paths (found & Hrun & Hfound)]; cbn [collect_backups].
  - exists []. split; [reflexivity|]. intros b o. split; [intros []|].
    now intros [[[] _] _].
  - destruct (endswith (basename q) (py ".bak")) eqn:Eend.
    + rewrite (bind_returned _ _ _ _ _ (path_exists_run _ w)).
      rewrite (bind_returned _ _ _ _ _ Hrun), ret_run.
      destruct (on_disk (files w) (take (length q - 4) q)) eqn:Edisk.
      * exists ((q, take (length q - 4) q) :: found). split; [reflexivity|].
        intros b o. split.
        -- intros [[= <- <-] | Hin].
           ++ split; [|reflexivity]. split; [now left | now split].
           ++ apply Hfound in Hin. destruct Hin as [(Hb & He & Hd) Ho].
              split; [|exact Ho]. split; [now right | now split].
        -- intros [(Hb & He & Hd) Ho]. destruct Hb as [<- | Hb].
           ++ left. now rewrite Ho.
           ++ right. apply Hfound. split; [|exact Ho]. now split.
      * exists found. split; [reflexivity|]. intros b o. rewrite Hfound.
        split.
        -- intros [(Hb & He & Hd) Ho]. split; [|exact Ho].
           split; [now right | now split].
        -- intros [(Hb & He & Hd) Ho]. split; [|exact Ho].
           destruct Hb as [<- | Hb]; [congruence|]. now split.
    + exists found. split; [exact Hrun|]. intros b o. rewrite Hfound.
      split.
      * intros [(Hb & He & Hd) Ho]. split; [|exact Ho].
        split; [now right | now split].
      * intros [(Hb & He & Hd) Ho]. split; [|exact Ho].
        destruct Hb as [<- | Hb]; [congruence|]. now split.
Qed.

(** The scan, once the candidates are collected. *)
Lemma find_backup_and_optimized_run (g : globals) (w : world)
    (found : list (pystr * pystr)) :
  collect_backups (walk (files w)) w = (Returned found, w) ->
  find_backup_and_optimized walk getmtime g w =
  match found with
  | [] => (Returned (false, g), logged w [Print 34 []])
  | first :: others =>
      match max_by (fun x => getmtime (fst x)) first others with
      | Returned newest =>
          (Returned (true, {| ORIGINAL_FILE := Some (fst newest);
                              OPTIMIZED_FILE := Some (snd newest) |}),
           logged w [Print 42 [AStr (fst newest)]; Print 43 [AStr (snd newest)]])
      | Raised e => (Raised e, w)
      end
  end.
Proof.
  intros Hrun. unfold find_backup_and_optimized. unfold bind at 1.
  rewrite (bind_returned _ _ _ _ _ Hrun).
  destruct found as [|first others]; [reflexivity|].
  unfold bind at 1, lift.
  destruct (max_by _ first others) as [newest|e]; [|reflexivity].
  now rewrite !bind_print, ret_run, logged_logged.
Qed.

(** The three ways the scan can end. *)
Lemma find_backup_and_optimized_cases (g : globals) (w : world) :
  ((forall b, ~ candidate (files w) (walk (files w)) b) /\
   find_backup_and_optimized walk getmtime g w
   = (Returned (false, g), logged w [Print 34 []])) \/
  (exists o t evs,
     find_backup_and_optimized walk getmtime g w
     = (Returned (true, tracking o), logged w evs) /\
     o <> [] /\
     candidate (files w) (walk (files w)) (o ++ py ".bak") /\
     getmtime (o ++ py ".bak") = Returned t /\
     forall b, candidate (files w) (walk (files w)) b ->
               exists t', getmtime b = Returned t' /\ (t' <= t)%Q) \/
  (exists b e,
     candidate (files w) (walk (files w)) b /\
     getmtime b = Raised e /\
     find_backup_and_optimized walk getmtime g w = (Raised e, w)).
Proof.
  destruct (collect_backups_run (walk (files w)) w) as (found & Hrun & Hfound).
  rewrite !(find_backup_and_optimized_run g w found Hrun).
  destruct found as [|first others].
  - left. split; [|reflexivity].
    intros b Hb. apply (proj2 (Hfound b (take (length b - 4) b))). now split.
  - right. set (key := fun x : pystr * pystr => getmtime (fst x)).
    destruct (max_by_cases key first others)
      as [(m & km & -> & Hin & Hm & Hall) | (x & e & Hin & Hx & ->)].
    + left. destruct m as [b o]. cbn [fst snd] in *.
      apply Hfound in Hin. destruct Hin as [Hcand Ho].
      assert (Hb : b = o ++ py ".bak").
      { rewrite Ho. apply backup_path_parts. apply Hcand. }
      exists o, km. eexists. split; [unfold tracking; now rewrite <- Hb|].
      split.
      { destruct Hcand as (_ & _ & Hd). rewrite <- Ho in Hd.
        intros ->. discriminate. }
      split; [now rewrite <- Hb|]. split; [now rewrite <- Hb|].
      intros b' Hb'.
      apply (Hall (b', take (length b' - 4) b')). apply Hfound. now split.
    + right. destruct x as [b o]. exists b, e.
      apply Hfound in Hin. destruct Hin as [Hcand _].
      split; [exact Hcand|]. split; [exact Hx | reflexivity].
Qed.

(** X19. The scan ends in one of three ways. With no candidate in the
    walk (a file named [*.bak] whose path without the last four
    characters exists) it prints a hint and answers [False], the module
    variables untouched. With candidates whose modification times can
    all be read it answers [True] and sets the two variables to a pair
    [o], [o ++ .bak] where the backup is a candidate of the walk, [o]
    is not the empty string, and no candidate has a later modification
    time than the backup chosen. And when [os.path.getmtime] raises for
    a candidate (a dangling symbolic link, for one), the scan raises
    that exception: [max] is outside any handler. *)
Theorem find_backup_and_optimized_choice (g : globals) (w : world) :
  ((forall b, ~ candidate (files w) (walk (files w)) b) /\
   find_backup_and_optimized walk getmtime g w
   = (Returned (false, g), logged w [Print 34 []])) \/
  (exists o t evs,
     find_backup_and_optimized walk getmtime g w
     = (Returned (true, tracking o), logged w evs) /\
     o <> [] /\
     candidate (files w) (walk (files w)) (o ++ py ".bak") /\
     getmtime (o ++ py ".bak") = Returned t /\
     forall b, candidate (files w) (walk (files w)) b ->
               exists t', getmtime b = Returned t' /\ (t' <= t)%Q) \/
  (exists b e,
     candidate (files w) (walk (files w)) b /\
     getmtime b = Raised e /\
     find_backup_and_optimized walk getmtime g w = (Raised e, w)).
Proof. exact (find_backup_and_optimized_cases g w). Qed.

End ScanFacts.

(* ===================================================================== *)
(** * ChangeAnalyzer: reading the two files *)
(* ===================================================================== *)

Lemma print_notes_run (i : Z) (notes : list pystr) (w : world) :
  exists evs, print_notes i notes w = (Returned tt, logged w evs).
Proof.
  revert i w. induction notes as [|note notes IH]; intros i w; cbn [print_notes].
  - exists []. now rewrite logged_nil.
  - rewrite bind_print. destruct (IH (i + 1)%Z (logged w [Print 197 [AInt i; AStr note]]))
      as [evs ->].
    eexists. now rewrite logged_logged.
Qed.

Lemma is_set_at (fs : gmap pystr node) (v : option pystr) (n : node) :
  node_at fs (path_of v) = Some n -> is_set v = true.
Proof.
  intros H. unfold is_set. apply truthy_nonempty. exact (node_at_nonempty _ _ _ H).
Qed.

Section ChangeFacts.

Variable unified_diff : list pystr -> list pystr -> list pystr.

(** The comparison always returns and only prints; what it returns is
    decided by whether both files can be read as UTF-8. *)
Lemma compare_code_changes_cases (g : globals) (w : world) :
  exists r evs,
    compare_code_changes unified_diff g w = (Returned r, logged w evs) /\
    (swap_blocked g (files w) -> r = None) /\
    (forall c,
        node_at (files w) (path_of (ORIGINAL_FILE g)) = Some (File c) \/
        node_at (files w) (path_of (OPTIMIZED_FILE g)) = Some (File c) ->
        utf8_decode c = None -> r = None) /\
    (forall orig opt torig topt,
        node_at (files w) (path_of (ORIGINAL_FILE g)) = Some (File orig) ->
        utf8_decode orig = Some torig ->
        node_at (files w) (path_of (OPTIMIZED_FILE g)) = Some (File opt) ->
        utf8_decode opt = Some topt ->
        r = Some (analyze unified_diff
                    (readlines (universal_newlines torig))
                    (readlines (universal_newlines topt)))).
Proof.
  unfold compare_code_changes.
  destruct (is_set (ORIGINAL_FILE g)) eqn:Eo; cbn [andb negb].
  2:{ exists None, []. rewrite logged_nil. split; [reflexivity|].
      split; [reflexivity|]. split; [reflexivity|].
      intros orig opt torig topt Ho _ _ _.
      apply is_set_at in Ho. congruence. }
  destruct (is_set (OPTIMIZED_FILE g)) eqn:Ep; cbn [andb negb].
  2:{ exists None, []. rewrite logged_nil. split; [reflexivity|].
      split; [reflexivity|]. split; [reflexivity|].
      intros orig opt torig topt _ _ Hp _.
      apply is_set_at in Hp. congruence. }
  unfold try_except.
  destruct (read_text_cases (path_of (ORIGINAL_FILE g)) w)
    as [(orig & torig & Horig & Hdo & Hro) | (Horig & e & Hro)].
  2:{ rewrite (bind_raised _ _ _ _ _ Hro), bind_print, ret_run.
      exists None. eexists. split; [reflexivity|]. split; [reflexivity|].
      split; [reflexivity|].
      intros orig opt torig topt Ho Hd _ _. now elim (Horig orig torig). }
  rewrite (bind_returned _ _ _ _ _ Hro).
  destruct (read_text_cases (path_of (OPTIMIZED_FILE g)) w)
    as [(opt & topt & Hopt & Hdp & Hrp) | (Hopt & e & Hrp)].
  2:{ rewrite (bind_raised _ _ _ _ _ Hrp), bind_print, ret_run.
      exists None. eexists. split; [reflexivity|]. split; [reflexivity|].
      split; [reflexivity|].
      intros orig' opt torig' topt _ _ Hp Hd. now elim (Hopt opt topt). }
  rewrite (bind_returned _ _ _ _ _ Hrp). cbv zeta.
  set (report := analyze unified_diff (readlines (universal_newlines torig))
                   (readlines (universal_newlines topt))).
  assert (Hrun : exists evs,
    (print 183 [] >>
     print 184 [AInt (Z.of_nat (additions report))] >>
     print 185 [AInt (Z.of_nat (deletions report))] >>
     print 186 [AInt (Z.of_nat (changes report))] >>
     match m1_optimizations report with
     | [] => ret tt
     | notes => print 195 [] >> print_notes 1 notes
     end >>
     ret (Some report))%py w = (Returned (Some report), logged w evs)).
  { rewrite !bind_print, !logged_logged.
    destruct (m1_optimizations report) as [|note notes].
    - rewrite bind_ret, ret_run. now eexists.
    - rewrite bind_bind, bind_print, logged_logged.
      match goal with
      | |- context [bind (print_notes ?i ?ns) _ ?W] =>
          destruct (print_notes_run i ns W) as [evs Hn];
          rewrite (bind_returned _ _ _ _ _ Hn)
      end.
      rewrite ret_run, logged_logged. now eexists. }
  destruct Hrun as [evs Hrun]. rewrite Hrun.
  exists (Some report), evs. split; [reflexivity|]. split; [|split].
  - intros [Hb | [Hb | [Hb | Hb]]];
      [congruence | congruence | now elim (Hb opt) | now elim (Hb orig)].
  - intros c [Hc | Hc] Hd; congruence.
  - intros orig' opt' torig' topt' Ho Hdo' Hp Hdp'.
    rewrite Horig in Ho. rewrite Hopt in Hp.
    injection Ho as <-. injection Hp as <-.
    rewrite Hdo in Hdo'. rewrite Hdp in Hdp'.
    injection Hdo' as <-. injection Hdp' as <-. reflexivity.
Qed.

(** X20. [compare_code_changes] never raises and never writes: it
    returns after printing only. When a module variable is unset, or
    one of the two files is missing, is a directory or does not decode
    as UTF-8, it returns [None]; when both files decode, it returns the
    report of the lines of their texts as a text-mode read gives them,
    with [\r\n] and [\r] turned into [\n]. *)
Theorem compare_code_changes_outcome (g : globals) (w : world) :
  exists r evs,
    compare_code_changes unified_diff g w = (Returned r, logged w evs) /\
    (swap_blocked g (files w) -> r = None) /\
    (forall c,
        node_at (files w) (path_of (ORIGINAL_FILE g)) = Some (File c) \/
        node_at (files w) (path_of (OPTIMIZED_FILE g)) = Some (File c) ->
        utf8_decode c = None -> r = None) /\
    (forall orig opt torig topt,
        node_at (files w) (path_of (ORIGINAL_FILE g)) = Some (File orig) ->
        utf8_decode orig = Some torig ->
        node_at (files w) (path_of (OPTIMIZED_FILE g)) = Some (File opt) ->
        utf8_decode opt = Some topt ->
        r = Some (analyze unified_diff
                    (readlines (universal_newlines torig))
                    (readlines (universal_newlines topt)))).
Proof. exact (compare_code_changes_cases g w). Qed.

End ChangeFacts.

(* ===================================================================== *)
(** * ChangeAnalyzer: the optimization notes *)
(* ===================================================================== *)

Lemma contains_unfold (needle s : pystr) :
  contains needle s =
  startswith s needle ||
  match s with
  | [] => false
  | _ :: rest => contains needle rest
  end.
Proof. now destruct s. Qed.

Lemma startswith_app (prefix rest : pystr) :
  startswith (prefix ++ rest) prefix = true.
Proof.
  induction prefix as [|a prefix IH]; simpl.
  - apply startswith_nil.
  - now rewrite N.eqb_refl, IH.
Qed.

Lemma contains_app (needle pre post : pystr) :
  contains needle (pre ++ needle ++ post) = true.
Proof.
  induction pre as [|c pre IH].
  - rewrite contains_unfold. simpl app. now rewrite startswith_app.
  - simpl app. rewrite contains_unfold. cbv match. rewrite IH. apply orb_true_r.
Qed.

Lemma contains_infix (needle s : pystr) :
  contains needle s = true -> infix needle s.
Proof.
  induction s as [|c s IH]; rewrite contains_unfold; intros H;
    apply orb_prop in H; destruct H as [H | H].
  - apply startswith_prefix in H. destruct H as [rest ->]. now exists [], rest.
  - discriminate.
  - apply startswith_prefix in H. destruct H as [rest ->]. now exists [], rest.
  - destruct (IH H) as (pre & post & ->). now exists (c :: pre), post.
Qed.

(** Stripping a line that contains the marker leaves the marker in. *)
Lemma strip_keeps_marker (line : pystr) :
  contains MARKER line = true -> contains MARKER (strip line) = true.
Proof.
  intros H. apply contains_infix in H. destruct H as (pre & post & ->).
  change MARKER with (77 :: py "1 OPTIMIZE" ++ [68]).
  destruct (strip_by_core isspace (fun _ => True) pre (py "1 OPTIMIZE") post 77 68)
    as (pre' & post' & Hs & _); try reflexivity.
  - apply Forall_forall. intros; exact I.
  - apply Forall_forall. intros; exact I.
  - unfold strip. rewrite Hs. apply contains_app.
Qed.

(** X21. Every note of a change report still contains the marker
    [M1 OPTIMIZED]: stripping the whitespace around a marked line never
    cuts into the marker. There is one note for each line of the
    optimized text that contains the marker, whatever the differ
    reports. *)
Theorem notes_keep_marker (unified_diff : list pystr -> list pystr -> list pystr)
    (original_lines optimized_lines : list pystr) :
  Forall (fun note => contains MARKER note = true)
         (m1_optimizations (analyze unified_diff original_lines optimized_lines)) /\
  length (m1_optimizations (analyze unified_diff original_lines optimized_lines))
  = length (List.filter (contains MARKER) optimized_lines).
Proof.
  unfold analyze.
  destruct (count_changes _ 0 0 0) as [[a d] c]. cbn [m1_optimizations].
  unfold optimization_notes. split; [|apply length_map].
  apply List.Forall_forall. intros note Hin. apply in_map_iff in Hin.
  destruct Hin as (line & <- & Hline).
  apply (proj1 (List.filter_In (contains MARKER) line optimized_lines)) in Hline.
  destruct Hline as [_ Hline].
  now apply strip_keeps_marker.
Qed.

(* ===================================================================== *)
(** * ReportBuilder: the figures and the two output files *)
(* ===================================================================== *)

Section Figures.

Local Open Scope Q_scope.

Lemma count_positive (n : nat) : 0 < inject_Z (Z.of_nat (S n)).
Proof.
  change 0 with (inject_Z 0). rewrite <- Zlt_Qlt. lia.
Qed.

(** The mean of a non-empty sample set is zero exactly when its sum is. *)
Lemma mean_run (x : Q) (data : list Q) :
  exists m, mean (x :: data) = Returned m /\ (m == 0 <-> total (x :: data) == 0).
Proof.
  eexists. split; [reflexivity|].
  fold (total (x :: data)). set (t := total (x :: data)).
  set (n := inject_Z (Z.of_nat (length (x :: data)))).
  assert (Hn : 0 < n) by apply count_positive.
  assert (Hn0 : ~ n == 0) by (intros H; rewrite H in Hn; discriminate).
  split; intros H.
  - rewrite <- (Qmult_div_r t n Hn0). unfold Qdiv in *.
    rewrite H. apply Qmult_0_r.
  - unfold Qdiv. rewrite H. apply Qmult_0_l.
Qed.

Lemma divide_cases (a b : Q) :
  (b == 0 /\ divide a b = Raised ZeroDivisionError) \/
  (~ b == 0 /\ divide a b = Returned (a / b)).
Proof.
  unfold divide. destruct (Qeq_bool b 0) eqn:E.
  - left. split; [now apply Qeq_bool_iff | reflexivity].
  - right. split; [|reflexivity]. intros H. apply Qeq_bool_iff in H. congruence.
Qed.

(** On two non-empty sample sets the figures exist unless a sum is
    zero, and then the division by the zero mean raises. *)
Lemma summarize_cases (x y : Q) (xs ys : list Q) :
  ((total (x :: xs) == 0 \/ total (y :: ys) == 0) /\
   summarize (x :: xs) (y :: ys) = Raised ZeroDivisionError) \/
  (~ total (x :: xs) == 0 /\ ~ total (y :: ys) == 0 /\
   exists figures, summarize (x :: xs) (y :: ys) = Returned figures).
Proof.
  unfold summarize.
  destruct (mean_run x xs) as (mo & -> & Hmo).
  destruct (mean_run y ys) as (ms & -> & Hms).
  cbn [result_bind].
  destruct (divide_cases (mo - ms) mo) as [[Ho ->] | [Ho ->]]; cbn [result_bind].
  - left. split; [left; now apply Hmo | reflexivity].
  - destruct (divide_cases 1000 mo) as [[Ho' ->] | [_ ->]]; cbn [result_bind].
    + now elim Ho.
    + destruct (divide_cases 1000 ms) as [[Hs ->] | [Hs ->]]; cbn [result_bind].
      * left. split; [right; now apply Hms | reflexivity].
      * right. split; [intros H; now apply Ho, Hmo|].
        split; [intros H; now apply Hs, Hms|]. now eexists.
Qed.

End Figures.

Lemma write_bytes_cases (p : pystr) (s : bytes) (w : world) :
  write_bytes p s w = (Returned tt, set_files (<[p := File s]> (files w)) w) \/
  exists e, write_bytes p s w = (Raised e, w).
Proof.
  unfold write_bytes. destruct p as [|c p]; [right; now eexists|].
  case_node; [now left | right; now eexists | now left].
Qed.

Lemma bind_lift {A B} (r : result A) (k : A -> M B) (w : world) :
  bind (lift r) k w =
  match r with
  | Returned a => k a w
  | Raised e => (Raised e, w)
  end.
Proof. now destruct r. Qed.

(** Runs the pure steps at the head of a command. *)
Ltac lifted := repeat (rewrite bind_lift; cbv beta iota zeta).

Section ReportFacts.

Variable plot_frame_times : Q -> Q -> result unit.
Variable render_plot : summary -> result bytes.
Variable json_dump : results -> bytes.

(** No exception leaves [visualize_results], and it writes to its two
    output files at most. *)
Lemma visualize_results_returns (original_times optimized_times : list Q)
    (changes : option change_report) (w : world) :
  exists w',
    visualize_results plot_frame_times render_plot json_dump
      original_times optimized_times changes w
    = (Returned tt, w') /\
    forall q, q <> PLOT_FILE -> q <> RESULTS_FILE ->
              node_at (files w') q = node_at (files w) q.
Proof.
  unfold visualize_results.
  destruct original_times as [|x xs]; [now exists w|].
  destruct optimized_times as [|y ys]; [now exists w|].
  unfold try_except.
  assert (Hfail : forall e : exn,
            exists w',
              (let (r, w'0) := (@Raised unit e, w) in
               match r with
               | Returned a => (Returned a, w'0)
               | Raised _ => print 290 [] w'0
               end) = (Returned tt, w') /\
              forall q, q <> PLOT_FILE -> q <> RESULTS_FILE ->
                        node_at (files w') q = node_at (files w) q).
  { intros e. rewrite print_run. eexists. split; [reflexivity|].
    intros. now rewrite files_logged. }
  lifted. destruct (mean (x :: xs)) as [ao|e]; [|apply (Hfail e)].
  lifted. destruct (mean (y :: ys)) as [av|e]; [|apply (Hfail e)].
  lifted. destruct (divide (ao - av) ao) as [ratio|e]; [|apply (Hfail e)].
  lifted. destruct (plot_frame_times ao av) as [[]|e]; [|apply (Hfail e)].
  lifted. destruct (divide 1000 ao) as [fo|e]; [|apply (Hfail e)].
  lifted. destruct (divide 1000 av) as [fv|e]; [|apply (Hfail e)].
  lifted. destruct (render_plot _) as [image|e]; [|apply (Hfail e)].
  clear Hfail.
  destruct (write_bytes_cases PLOT_FILE image w) as [Hw | [e Hw]].
  2:{ rewrite (bind_raised _ _ _ _ _ Hw), print_run.
      eexists; split; [reflexivity | intros; now rewrite files_logged]. }
  rewrite (bind_returned _ _ _ _ _ Hw), bind_print.
  match goal with
  | |- context [bind (write_bytes RESULTS_FILE ?c) _ ?W] =>
      destruct (write_bytes_cases RESULTS_FILE c W) as [Hr | [e Hr]]
  end.
  - rewrite (bind_returned _ _ _ _ _ Hr), print_run.
    eexists. split; [reflexivity|]. intros q Hq Hq'.
    rewrite files_logged, files_set_files, files_logged, files_set_files.
    rewrite node_at_insert_ne by congruence.
    now rewrite node_at_insert_ne by congruence.
  - rewrite (bind_raised _ _ _ _ _ Hr), print_run.
    eexists. split; [reflexivity|]. intros q Hq Hq'.
    rewrite !files_logged, files_set_files.
    now rewrite node_at_insert_ne by congruence.
Qed.

(** X22. [visualize_results] never raises, whatever the samples, the
    plotting library and the file system do: every exception ends in
    the printed error line. Apart from its two output files,
    [m1_performance_comparison.png] and [m1_performance_results.json],
    it leaves every path as it was. *)
Theorem visualize_results_contained (original_times optimized_times : list Q)
    (changes : option change_report) (w : world) :
  exists w',
    visualize_results plot_frame_times render_plot json_dump
      original_times optimized_times changes w
    = (Returned tt, w') /\
    forall q, q <> PLOT_FILE -> q <> RESULTS_FILE ->
              node_at (files w') q = node_at (files w) q.
Proof. exact (visualize_results_returns original_times optimized_times changes w). Qed.

(** X23. When the figures can be computed, both stages of the plot
    succeed and neither output path is a directory, [visualize_results]
    writes the image to [m1_performance_comparison.png] and then the
    serialised results to [m1_performance_results.json]: the two
    averages, the two frame rates, both sample sets as given, the
    improvement and the change report passed in; it prints the two
    confirmations and nothing else. *)
Theorem visualize_results_writes (original_times optimized_times : list Q)
    (changes : option change_report) (figures : summary) (image : bytes)
    (w : world) :
  summarize original_times optimized_times = Returned figures ->
  plot_frame_times (avg_original figures) (avg_optimized figures) = Returned tt ->
  render_plot figures = Returned image ->
  node_at (files w) PLOT_FILE <> Some Dir ->
  node_at (files w) RESULTS_FILE <> Some Dir ->
  visualize_results plot_frame_times render_plot json_dump
    original_times optimized_times changes w
  = (Returned tt,
     logged
       (set_files
          (<[RESULTS_FILE :=
               File (json_dump
                 {| original := {| avg_frame_time_ms := avg_original figures;
                                   estimated_fps := fps_original figures;
                                   all_runs_ms := original_times |};
                    m1_optimized := {| avg_frame_time_ms := avg_optimized figures;
                                       estimated_fps := fps_optimized figures;
                                       all_runs_ms := optimized_times |};
                    improvement_percentage := improvement_pct figures;
                    code_changes := changes |})]>
             (<[PLOT_FILE := File image]> (files w))) w)
       [Print 264 []; Print 287 []]).
Proof.
  intros Hsum Hchart Hplot Hp Hr. unfold visualize_results.
  destruct original_times as [|x xs]; [discriminate|].
  destruct optimized_times as [|y ys].
  { unfold summarize in Hsum. destruct (mean (x :: xs)); discriminate. }
  unfold try_except. revert Hsum. unfold summarize, result_bind.
  destruct (mean (x :: xs)) as [ao|e]; [|discriminate].
  destruct (mean (y :: ys)) as [av|e]; [|discriminate].
  lifted.
  destruct (divide (ao - av) ao) as [ratio|e]; [|discriminate].
  destruct (divide 1000 ao) as [fo|e]; [|discriminate].
  destruct (divide 1000 av) as [fv|e]; [|discriminate].
  intros [= <-]. cbn [avg_original avg_optimized] in Hchart.
  lifted. rewrite Hchart. lifted. rewrite Hplot.
  rewrite (bind_returned _ _ _ _ _
             (write_bytes_run PLOT_FILE image w ltac:(discriminate) Hp)).
  rewrite bind_print.
  match goal with
  | |- context [bind (write_bytes RESULTS_FILE ?c) _ ?W] =>
      rewrite (bind_returned _ _ _ _ _
                 (write_bytes_run RESULTS_FILE c W ltac:(discriminate)
                    ltac:(rewrite files_logged, files_set_files,
                            node_at_insert_ne by discriminate; exact Hr)))
  end.
  rewrite print_run, files_logged, files_set_files, set_files_logged,
    set_files_set_files, logged_logged.
  reflexivity.
Qed.

(** X24. Two non-empty sample sets of which one sums to zero make a
    division by a mean raise [ZeroDivisionError], in the summary of
    [main] as in [visualize_results]; [visualize_results] catches
    whatever is raised, prints the error line and returns without
    having written anything, whether the first stage of the plot, which
    lies between its divisions, returns or raises. *)
Theorem visualize_results_zero_mean (original_times optimized_times : list Q)
    (changes : option change_report) (w : world) :
  original_times <> [] -> optimized_times <> [] ->
  (total original_times == 0 \/ total optimized_times == 0)%Q ->
  summarize original_times optimized_times = Raised ZeroDivisionError /\
  visualize_results plot_frame_times render_plot json_dump
    original_times optimized_times changes w
  = (Returned tt, logged w [Print 290 []]).
Proof.
  intros Ho Hs Hzero.
  destruct original_times as [|x xs]; [congruence|].
  destruct optimized_times as [|y ys]; [congruence|].
  destruct (summarize_cases x y xs ys) as [[_ Hsum] | (Hx & Hy & _)];
    [|destruct Hzero; contradiction].
  split; [exact Hsum|]. unfold visualize_results, try_except.
  destruct (mean_run x xs) as (ao & Hao & Hzo).
  destruct (mean_run y ys) as (av & Hav & Hzv).
  rewrite Hao, Hav. lifted.
  destruct (divide_cases (ao - av) ao) as [[Ha ->] | [Ha ->]]; [reflexivity|].
  lifted. destruct (plot_frame_times ao av) as [[]|e]; [|reflexivity].
  lifted. destruct (divide_cases 1000 ao) as [[Ha' ->] | [_ ->]]; [reflexivity|].
  lifted. destruct (divide_cases 1000 av) as [[Hv ->] | [Hv ->]]; [reflexivity|].
  exfalso. destruct Hzero as [Hz | Hz].
  - apply Ha. now apply Hzo.
  - apply Hv. now apply Hzv.
Qed.

End ReportFacts.

(** X23 at a concrete call: one sample of 20 ms against one of 15 ms, no
    change report, an empty working directory. *)
Lemma visualize_results_writes_witness :
  exists w',
    visualize_results (fun _ _ => Returned tt) (fun _ => Returned (py "png"))
      (fun _ => py "{}") [20%Q] [15%Q] None (world_of [])
    = (Returned tt, w') /\
    node_at (files w') PLOT_FILE = Some (File (py "png")) /\
    node_at (files w') RESULTS_FILE = Some (File (py "{}")).
Proof.
  eexists. split.
  - eapply (visualize_results_writes (fun _ _ => Returned tt)
              (fun _ => Returned (py "png")) (fun _ => py "{}")
              [20%Q] [15%Q] None).
    + vm_compute. reflexivity.
    + reflexivity.
    + reflexivity.
    + discriminate.
    + discriminate.
  - split; vm_compute; reflexivity.
Defined.

(** X24 at a concrete call: the one original sample is zero. *)
Lemma visualize_results_zero_mean_witness :
  summarize [0%Q] [15%Q] = Raised ZeroDivisionError /\
  visualize_results (fun _ _ => Returned tt) (fun _ => Returned (py "png"))
    (fun _ => py "{}") [0%Q] [15%Q] None (world_of [])
  = (Returned tt, logged (world_of []) [Print 290 []]).
Proof.
  apply (visualize_results_zero_mean (fun _ _ => Returned tt)
           (fun _ => Returned (py "png"))
           (fun _ => py "{}") [0%Q] [15%Q] None (world_of [])).
  - discriminate.
  - discriminate.
  - left. reflexivity.
Defined.

(* ===================================================================== *)
(** * The analyzer's main *)
(* ===================================================================== *)

Section AnalyzerMain.

Variable plot_frame_times : Q -> Q -> result unit.
Variable render_plot : summary -> result bytes.
Variable json_dump : results -> bytes.
Variable walk : gmap pystr node -> list pystr.
Variable getmtime : pystr -> result Q.
Variable normalvariate : nat -> result Q.
Variable unified_diff : list pystr -> list pystr -> list pystr.

(** X25. With no backup candidate in the walk, [main] of the analyzer
    prints its banner and the hint to run the optimizer first, and
    returns: nothing is read, measured, drawn or written. *)
Theorem main_without_backup (w : world) :
  (forall b, ~ candidate (files w) (walk (files w)) b) ->
  PerfCompare.main plot_frame_times render_plot json_dump walk getmtime
    normalvariate unified_diff w
  = (Returned tt, logged w [Print 294 []; Print 34 []]).
Proof.
  intros Hnone. unfold PerfCompare.main. rewrite bind_print.
  destruct (find_backup_and_optimized_cases walk getmtime initial_globals
              (logged w [Print 294 []]))
    as [[_ Hfind] | [(o & t & evs & _ & _ & Hcand & _) | (b & e & Hcand & _)]].
  - rewrite (bind_returned _ _ _ _ _ Hfind). cbn [negb].
    now rewrite ret_run, logged_logged.
  - now elim (Hnone _ Hcand).
  - now elim (Hnone _ Hcand).
Qed.

Lemma main_cases (w : world) :
  exists r w',
    PerfCompare.main plot_frame_times render_plot json_dump walk getmtime
      normalvariate unified_diff w = (r, w') /\
    (r = Returned tt \/
     r = Raised ZeroDivisionError \/
     exists b e,
       candidate (files w) (walk (files w)) b /\
       getmtime b = Raised e /\ r = Raised e).
Proof.
  unfold PerfCompare.main. rewrite bind_print.
  destruct (find_backup_and_optimized_cases walk getmtime initial_globals
              (logged w [Print 294 []]))
    as [[_ Hfind] | [(o & t & evs & Hfind & _) | (b & e & Hcand & Hb & Hfind)]].
  - rewrite (bind_returned _ _ _ _ _ Hfind). cbn [negb].
    eexists _, _. split; [reflexivity | now left].
  - rewrite (bind_returned _ _ _ _ _ Hfind). cbn [negb].
    set (g := tracking o).
    rewrite bind_print.
    match goal with
    | |- context [bind (compare_code_changes _ _) _ ?W] =>
        destruct (compare_code_changes_cases unified_diff g W)
          as (changes & evs' & Hcmp & _)
    end.
    rewrite (bind_returned _ _ _ _ _ Hcmp), bind_print.
    match goal with
    | |- context [bind (measure_performance _ _) _ ?W] =>
        destruct (measure_performance_cases normalvariate g W)
          as ([os ss] & w1 & Hmeasure & _)
    end.
    rewrite (bind_returned _ _ _ _ _ Hmeasure).
    destruct os as [|x xs]; [eexists _, _; split; [reflexivity | now left]|].
    destruct ss as [|y ys]; [eexists _, _; split; [reflexivity | now left]|].
    rewrite bind_print.
    match goal with
    | |- context [bind (visualize_results _ _ _ ?a ?b ?c) _ ?W] =>
        destruct (visualize_results_returns plot_frame_times render_plot
                    json_dump a b c W) as (w2 & Hvis & _)
    end.
    rewrite (bind_returned _ _ _ _ _ Hvis).
    unfold bind at 1, lift.
    destruct (summarize_cases x y xs ys) as [[_ ->] | (_ & _ & figures & ->)].
    + eexists _, _. split; [reflexivity | right; now left].
    + rewrite !bind_print.
      destruct (verdict (improvement_pct figures)); rewrite print_run;
        eexists _, _; (split; [reflexivity | now left]).
  - rewrite (bind_raised _ _ _ _ _ Hfind).
    eexists _, _. split; [reflexivity|]. right. right. now exists b, e.
Qed.

(** X26. What [main] of the analyzer can let escape. The comparison,
    the measurement and the visualisation all contain their failures;
    outside any handler lie the scan, where [os.path.getmtime] can
    raise for a backup candidate, and the summary that [main]
    recomputes, which divides by the two means of non-empty sample
    sets. Every run returns, raises [ZeroDivisionError], or raises what
    [os.path.getmtime] raised for a candidate. *)
Theorem main_returns_or_divides_by_zero (w : world) :
  exists r w',
    PerfCompare.main plot_frame_times render_plot json_dump walk getmtime
      normalvariate unified_diff w = (r, w') /\
    (r = Returned tt \/
     r = Raised ZeroDivisionError \/
     exists b e,
       candidate (files w) (walk (files w)) b /\
       getmtime b = Raised e /\ r = Raised e).
Proof. exact (main_cases w). Qed.

End AnalyzerMain.

(** X25 at a concrete world: an empty working directory. *)
Lemma main_without_backup_witness :
  PerfCompare.main (fun _ _ => Returned tt) (fun _ => Returned (py "png"))
    (fun _ => py "{}") (fun _ => []) (fun _ => Returned 0%Q)
    (fun _ => Returned 0%Q) whole_file_diff (world_of [])
  = (Returned tt, logged (world_of []) [Print 294 []; Print 34 []]).
Proof.
  apply main_without_backup. intros b [[] _].
Defined.

(* ===================================================================== *)
(** * The optimizer's main on a project without its files *)
(* ===================================================================== *)

Section BareProject.

Variable b64encode : bytes -> pystr.
Variable tree_run : option (Z * pystr).
Variable requests_post : request -> result response.
Variable unicode_isalnum : N -> bool.

(** Without the context files the fallback list decides, silently. *)
Lemma identify_fallback_run (w : world) :
  node_at (files w) COMPRESSED_FILE = None ->
  node_at (files w) UNCOMPRESSED_FILE = None ->
  exists f evs,
    identify_critical_file b64encode tree_run requests_post w
    = (Returned (Some f), logged w evs) /\
    In f RENDERING_FILES /\ no_request evs.
Proof.
  intros Hc Hu. unfold identify_critical_file.
  destruct (get_directory_structure_run tree_run w) as [out Htree].
  rewrite (bind_returned _ _ _ _ _ Htree).
  rewrite (bind_returned _ _ _ _ _
             (encode_file_missing b64encode COMPRESSED_FILE (logged w [RunTree]) Hc)).
  rewrite logged_logged.
  rewrite (bind_returned _ _ _ _ _
             (encode_file_missing b64encode UNCOMPRESSED_FILE (logged w _) Hu)).
  change (negb (truthy []) && negb (truthy [])) with true. cbv iota.
  rewrite bind_print, !logged_logged.
  match goal with |- context [logged w ?evs0] =>
    destruct (first_existing_run RENDERING_FILES (logged w evs0))
      as (evs & Hrun & Hevs)
  end.
  rewrite (bind_returned _ _ _ _ _ Hrun), files_logged, logged_logged.
  destruct (List.find (on_disk (files w)) RENDERING_FILES) as [fallback|] eqn:Efind.
  - rewrite ret_run. eexists _, _. split; [reflexivity|].
    split; [exact (proj1 (find_some _ _ Efind)) | auto 10 with quiet].
  - rewrite bind_print, ret_run, logged_logged.
    eexists _, _. split; [reflexivity|].
    split; [now left | auto 10 with quiet].
Qed.

(** What is not a regular file is turned down before anything is done. *)
Lemma optimize_turned_down (file_path : pystr) (w : world) :
  (forall c, node_at (files w) file_path <> Some (File c)) ->
  exists evs,
    optimize_file_for_m1 requests_post unicode_isalnum file_path w
    = (Returned false, logged w evs) /\
    no_request evs.
Proof.
  intros Hnot. unfold optimize_file_for_m1.
  destruct file_path as [|x p]; cbn [truthy negb].
  - rewrite bind_print, ret_run. eexists. split; [reflexivity | auto with quiet].
  - rewrite (bind_returned _ _ _ _ _ (isfile_run (x :: p) w)).
    destruct (node_at (files w) (x :: p)) as [[c|]|] eqn:E; cbn [negb].
    + now elim (Hnot c).
    + rewrite bind_print, ret_run. eexists. split; [reflexivity | auto with quiet].
    + rewrite bind_print, ret_run. eexists. split; [reflexivity | auto with quiet].
Qed.

(** X27. In a project that has neither of the two context files and
    none of the five fallback files as a regular file, [main] of the
    optimizer runs to its end and reports failure: it sends no request
    and leaves every file as it was. *)
Theorem main_bare_project (w : world) :
  node_at (files w) COMPRESSED_FILE = None ->
  node_at (files w) UNCOMPRESSED_FILE = None ->
  Forall (fun f => forall c, node_at (files w) f <> Some (File c)) RENDERING_FILES ->
  exists evs,
    OllamaApi.main b64encode tree_run requests_post unicode_isalnum w
    = (Returned (Done false), logged w evs) /\
    no_request evs.
Proof.
  intros Hc Hu Hnone. unfold OllamaApi.main. rewrite !bind_print, logged_logged.
  match goal with |- context [logged w ?evs0] =>
    destruct (identify_fallback_run (logged w evs0) Hc Hu)
      as (f & evs & Hid & Hin & Hevs)
  end.
  rewrite (bind_returned _ _ _ _ _ Hid), logged_logged.
  assert (Hf : forall c, node_at (files w) f <> Some (File c))
    by exact (proj1 (List.Forall_forall _ _) Hnone f Hin).
  destruct f as [|x f].
  { exfalso. revert Hin. clear. intros Hin.
    repeat (destruct Hin as [Hin | Hin]; [discriminate|]). exact Hin. }
  rewrite !bind_print, !logged_logged.
  match goal with |- context [logged w ?evs0] =>
    destruct (optimize_turned_down (x :: f) (logged w evs0) Hf)
      as (evs' & Hopt & Hevs')
  end.
  rewrite (bind_returned _ _ _ _ _ Hopt), bind_print, ret_run, !logged_logged.
  eexists. split; [reflexivity|]. auto 20 with quiet.
Qed.

End BareProject.

(** X27 at a concrete world: an empty working directory, no [tree]
    command, an unreachable service. *)
Lemma main_bare_project_witness :
  exists evs,
    OllamaApi.main (fun s => s) None (fun _ => Raised (ExternalError 0))
      (fun _ => false) (world_of [])
    = (Returned (Done false), logged (world_of []) evs) /\
    no_request evs.
Proof.
  apply main_bare_project.
  - reflexivity.
  - reflexivity.
  - repeat constructor; discriminate.
Defined.
